(** * Rune class database (database/class.c)

    Template classes (Tclass), their concrete classes (Class), the lookup of an
    existing class for a constructor signature, the default class, and the
    generated [toString] / [dump] methods.

    The compiler keeps every object in a table addressed by a handle; the
    tables are modelled as total arrays with an allocation mark, a null handle
    is [None], and a failed [utAssert] or the use of a null handle stops the
    compiler ([Abort]). *)

From Stdlib Require Import String Ascii List NArith Arith Bool Lia.
Import ListNotations.

Set Warnings "-register-all".

(** ** Results of code that may stop the compiler *)

Inductive Result (A : Type) : Type :=
| Ok (a : A)
| Abort.
Arguments Ok {A} a.
Arguments Abort {A}.

Definition bind {A B} (m : Result A) (k : A -> Result B) : Result B :=
  match m with
  | Ok a => k a
  | Abort => Abort
  end.

Notation "x <- m ;; k" := (bind m (fun x => k))
  (at level 61, m at next level, right associativity).
Notation "' p <- m ;; k" := (bind m (fun x => let p := x in k))
  (at level 61, p pattern, m at next level, right associativity).

(** Using a handle that may be null. *)
Definition deref {A} (h : option A) : Result A :=
  match h with
  | Some a => Ok a
  | None => Abort
  end.

(** [utAssert]. *)
Definition utAssert (b : bool) : Result unit :=
  if b then Ok tt else Abort.

(** ** Handles and plain values *)

Definition deTclass := nat.
Definition deClass := nat.
Definition deFunction := nat.
Definition deBlock := nat.
Definition deVariable := nat.
Definition deIdent := nat.
Definition deSignature := nat.
Definition deStatement := nat.
Definition deLine := nat.
Definition deFilepath := nat.
Definition deLinkage := nat.
Definition utSym := string.

(** [uint32] arithmetic. *)
Definition uint32_max : N := 4294967295.
Definition u32 (n : N) : N := (n mod 4294967296)%N.

Inductive deDatatypeType :=
| DE_TYPE_NONE | DE_TYPE_BOOL | DE_TYPE_STRING | DE_TYPE_UINT | DE_TYPE_INT
| DE_TYPE_FLOAT | DE_TYPE_ARRAY | DE_TYPE_TCLASS | DE_TYPE_CLASS
| DE_TYPE_TBDCLASS | DE_TYPE_NULL | DE_TYPE_TUPLE.

Inductive deVariableType := DE_VAR_LOCAL | DE_VAR_PARAMETER.
Inductive deBlockType := DE_BLOCK_FUNCTION | DE_BLOCK_STATEMENT | DE_BLOCK_CLASS.
Inductive deFunctionType := DE_FUNC_PLAIN | DE_FUNC_CONSTRUCTOR | DE_FUNC_DESTRUCTOR.
Inductive deIdentType := DE_IDENT_FUNCTION | DE_IDENT_VARIABLE.
Inductive deStatementType := DE_STATEMENT_RETURN | DE_STATEMENT_PRINT.
Inductive deExpressionType :=
| DE_EXPR_IDENT | DE_EXPR_STRING | DE_EXPR_TUPLE | DE_EXPR_LIST | DE_EXPR_DOT
| DE_EXPR_CAST | DE_EXPR_CALL | DE_EXPR_MOD | DE_EXPR_UINTTYPE.

Definition deDatatypeType_eqb (a b : deDatatypeType) : bool :=
  match a, b with
  | DE_TYPE_NONE, DE_TYPE_NONE | DE_TYPE_BOOL, DE_TYPE_BOOL
  | DE_TYPE_STRING, DE_TYPE_STRING | DE_TYPE_UINT, DE_TYPE_UINT
  | DE_TYPE_INT, DE_TYPE_INT | DE_TYPE_FLOAT, DE_TYPE_FLOAT
  | DE_TYPE_ARRAY, DE_TYPE_ARRAY | DE_TYPE_TCLASS, DE_TYPE_TCLASS
  | DE_TYPE_CLASS, DE_TYPE_CLASS | DE_TYPE_TBDCLASS, DE_TYPE_TBDCLASS
  | DE_TYPE_NULL, DE_TYPE_NULL | DE_TYPE_TUPLE, DE_TYPE_TUPLE => true
  | _, _ => false
  end.

Definition deVariableType_eqb (a b : deVariableType) : bool :=
  match a, b with
  | DE_VAR_LOCAL, DE_VAR_LOCAL | DE_VAR_PARAMETER, DE_VAR_PARAMETER => true
  | _, _ => false
  end.

Definition deExpressionType_eqb (a b : deExpressionType) : bool :=
  match a, b with
  | DE_EXPR_IDENT, DE_EXPR_IDENT | DE_EXPR_STRING, DE_EXPR_STRING
  | DE_EXPR_TUPLE, DE_EXPR_TUPLE | DE_EXPR_LIST, DE_EXPR_LIST
  | DE_EXPR_DOT, DE_EXPR_DOT | DE_EXPR_CAST, DE_EXPR_CAST
  | DE_EXPR_CALL, DE_EXPR_CALL | DE_EXPR_MOD, DE_EXPR_MOD
  | DE_EXPR_UINTTYPE, DE_EXPR_UINTTYPE => true
  | _, _ => false
  end.

(** ** Datatypes

    Modelled from the spec: datatypes are immutable records kept unique by the
    datatype table (datatype.c), so that two handles are equal exactly when
    the datatypes are identical; a datatype is therefore its contents: the
    type tag and the one union member the tag selects. *)
Inductive deDatatype :=
| deNoneDatatype
| deBoolDatatype
| deStringDatatype
| deUintDatatype (width : N)
| deIntDatatype (width : N)
| deFloatDatatype (width : N)
| deArrayDatatype (elementType : deDatatype)
| deTclassDatatype (tclass : deTclass)
| deClassDatatype (theClass : deClass)
| deTbdclassDatatype (tclass : deTclass)
| deNullDatatype (tclass : deTclass)
| deTupleDatatype (types : list deDatatype).

Definition deUintDatatypeCreate (width : N) : deDatatype := deUintDatatype width.
Definition deClassDatatypeCreate (theClass : deClass) : deDatatype :=
  deClassDatatype theClass.
Definition deTclassDatatypeCreate (tclass : deTclass) : deDatatype :=
  deTclassDatatype tclass.
Definition deTupleDatatypeCreate (types : list deDatatype) : deDatatype :=
  deTupleDatatype types.

Definition deDatatypeGetType (d : deDatatype) : deDatatypeType :=
  match d with
  | deNoneDatatype => DE_TYPE_NONE
  | deBoolDatatype => DE_TYPE_BOOL
  | deStringDatatype => DE_TYPE_STRING
  | deUintDatatype _ => DE_TYPE_UINT
  | deIntDatatype _ => DE_TYPE_INT
  | deFloatDatatype _ => DE_TYPE_FLOAT
  | deArrayDatatype _ => DE_TYPE_ARRAY
  | deTclassDatatype _ => DE_TYPE_TCLASS
  | deClassDatatype _ => DE_TYPE_CLASS
  | deTbdclassDatatype _ => DE_TYPE_TBDCLASS
  | deNullDatatype _ => DE_TYPE_NULL
  | deTupleDatatype _ => DE_TYPE_TUPLE
  end.

(** The union members: null when the tag selects another member. *)
Definition deDatatypeGetClass (d : deDatatype) : option deClass :=
  match d with
  | deClassDatatype c => Some c
  | _ => None
  end.

Definition deDatatypeGetTclass (d : deDatatype) : option deTclass :=
  match d with
  | deTclassDatatype t | deTbdclassDatatype t | deNullDatatype t => Some t
  | _ => None
  end.

(** Handle equality of datatypes ([==] in the source). *)
Fixpoint deDatatype_eqb (a b : deDatatype) {struct a} : bool :=
  match a, b with
  | deNoneDatatype, deNoneDatatype => true
  | deBoolDatatype, deBoolDatatype => true
  | deStringDatatype, deStringDatatype => true
  | deUintDatatype w, deUintDatatype w' => N.eqb w w'
  | deIntDatatype w, deIntDatatype w' => N.eqb w w'
  | deFloatDatatype w, deFloatDatatype w' => N.eqb w w'
  | deArrayDatatype e, deArrayDatatype e' => deDatatype_eqb e e'
  | deTclassDatatype t, deTclassDatatype t' => Nat.eqb t t'
  | deClassDatatype c, deClassDatatype c' => Nat.eqb c c'
  | deTbdclassDatatype t, deTbdclassDatatype t' => Nat.eqb t t'
  | deNullDatatype t, deNullDatatype t' => Nat.eqb t t'
  | deTupleDatatype l, deTupleDatatype l' =>
      (fix all2 (l l' : list deDatatype) {struct l} : bool :=
         match l, l' with
         | [], [] => true
         | x :: xs, y :: ys => deDatatype_eqb x y && all2 xs ys
         | _, _ => false
         end) l l'
  | _, _ => false
  end.

(** Induction over datatypes that reaches the members of a tuple. *)
Section DatatypeInd.
Variable P : deDatatype -> Prop.
Hypothesis HNone : P deNoneDatatype.
Hypothesis HBool : P deBoolDatatype.
Hypothesis HString : P deStringDatatype.
Hypothesis HUint : forall w, P (deUintDatatype w).
Hypothesis HInt : forall w, P (deIntDatatype w).
Hypothesis HFloat : forall w, P (deFloatDatatype w).
Hypothesis HArray : forall e, P e -> P (deArrayDatatype e).
Hypothesis HTclass : forall t, P (deTclassDatatype t).
Hypothesis HClass : forall c, P (deClassDatatype c).
Hypothesis HTbd : forall t, P (deTbdclassDatatype t).
Hypothesis HNull : forall t, P (deNullDatatype t).
Hypothesis HTuple : forall l, Forall P l -> P (deTupleDatatype l).

Fixpoint deDatatype_deep_ind (d : deDatatype) : P d :=
    match d with
    | deNoneDatatype => HNone
    | deBoolDatatype => HBool
    | deStringDatatype => HString
    | deUintDatatype w => HUint w
    | deIntDatatype w => HInt w
    | deFloatDatatype w => HFloat w
    | deArrayDatatype e => HArray e (deDatatype_deep_ind e)
    | deTclassDatatype t => HTclass t
    | deClassDatatype c => HClass c
    | deTbdclassDatatype t => HTbd t
    | deNullDatatype t => HNull t
    | deTupleDatatype l =>
        HTuple l ((fix members (l : list deDatatype) : Forall P l :=
                   match l with
                   | [] => Forall_nil P
                   | x :: xs => Forall_cons x (deDatatype_deep_ind x) (members xs)
                   end) l)
    end.
End DatatypeInd.

(** ** Expressions

    Expression trees are built bottom up and handed to their parent once, so
    a tree is modelled by its value. *)
Inductive deExpression :=
| Expression (type : deExpressionType) (line : deLine)
    (children : list deExpression) (datatype : option deDatatype)
    (name : option utSym) (width : N) (text : option string).

Definition deExpressionGetType (e : deExpression) : deExpressionType :=
  let 'Expression t _ _ _ _ _ _ := e in t.
Definition deExpressionGetLine (e : deExpression) : deLine :=
  let 'Expression _ l _ _ _ _ _ := e in l.
Definition deExpressionGetExpressions (e : deExpression) : list deExpression :=
  let 'Expression _ _ c _ _ _ _ := e in c.
Definition deExpressionGetDatatype (e : deExpression) : option deDatatype :=
  let 'Expression _ _ _ d _ _ _ := e in d.
Definition deExpressionGetName (e : deExpression) : option utSym :=
  let 'Expression _ _ _ _ n _ _ := e in n.
Definition deExpressionGetWidth (e : deExpression) : N :=
  let 'Expression _ _ _ _ _ w _ := e in w.

Definition deExpressionGetLastExpression (e : deExpression) : option deExpression :=
  last (map Some (deExpressionGetExpressions e)) None.

Definition deExpressionCreate (type : deExpressionType) (line : deLine) : deExpression :=
  Expression type line [] None None 0 None.

Definition deExpressionSetDatatype (e : deExpression) (d : deDatatype) : deExpression :=
  let 'Expression t l c _ n w s := e in Expression t l c (Some d) n w s.

Definition deExpressionSetWidth (e : deExpression) (w : N) : deExpression :=
  let 'Expression t l c d n _ s := e in Expression t l c d n w s.

Definition deExpressionAppendExpression (e child : deExpression) : deExpression :=
  let 'Expression t l c d n w s := e in Expression t l (c ++ [child]) d n w s.

Definition deIdentExpressionCreate (sym : utSym) (line : deLine) : deExpression :=
  Expression DE_EXPR_IDENT line [] None (Some sym) 0 None.

Definition deBinaryExpressionCreate (type : deExpressionType)
    (left right : deExpression) (line : deLine) : deExpression :=
  deExpressionAppendExpression
    (deExpressionAppendExpression (deExpressionCreate type line) left) right.

Definition deStringExpressionCreate (s : string) (line : deLine) : deExpression :=
  Expression DE_EXPR_STRING line [] None None 0 (Some s).

Definition deCStringExpressionCreate (s : string) (line : deLine) : deExpression :=
  deStringExpressionCreate s line.

(** [deCopyExpression] makes a deep copy; on values it is the identity. *)
Definition deCopyExpression (e : deExpression) : deExpression := e.

(** ** The database tables *)

Record Table (A : Type) := mkTable { used : nat; cell : nat -> A }.
Arguments mkTable {A} used cell.
Arguments used {A} t.
Arguments cell {A} t n.

Definition update {A} (f : nat -> A) (k : nat) (a : A) : nat -> A :=
  fun i => if Nat.eqb i k then a else f i.

Definition tableAlloc {A} (fresh : A) (t : Table A) : nat * Table A :=
  (used t, mkTable (S (used t)) (update (cell t) (used t) fresh)).

Definition tableModify {A} (k : nat) (f : A -> A) (t : Table A) : Table A :=
  mkTable (used t) (update (cell t) k (f (cell t k))).

Record TclassRec := mkTclass {
  tclass_Function : option deFunction;
  tclass_RefWidth : N;
  tclass_Datatype : option deDatatype;
  tclass_Line : deLine;
  tclass_HasDefaultClass : bool;
  tclass_NumClasses : N;
  tclass_Classes : list deClass }.

Record ClassRec := mkClass {
  class_Tclass : option deTclass;
  class_Number : N;
  class_RefWidth : N;
  class_SubBlock : option deBlock;
  class_Datatype : option deDatatype;
  class_Signatures : list deSignature }.

Record FunctionRec := mkFunction {
  function_Type : deFunctionType;
  function_Linkage : deLinkage;
  function_Line : deLine;
  function_Builtin : bool;
  function_SubBlock : option deBlock;
  function_Tclass : option deTclass;
  function_Idents : list deIdent }.

Record BlockRec := mkBlock {
  block_Filepath : option deFilepath;
  block_Type : deBlockType;
  block_Line : deLine;
  block_Variables : list deVariable;
  block_Functions : list deFunction;
  block_Idents : list deIdent;
  block_Statements : list deStatement }.

Record VariableRec := mkVariable {
  variable_Type : deVariableType;
  variable_Const : bool;
  variable_Sym : utSym;
  variable_Initializer : option deExpression;
  variable_Generated : bool;
  variable_Line : deLine;
  variable_IsType : bool;
  variable_InTclassSignature : bool;
  variable_Datatype : option deDatatype;
  variable_Instantiated : bool }.

Record IdentRec := mkIdent {
  ident_Block : option deBlock;
  ident_Type : deIdentType;
  ident_Sym : utSym;
  ident_Line : deLine;
  ident_Function : option deFunction }.

Record SignatureRec := mkSignature {
  signature_Function : option deFunction;
  signature_Class : option deClass;
  signature_Types : list deDatatype }.

Record StatementRec := mkStatement {
  statement_Type : deStatementType;
  statement_Line : deLine;
  statement_Expression : option deExpression }.

Record deRoot := mkRoot {
  Tclasses : Table TclassRec;
  Classes : Table ClassRec;
  Functions : Table FunctionRec;
  Blocks : Table BlockRec;
  Variables : Table VariableRec;
  Idents : Table IdentRec;
  Signatures : Table SignatureRec;
  Statements : Table StatementRec;
  root_Tclasses : list deTclass;
  root_Classes : list deClass }.

(** The empty database. *)
Definition emptyTable {A} (zero : A) : Table A := mkTable 0 (fun _ => zero).

Definition zeroTclass : TclassRec := mkTclass None 0 None 0 false 0 [].
Definition zeroClass : ClassRec := mkClass None 0 0 None None [].
Definition zeroFunction : FunctionRec := mkFunction DE_FUNC_PLAIN 0 0 false None None [].
Definition zeroBlock : BlockRec := mkBlock None DE_BLOCK_FUNCTION 0 [] [] [] [].
Definition zeroVariable : VariableRec :=
  mkVariable DE_VAR_LOCAL false EmptyString None false 0 false false None false.
Definition zeroIdent : IdentRec := mkIdent None DE_IDENT_FUNCTION EmptyString 0 None.
Definition zeroSignature : SignatureRec := mkSignature None None [].
Definition zeroStatement : StatementRec := mkStatement DE_STATEMENT_RETURN 0 None.

Definition deRootCreate : deRoot :=
  mkRoot (emptyTable zeroTclass) (emptyTable zeroClass) (emptyTable zeroFunction)
    (emptyTable zeroBlock) (emptyTable zeroVariable) (emptyTable zeroIdent)
    (emptyTable zeroSignature) (emptyTable zeroStatement) [] [].

(** *** Writing one table of the database *)

Definition withTclasses (f : Table TclassRec -> Table TclassRec) (r : deRoot) : deRoot :=
  mkRoot (f (Tclasses r)) (Classes r) (Functions r) (Blocks r) (Variables r)
    (Idents r) (Signatures r) (Statements r) (root_Tclasses r) (root_Classes r).
Definition withClasses (f : Table ClassRec -> Table ClassRec) (r : deRoot) : deRoot :=
  mkRoot (Tclasses r) (f (Classes r)) (Functions r) (Blocks r) (Variables r)
    (Idents r) (Signatures r) (Statements r) (root_Tclasses r) (root_Classes r).
Definition withFunctions (f : Table FunctionRec -> Table FunctionRec) (r : deRoot) : deRoot :=
  mkRoot (Tclasses r) (Classes r) (f (Functions r)) (Blocks r) (Variables r)
    (Idents r) (Signatures r) (Statements r) (root_Tclasses r) (root_Classes r).
Definition withBlocks (f : Table BlockRec -> Table BlockRec) (r : deRoot) : deRoot :=
  mkRoot (Tclasses r) (Classes r) (Functions r) (f (Blocks r)) (Variables r)
    (Idents r) (Signatures r) (Statements r) (root_Tclasses r) (root_Classes r).
Definition withVariables (f : Table VariableRec -> Table VariableRec) (r : deRoot) : deRoot :=
  mkRoot (Tclasses r) (Classes r) (Functions r) (Blocks r) (f (Variables r))
    (Idents r) (Signatures r) (Statements r) (root_Tclasses r) (root_Classes r).
Definition withIdents (f : Table IdentRec -> Table IdentRec) (r : deRoot) : deRoot :=
  mkRoot (Tclasses r) (Classes r) (Functions r) (Blocks r) (Variables r)
    (f (Idents r)) (Signatures r) (Statements r) (root_Tclasses r) (root_Classes r).
Definition withSignatures (f : Table SignatureRec -> Table SignatureRec) (r : deRoot) : deRoot :=
  mkRoot (Tclasses r) (Classes r) (Functions r) (Blocks r) (Variables r)
    (Idents r) (f (Signatures r)) (Statements r) (root_Tclasses r) (root_Classes r).
Definition withStatements (f : Table StatementRec -> Table StatementRec) (r : deRoot) : deRoot :=
  mkRoot (Tclasses r) (Classes r) (Functions r) (Blocks r) (Variables r)
    (Idents r) (Signatures r) (f (Statements r)) (root_Tclasses r) (root_Classes r).

(** *** Tclass fields *)

Definition deTclassGetFunction (r : deRoot) (t : deTclass) := tclass_Function (cell (Tclasses r) t).
Definition deTclassGetRefWidth (r : deRoot) (t : deTclass) := tclass_RefWidth (cell (Tclasses r) t).
Definition deTclassGetDatatype (r : deRoot) (t : deTclass) := tclass_Datatype (cell (Tclasses r) t).
Definition deTclassGetLine (r : deRoot) (t : deTclass) := tclass_Line (cell (Tclasses r) t).
Definition deTclassHasDefaultClass (r : deRoot) (t : deTclass) :=
  tclass_HasDefaultClass (cell (Tclasses r) t).
Definition deTclassGetNumClasses (r : deRoot) (t : deTclass) :=
  tclass_NumClasses (cell (Tclasses r) t).
Definition deTclassGetClasses (r : deRoot) (t : deTclass) := tclass_Classes (cell (Tclasses r) t).
Definition deTclassGetFirstClass (r : deRoot) (t : deTclass) : option deClass :=
  hd_error (deTclassGetClasses r t).

Definition deTclassAlloc (r : deRoot) : deTclass * deRoot :=
  let '(t, tab) := tableAlloc zeroTclass (Tclasses r) in
  (t, withTclasses (fun _ => tab) r).

Definition deTclassSetFunction (t : deTclass) (f : option deFunction) : deRoot -> deRoot :=
  withTclasses (tableModify t (fun x =>
    mkTclass f (tclass_RefWidth x) (tclass_Datatype x) (tclass_Line x)
      (tclass_HasDefaultClass x) (tclass_NumClasses x) (tclass_Classes x))).
Definition deTclassSetRefWidth (t : deTclass) (w : N) : deRoot -> deRoot :=
  withTclasses (tableModify t (fun x =>
    mkTclass (tclass_Function x) w (tclass_Datatype x) (tclass_Line x)
      (tclass_HasDefaultClass x) (tclass_NumClasses x) (tclass_Classes x))).
Definition deTclassSetDatatype (t : deTclass) (d : deDatatype) : deRoot -> deRoot :=
  withTclasses (tableModify t (fun x =>
    mkTclass (tclass_Function x) (tclass_RefWidth x) (Some d) (tclass_Line x)
      (tclass_HasDefaultClass x) (tclass_NumClasses x) (tclass_Classes x))).
Definition deTclassSetLine (t : deTclass) (l : deLine) : deRoot -> deRoot :=
  withTclasses (tableModify t (fun x =>
    mkTclass (tclass_Function x) (tclass_RefWidth x) (tclass_Datatype x) l
      (tclass_HasDefaultClass x) (tclass_NumClasses x) (tclass_Classes x))).
Definition deTclassSetHasDefaultClass (t : deTclass) (b : bool) : deRoot -> deRoot :=
  withTclasses (tableModify t (fun x =>
    mkTclass (tclass_Function x) (tclass_RefWidth x) (tclass_Datatype x) (tclass_Line x)
      b (tclass_NumClasses x) (tclass_Classes x))).
Definition deTclassSetNumClasses (t : deTclass) (n : N) : deRoot -> deRoot :=
  withTclasses (tableModify t (fun x =>
    mkTclass (tclass_Function x) (tclass_RefWidth x) (tclass_Datatype x) (tclass_Line x)
      (tclass_HasDefaultClass x) n (tclass_Classes x))).
Definition deTclassSetClasses (t : deTclass) (l : list deClass) : deRoot -> deRoot :=
  withTclasses (tableModify t (fun x =>
    mkTclass (tclass_Function x) (tclass_RefWidth x) (tclass_Datatype x) (tclass_Line x)
      (tclass_HasDefaultClass x) (tclass_NumClasses x) l)).

(** *** Class fields *)

Definition deClassGetTclass (r : deRoot) (c : deClass) := class_Tclass (cell (Classes r) c).
Definition deClassGetNumber (r : deRoot) (c : deClass) := class_Number (cell (Classes r) c).
Definition deClassGetRefWidth (r : deRoot) (c : deClass) := class_RefWidth (cell (Classes r) c).
Definition deClassGetSubBlock (r : deRoot) (c : deClass) := class_SubBlock (cell (Classes r) c).
Definition deClassGetDatatype (r : deRoot) (c : deClass) := class_Datatype (cell (Classes r) c).
Definition deClassGetSignatures (r : deRoot) (c : deClass) := class_Signatures (cell (Classes r) c).
Definition deClassGetFirstSignature (r : deRoot) (c : deClass) : option deSignature :=
  hd_error (deClassGetSignatures r c).

Definition deClassAlloc (r : deRoot) : deClass * deRoot :=
  let '(c, tab) := tableAlloc zeroClass (Classes r) in
  (c, withClasses (fun _ => tab) r).

Definition deClassSetTclass (c : deClass) (t : option deTclass) : deRoot -> deRoot :=
  withClasses (tableModify c (fun x =>
    mkClass t (class_Number x) (class_RefWidth x) (class_SubBlock x)
      (class_Datatype x) (class_Signatures x))).
Definition deClassSetNumber (c : deClass) (n : N) : deRoot -> deRoot :=
  withClasses (tableModify c (fun x =>
    mkClass (class_Tclass x) n (class_RefWidth x) (class_SubBlock x)
      (class_Datatype x) (class_Signatures x))).
Definition deClassSetRefWidth (c : deClass) (w : N) : deRoot -> deRoot :=
  withClasses (tableModify c (fun x =>
    mkClass (class_Tclass x) (class_Number x) w (class_SubBlock x)
      (class_Datatype x) (class_Signatures x))).
Definition deClassSetSubBlock (c : deClass) (b : option deBlock) : deRoot -> deRoot :=
  withClasses (tableModify c (fun x =>
    mkClass (class_Tclass x) (class_Number x) (class_RefWidth x) b
      (class_Datatype x) (class_Signatures x))).
Definition deClassSetDatatype (c : deClass) (d : deDatatype) : deRoot -> deRoot :=
  withClasses (tableModify c (fun x =>
    mkClass (class_Tclass x) (class_Number x) (class_RefWidth x) (class_SubBlock x)
      (Some d) (class_Signatures x))).
Definition deClassSetSignatures (c : deClass) (l : list deSignature) : deRoot -> deRoot :=
  withClasses (tableModify c (fun x =>
    mkClass (class_Tclass x) (class_Number x) (class_RefWidth x) (class_SubBlock x)
      (class_Datatype x) l)).

(** *** Function, block, variable, identifier, signature and statement fields *)

Definition deFunctionGetType (r : deRoot) (f : deFunction) := function_Type (cell (Functions r) f).
Definition deFunctionGetLinkage (r : deRoot) (f : deFunction) := function_Linkage (cell (Functions r) f).
Definition deFunctionGetLine (r : deRoot) (f : deFunction) := function_Line (cell (Functions r) f).
Definition deFunctionBuiltin (r : deRoot) (f : deFunction) := function_Builtin (cell (Functions r) f).
Definition deFunctionGetSubBlock (r : deRoot) (f : deFunction) := function_SubBlock (cell (Functions r) f).
Definition deFunctionGetTclass (r : deRoot) (f : deFunction) := function_Tclass (cell (Functions r) f).
Definition deFunctionGetIdents (r : deRoot) (f : deFunction) := function_Idents (cell (Functions r) f).
Definition deFunctionGetFirstIdent (r : deRoot) (f : deFunction) : option deIdent :=
  hd_error (deFunctionGetIdents r f).

Definition deFunctionSetTclass (f : deFunction) (t : option deTclass) : deRoot -> deRoot :=
  withFunctions (tableModify f (fun x =>
    mkFunction (function_Type x) (function_Linkage x) (function_Line x) (function_Builtin x)
      (function_SubBlock x) t (function_Idents x))).
Definition deFunctionSetSubBlock (f : deFunction) (b : option deBlock) : deRoot -> deRoot :=
  withFunctions (tableModify f (fun x =>
    mkFunction (function_Type x) (function_Linkage x) (function_Line x) (function_Builtin x)
      b (function_Tclass x) (function_Idents x))).
Definition deFunctionSetIdents (f : deFunction) (l : list deIdent) : deRoot -> deRoot :=
  withFunctions (tableModify f (fun x =>
    mkFunction (function_Type x) (function_Linkage x) (function_Line x) (function_Builtin x)
      (function_SubBlock x) (function_Tclass x) l)).

Definition deBlockGetFilepath (r : deRoot) (b : deBlock) := block_Filepath (cell (Blocks r) b).
Definition deBlockGetType (r : deRoot) (b : deBlock) := block_Type (cell (Blocks r) b).
Definition deBlockGetLine (r : deRoot) (b : deBlock) := block_Line (cell (Blocks r) b).
Definition deBlockGetVariables (r : deRoot) (b : deBlock) := block_Variables (cell (Blocks r) b).
Definition deBlockGetFunctions (r : deRoot) (b : deBlock) := block_Functions (cell (Blocks r) b).
Definition deBlockGetIdents (r : deRoot) (b : deBlock) := block_Idents (cell (Blocks r) b).
Definition deBlockGetStatements (r : deRoot) (b : deBlock) := block_Statements (cell (Blocks r) b).

Definition deBlockSetVariables (b : deBlock) (l : list deVariable) : deRoot -> deRoot :=
  withBlocks (tableModify b (fun x =>
    mkBlock (block_Filepath x) (block_Type x) (block_Line x) l (block_Functions x)
      (block_Idents x) (block_Statements x))).
Definition deBlockSetFunctions (b : deBlock) (l : list deFunction) : deRoot -> deRoot :=
  withBlocks (tableModify b (fun x =>
    mkBlock (block_Filepath x) (block_Type x) (block_Line x) (block_Variables x) l
      (block_Idents x) (block_Statements x))).
Definition deBlockSetIdents (b : deBlock) (l : list deIdent) : deRoot -> deRoot :=
  withBlocks (tableModify b (fun x =>
    mkBlock (block_Filepath x) (block_Type x) (block_Line x) (block_Variables x)
      (block_Functions x) l (block_Statements x))).
Definition deBlockSetStatements (b : deBlock) (l : list deStatement) : deRoot -> deRoot :=
  withBlocks (tableModify b (fun x =>
    mkBlock (block_Filepath x) (block_Type x) (block_Line x) (block_Variables x)
      (block_Functions x) (block_Idents x) l)).

Definition deVariableGetType (r : deRoot) (v : deVariable) := variable_Type (cell (Variables r) v).
Definition deVariableGetSym (r : deRoot) (v : deVariable) := variable_Sym (cell (Variables r) v).
Definition deVariableGenerated (r : deRoot) (v : deVariable) := variable_Generated (cell (Variables r) v).
Definition deVariableGetLine (r : deRoot) (v : deVariable) := variable_Line (cell (Variables r) v).
Definition deVariableIsType (r : deRoot) (v : deVariable) := variable_IsType (cell (Variables r) v).
Definition deVariableInTclassSignature (r : deRoot) (v : deVariable) :=
  variable_InTclassSignature (cell (Variables r) v).
Definition deVariableGetDatatype (r : deRoot) (v : deVariable) := variable_Datatype (cell (Variables r) v).
Definition deVariableInstantiated (r : deRoot) (v : deVariable) :=
  variable_Instantiated (cell (Variables r) v).

Definition deVariableSetDatatype (v : deVariable) (d : deDatatype) : deRoot -> deRoot :=
  withVariables (tableModify v (fun x =>
    mkVariable (variable_Type x) (variable_Const x) (variable_Sym x) (variable_Initializer x)
      (variable_Generated x) (variable_Line x) (variable_IsType x)
      (variable_InTclassSignature x) (Some d) (variable_Instantiated x))).
Definition deVariableSetInstantiated (v : deVariable) (b : bool) : deRoot -> deRoot :=
  withVariables (tableModify v (fun x =>
    mkVariable (variable_Type x) (variable_Const x) (variable_Sym x) (variable_Initializer x)
      (variable_Generated x) (variable_Line x) (variable_IsType x)
      (variable_InTclassSignature x) (variable_Datatype x) b)).

Definition deIdentGetBlock (r : deRoot) (i : deIdent) := ident_Block (cell (Idents r) i).
Definition deIdentGetType (r : deRoot) (i : deIdent) := ident_Type (cell (Idents r) i).
Definition deIdentGetSym (r : deRoot) (i : deIdent) := ident_Sym (cell (Idents r) i).
Definition deIdentGetLine (r : deRoot) (i : deIdent) := ident_Line (cell (Idents r) i).
Definition deIdentGetFunction (r : deRoot) (i : deIdent) := ident_Function (cell (Idents r) i).

Definition deIdentSetFunction (i : deIdent) (f : option deFunction) : deRoot -> deRoot :=
  withIdents (tableModify i (fun x =>
    mkIdent (ident_Block x) (ident_Type x) (ident_Sym x) (ident_Line x) f)).

Definition deSignatureGetFunction (r : deRoot) (s : deSignature) :=
  signature_Function (cell (Signatures r) s).
Definition deSignatureGetClass (r : deRoot) (s : deSignature) :=
  signature_Class (cell (Signatures r) s).
Definition deSignatureGetTypes (r : deRoot) (s : deSignature) :=
  signature_Types (cell (Signatures r) s).

(** The datatype of parameter [xParam] of a signature; an index past the end
    of the array stops the compiler. *)
Definition deSignatureGetiType (r : deRoot) (s : deSignature) (xParam : N) : Result deDatatype :=
  deref (nth_error (deSignatureGetTypes r s) (N.to_nat xParam)).

Definition deSignatureSetClass (s : deSignature) (c : option deClass) : deRoot -> deRoot :=
  withSignatures (tableModify s (fun x =>
    mkSignature (signature_Function x) c (signature_Types x))).

Definition deStatementGetType (r : deRoot) (s : deStatement) := statement_Type (cell (Statements r) s).
Definition deStatementGetLine (r : deRoot) (s : deStatement) := statement_Line (cell (Statements r) s).
Definition deStatementGetExpression (r : deRoot) (s : deStatement) :=
  statement_Expression (cell (Statements r) s).

(** *** Relationships between the tables *)

Definition deFunctionInsertTclass (f : deFunction) (t : deTclass) (r : deRoot) : deRoot :=
  deTclassSetFunction t (Some f) (deFunctionSetTclass f (Some t) r).

Definition deTclassAppendClass (t : deTclass) (c : deClass) (r : deRoot) : deRoot :=
  deClassSetTclass c (Some t) (deTclassSetClasses t (deTclassGetClasses r t ++ [c]) r).

Definition deClassInsertSubBlock (c : deClass) (b : deBlock) (r : deRoot) : deRoot :=
  deClassSetSubBlock c (Some b) r.

Definition deFunctionInsertSubBlock (f : deFunction) (b : deBlock) (r : deRoot) : deRoot :=
  deFunctionSetSubBlock f (Some b) r.

Definition deFunctionAppendIdent (f : deFunction) (i : deIdent) (r : deRoot) : deRoot :=
  deIdentSetFunction i (Some f) (deFunctionSetIdents f (deFunctionGetIdents r f ++ [i]) r).

Definition deClassAppendSignature (c : deClass) (s : deSignature) (r : deRoot) : deRoot :=
  deSignatureSetClass s (Some c) (deClassSetSignatures c (deClassGetSignatures r c ++ [s]) r).

Definition deRootAppendTclass (t : deTclass) (r : deRoot) : deRoot :=
  mkRoot (Tclasses r) (Classes r) (Functions r) (Blocks r) (Variables r) (Idents r)
    (Signatures r) (Statements r) (root_Tclasses r ++ [t]) (root_Classes r).

Definition deRootAppendClass (c : deClass) (r : deRoot) : deRoot :=
  mkRoot (Tclasses r) (Classes r) (Functions r) (Blocks r) (Variables r) (Idents r)
    (Signatures r) (Statements r) (root_Tclasses r) (root_Classes r ++ [c]).

Definition deStatementInsertExpression (s : deStatement) (e : deExpression) : deRoot -> deRoot :=
  withStatements (tableModify s (fun x =>
    mkStatement (statement_Type x) (statement_Line x) (Some e))).

(** *** Constructors of the other modules

    Modelled from the spec: [deBlockCreate], [deVariableCreate],
    [deIdentCreate], [deFunctionCreate] and [deStatementCreate] are defined in
    block.c, variable.c, ident.c, function.c and statement.c; each allocates
    one object, stores its arguments and links the object to the owner it is
    given.  A function and a variable each register an identifier under their
    name in the block that owns them, of type [DE_IDENT_FUNCTION] and
    [DE_IDENT_VARIABLE]; the link from the identifier of a variable back to
    the variable is not kept, class.c reading the type, the name and the
    function of an identifier only. *)
Definition deBlockCreate (filepath : option deFilepath) (type : deBlockType) (line : deLine)
    (r : deRoot) : deBlock * deRoot :=
  let '(b, tab) := tableAlloc (mkBlock filepath type line [] [] [] []) (Blocks r) in
  (b, withBlocks (fun _ => tab) r).

Definition deIdentCreate (block : deBlock) (type : deIdentType) (name : utSym) (line : deLine)
    (r : deRoot) : deIdent * deRoot :=
  let '(i, tab) := tableAlloc (mkIdent (Some block) type name line None) (Idents r) in
  let r := withIdents (fun _ => tab) r in
  (i, deBlockSetIdents block (deBlockGetIdents r block ++ [i]) r).

Definition deVariableCreate (block : deBlock) (type : deVariableType) (isConst : bool)
    (name : utSym) (initializer : option deExpression) (generated : bool) (line : deLine)
    (r : deRoot) : deVariable * deRoot :=
  let '(v, tab) :=
    tableAlloc (mkVariable type isConst name initializer generated line false false None false)
      (Variables r) in
  let r := withVariables (fun _ => tab) r in
  let r := deBlockSetVariables block (deBlockGetVariables r block ++ [v]) r in
  let '(_, r) := deIdentCreate block DE_IDENT_VARIABLE name line r in
  (v, r).

Definition deFunctionCreate (filepath : option deFilepath) (block : deBlock)
    (type : deFunctionType) (name : utSym) (linkage : deLinkage) (line : deLine)
    (r : deRoot) : deFunction * deRoot :=
  let '(f, tab) := tableAlloc (mkFunction type linkage line false None None []) (Functions r) in
  let r := withFunctions (fun _ => tab) r in
  let '(ident, r) := deIdentCreate block DE_IDENT_FUNCTION name line r in
  let r := deFunctionAppendIdent f ident r in
  let r := deBlockSetFunctions block (deBlockGetFunctions r block ++ [f]) r in
  let '(subBlock, r) := deBlockCreate filepath DE_BLOCK_FUNCTION line r in
  (f, deFunctionInsertSubBlock f subBlock r).

Definition deStatementCreate (block : deBlock) (type : deStatementType) (line : deLine)
    (r : deRoot) : deStatement * deRoot :=
  let '(s, tab) := tableAlloc (mkStatement type line None) (Statements r) in
  let r := withStatements (fun _ => tab) r in
  (s, deBlockSetStatements block (deBlockGetStatements r block ++ [s]) r).

(** ** class.c *)

Definition option_nat_eqb (a b : option nat) : bool :=
  match a, b with
  | Some x, Some y => Nat.eqb x y
  | None, None => true
  | _, _ => false
  end.

(** Add the destroy method to the tclass. *)
Definition addDestroyMethod (tclass : deTclass) (r : deRoot) : Result deRoot :=
  constructor <- deref (deTclassGetFunction r tclass) ;;
  classBlock <- deref (deFunctionGetSubBlock r constructor) ;;
  let line := deBlockGetLine r classBlock in
  let funcName := "destroy"%string in
  let linkage := deFunctionGetLinkage r constructor in
  let '(function, r) :=
    deFunctionCreate (deBlockGetFilepath r classBlock) classBlock
      DE_FUNC_DESTRUCTOR funcName linkage line r in
  functionBlock <- deref (deFunctionGetSubBlock r function) ;;
  let paramName := "self"%string in
  let '(_, r) :=
    deVariableCreate functionBlock DE_VAR_PARAMETER true paramName None false line r in
  Ok r.

(** Create a new tclass, child of its constructor function. *)
Definition deTclassCreate (constructor : deFunction) (refWidth : N) (line : deLine)
    (r : deRoot) : Result (deTclass * deRoot) :=
  let '(tclass, r) := deTclassAlloc r in
  let r := deTclassSetRefWidth tclass refWidth r in
  let tclassType := deTclassDatatypeCreate tclass in
  let r := deTclassSetDatatype tclass tclassType r in
  let r := deTclassSetLine tclass line r in
  let r := deFunctionInsertTclass constructor tclass r in
  r <- (if negb (deFunctionBuiltin r constructor) then addDestroyMethod tclass r else Ok r) ;;
  let r := deRootAppendTclass tclass r in
  Ok (tclass, r).

(** Datatypes may differ in one case: [newDatatype] is TBDCLASS and
    [oldDatatype] is an instance of that tclass.  The class member of
    [oldDatatype] is read only when its tag is [DE_TYPE_CLASS], where it is
    never null. *)
Definition datatypesCompatible (r : deRoot) (newDatatype oldDatatype : deDatatype) : bool :=
  if deDatatype_eqb newDatatype oldDatatype then true
  else
    let newType := deDatatypeGetType newDatatype in
    let oldType := deDatatypeGetType oldDatatype in
    if negb (deDatatypeType_eqb newType DE_TYPE_TBDCLASS)
       || negb (deDatatypeType_eqb oldType DE_TYPE_CLASS)
    then false
    else
      match deDatatypeGetClass oldDatatype with
      | Some theClass =>
          let oldTclass := deClassGetTclass r theClass in
          option_nat_eqb oldTclass (deDatatypeGetTclass newDatatype)
      | None => false
      end.

(** The loop of [classSignaturesMatch] over the variables of the constructor's
    block, [xParam] counting the parameters passed. *)
Fixpoint matchVariables (r : deRoot) (newSignature oldSignature : deSignature)
    (variables : list deVariable) (xParam : N) : Result bool :=
  match variables with
  | [] => Ok true
  | parameter :: rest =>
      if negb (deVariableType_eqb (deVariableGetType r parameter) DE_VAR_PARAMETER)
      then Ok true
      else
        compatible <-
          (if deVariableInTclassSignature r parameter then
             newDatatype <- deSignatureGetiType r newSignature xParam ;;
             oldDatatype <- deSignatureGetiType r oldSignature xParam ;;
             Ok (datatypesCompatible r newDatatype oldDatatype)
           else Ok true) ;;
        if negb compatible then Ok false
        else matchVariables r newSignature oldSignature rest (u32 (xParam + 1))
  end.

(** Determine if two signatures generate the same class. *)
Definition classSignaturesMatch (r : deRoot) (newSignature oldSignature : deSignature)
    : Result bool :=
  constructor <- deref (deSignatureGetFunction r newSignature) ;;
  block <- deref (deFunctionGetSubBlock r constructor) ;;
  matchVariables r newSignature oldSignature (deBlockGetVariables r block) 0.

(** The loop of [findExistingClass] over the classes of the tclass. *)
Fixpoint findAmongClasses (r : deRoot) (tclass : deTclass) (signature : deSignature)
    (classes : list deClass) : Result (option deClass) :=
  match classes with
  | [] => Ok None
  | theClass :: rest =>
      match deClassGetFirstSignature r theClass with
      | None =>
          _ <- utAssert (deTclassHasDefaultClass r tclass) ;;
          Ok (Some theClass)
      | Some otherSignature =>
          matches <- classSignaturesMatch r signature otherSignature ;;
          if matches then Ok (Some theClass)
          else findAmongClasses r tclass signature rest
      end
  end.

Definition findExistingClass (r : deRoot) (signature : deSignature) : Result (option deClass) :=
  function <- deref (deSignatureGetFunction r signature) ;;
  tclass <- deref (deFunctionGetTclass r function) ;;
  findAmongClasses r tclass signature (deTclassGetClasses r tclass).

(** Create a new class object. *)
Definition classCreate (tclass : deTclass) (r : deRoot) : Result (deClass * deRoot) :=
  let '(theClass, r) := deClassAlloc r in
  let numClass := u32 (deTclassGetNumClasses r tclass + 1) in
  let r := deClassSetNumber theClass numClass r in
  let r := deClassSetRefWidth theClass (deTclassGetRefWidth r tclass) r in
  let r := deTclassSetNumClasses tclass numClass r in
  constructor <- deref (deTclassGetFunction r tclass) ;;
  block <- deref (deFunctionGetSubBlock r constructor) ;;
  let filepath := deBlockGetFilepath r block in
  let '(subBlock, r) := deBlockCreate filepath DE_BLOCK_CLASS (deTclassGetLine r tclass) r in
  let r := deClassInsertSubBlock theClass subBlock r in
  let r := deTclassAppendClass tclass theClass r in
  let selfType := deClassDatatypeCreate theClass in
  let r := deClassSetDatatype theClass selfType r in
  let '(nextFree, r) :=
    deVariableCreate subBlock DE_VAR_LOCAL false "nextFree"%string None true 0 r in
  let r := deVariableSetDatatype nextFree (deUintDatatypeCreate (deTclassGetRefWidth r tclass)) r in
  let r := deVariableSetInstantiated nextFree true r in
  let r := deRootAppendClass theClass r in
  Ok (theClass, r).

Definition deClassCreate (tclass : deTclass) (signature : deSignature) (r : deRoot)
    : Result (deClass * deRoot) :=
  match deSignatureGetClass r signature with
  | Some cached => Ok (cached, r)
  | None =>
      found <- findExistingClass r signature ;;
      match found with
      | Some theClass => Ok (theClass, r)
      | None => classCreate tclass r
      end
  end.

(** Determine if there are any template parameters. *)
Definition tclassHasTemplateParameters (r : deRoot) (tclass : deTclass) : Result bool :=
  constructor <- deref (deTclassGetFunction r tclass) ;;
  block <- deref (deFunctionGetSubBlock r constructor) ;;
  Ok (existsb (deVariableInTclassSignature r) (deBlockGetVariables r block)).

(** The loop of [defaultClassCreate] over the functions of the tclass block. *)
Fixpoint forwardFunctions (subBlock : deBlock) (functions : list deFunction) (r : deRoot)
    : Result deRoot :=
  match functions with
  | [] => Ok r
  | function :: rest =>
      let line := deFunctionGetLine r function in
      firstIdent <- deref (deFunctionGetFirstIdent r function) ;;
      let '(ident, r) :=
        deIdentCreate subBlock DE_IDENT_FUNCTION (deIdentGetSym r firstIdent) line r in
      let r := deFunctionAppendIdent function ident r in
      forwardFunctions subBlock rest r
  end.

Definition defaultClassCreate (tclass : deTclass) (r : deRoot) : Result (deClass * deRoot) :=
  let '(theClass, r) := deClassAlloc r in
  let numClasses := u32 (deTclassGetNumClasses r tclass + 1) in
  let r := deClassSetNumber theClass numClasses r in
  let r := deTclassSetNumClasses tclass numClasses r in
  let '(subBlock, r) := deBlockCreate None DE_BLOCK_CLASS (deTclassGetLine r tclass) r in
  let r := deClassInsertSubBlock theClass subBlock r in
  let r := deTclassAppendClass tclass theClass r in
  let selfType := deClassDatatypeCreate theClass in
  let r := deClassSetDatatype theClass selfType r in
  let '(nextFree, r) :=
    deVariableCreate subBlock DE_VAR_LOCAL false "nextFree"%string None false 0 r in
  let r := deVariableSetDatatype nextFree selfType r in
  let r := deVariableSetInstantiated nextFree true r in
  constructor <- deref (deTclassGetFunction r tclass) ;;
  oldBlock <- deref (deFunctionGetSubBlock r constructor) ;;
  r <- forwardFunctions subBlock (deBlockGetFunctions r oldBlock) r ;;
  let r := deRootAppendClass theClass r in
  Ok (theClass, r).

(** If the default class exists, return it; otherwise create it unless the
    tclass has template parameters, in which case return null. *)
Definition deTclassGetDefaultClass (tclass : deTclass) (r : deRoot)
    : Result (option deClass * deRoot) :=
  if negb (deTclassHasDefaultClass r tclass) then
    hasParameters <- tclassHasTemplateParameters r tclass ;;
    if hasParameters then Ok (None, r)
    else
      r <- (match deTclassGetFirstClass r tclass with
            | None =>
                _ <- utAssert (match deTclassGetFirstClass r tclass with
                               | None => true
                               | Some _ => false
                               end) ;;
                '(_, r) <- classCreate tclass r ;;
                Ok r
            | Some _ => Ok r
            end) ;;
      let r := deTclassSetHasDefaultClass tclass true r in
      Ok (deTclassGetFirstClass r tclass, r)
  else Ok (deTclassGetFirstClass r tclass, r).

(** Make a copy of the tclass for [destConstructor]. *)
Definition deCopyTclass (tclass : deTclass) (destConstructor : deFunction) (r : deRoot)
    : Result (deTclass * deRoot) :=
  deTclassCreate destConstructor (deTclassGetRefWidth r tclass) (deTclassGetLine r tclass) r.

(** The expression appended to the tuple for one printable member. *)
Definition memberExpression (r : deRoot) (selfExpr : deExpression) (variable : deVariable)
    (datatype : deDatatype) : deExpression :=
  let line := deVariableGetLine r variable in
  let varExpr := deIdentExpressionCreate (deVariableGetSym r variable) line in
  let newSelfExpr := deCopyExpression selfExpr in
  let dotExpr := deBinaryExpressionCreate DE_EXPR_DOT newSelfExpr varExpr line in
  let dotExpr := deExpressionSetDatatype dotExpr datatype in
  if negb (deDatatypeType_eqb (deDatatypeGetType datatype) DE_TYPE_CLASS) then dotExpr
  else
    let uint32Datatype := deUintDatatypeCreate 32 in
    let uintTypeExpr := deExpressionCreate DE_EXPR_UINTTYPE line in
    let uintTypeExpr := deExpressionSetWidth uintTypeExpr 32 in
    let uintTypeExpr := deExpressionSetDatatype uintTypeExpr uint32Datatype in
    let castExpr := deBinaryExpressionCreate DE_EXPR_CAST uintTypeExpr dotExpr line in
    deExpressionSetDatatype castExpr uint32Datatype.

(** The loop of [buildClassTupleExpression] over the variables of the class
    block; reading the type tag of a variable that has no datatype yet stops
    the compiler. *)
Fixpoint appendMembers (r : deRoot) (selfExpr : deExpression) (variables : list deVariable)
    (tupleExpr : deExpression) (types : list deDatatype)
    : Result (deExpression * list deDatatype) :=
  match variables with
  | [] => Ok (tupleExpr, types)
  | variable :: rest =>
      if negb (deVariableIsType r variable) && negb (deVariableGenerated r variable) then
        datatype <- deref (deVariableGetDatatype r variable) ;;
        let types := types ++ [datatype] in
        let tupleExpr :=
          deExpressionAppendExpression tupleExpr (memberExpression r selfExpr variable datatype) in
        appendMembers r selfExpr rest tupleExpr types
      else appendMembers r selfExpr rest tupleExpr types
  end.

(** Build a tuple expression for the class members. *)
Definition buildClassTupleExpression (r : deRoot) (classBlock : deBlock)
    (selfExpr : deExpression) : Result deExpression :=
  let tupleExpr := deExpressionCreate DE_EXPR_TUPLE (deExpressionGetLine selfExpr) in
  '(tupleExpr, types) <-
    appendMembers r selfExpr (deBlockGetVariables r classBlock) tupleExpr [] ;;
  Ok (deExpressionSetDatatype tupleExpr (deTupleDatatypeCreate types)).

Section PrintFormat.

(** The format element that [deAppendOneFormatElement] (defined with the
    printing code, outside class.c) appends for an expression. *)
Variable formatElement : deExpression -> string.

(** Modelled from the spec: [deAppendToBuffer] appends text to the format
    buffer, which grows as needed. *)
Definition deAppendToBuffer (format text : string) : string := (format ++ text)%string.

Definition deAppendOneFormatElement (format : string) (expression : deExpression) : string :=
  deAppendToBuffer format (formatElement expression).

(** The loop of [findObjectPrintFormat] over the elements of the tuple. *)
Fixpoint appendElements (children : list deExpression) (firstTime : bool) (format : string)
    : Result string :=
  match children with
  | [] => Ok format
  | child :: rest =>
      let format := if negb firstTime then deAppendToBuffer format ", " else format in
      identExpr <-
        (if deExpressionType_eqb (deExpressionGetType child) DE_EXPR_CAST then
           inner <- deref (deExpressionGetLastExpression child) ;;
           deref (deExpressionGetLastExpression inner)
         else deref (deExpressionGetLastExpression child)) ;;
      name <- deref (deExpressionGetName identExpr) ;;
      let format := deAppendToBuffer format name in
      let format := deAppendToBuffer format " = " in
      let format := deAppendOneFormatElement format child in
      appendElements rest false format
  end.

(** Find the print format for the object tuple. *)
Definition findObjectPrintFormat (tupleExpr : deExpression) : Result string :=
  let format := deAppendToBuffer EmptyString "{" in
  format <- appendElements (deExpressionGetExpressions tupleExpr) true format ;;
  Ok (deAppendToBuffer format "}").

(** Generate a default toString method for the class. *)
Definition deGenerateDefaultToStringMethod (theClass : deClass) (r : deRoot)
    : Result (deFunction * deRoot) :=
  classBlock <- deref (deClassGetSubBlock r theClass) ;;
  let funcName := "toString"%string in
  tclass <- deref (deClassGetTclass r theClass) ;;
  constructor <- deref (deTclassGetFunction r tclass) ;;
  let linkage := deFunctionGetLinkage r constructor in
  let '(function, r) :=
    deFunctionCreate (deBlockGetFilepath r classBlock) classBlock
      DE_FUNC_PLAIN funcName linkage 0 r in
  functionBlock <- deref (deFunctionGetSubBlock r function) ;;
  let line := deBlockGetLine r classBlock in
  let paramName := "self"%string in
  let '(_, r) :=
    deVariableCreate functionBlock DE_VAR_PARAMETER true paramName None false line r in
  let selfExpr := deIdentExpressionCreate "self"%string line in
  let selfExpr := deExpressionSetDatatype selfExpr (deClassDatatypeCreate theClass) in
  tupleExpr <- buildClassTupleExpression r classBlock selfExpr ;;
  format <- findObjectPrintFormat tupleExpr ;;
  let formatExpr := deStringExpressionCreate format line in
  let '(retStatement, r) := deStatementCreate functionBlock DE_STATEMENT_RETURN line r in
  let modExpr := deBinaryExpressionCreate DE_EXPR_MOD formatExpr tupleExpr line in
  let r := deStatementInsertExpression retStatement modExpr r in
  Ok (function, r).

End PrintFormat.

Definition newline : string := String (ascii_of_nat 10) EmptyString.

(** Generate a default dump method for the class. *)
Definition deGenerateDefaultDumpMethod (theClass : deClass) (r : deRoot)
    : Result (deFunction * deRoot) :=
  classBlock <- deref (deClassGetSubBlock r theClass) ;;
  let line := deBlockGetLine r classBlock in
  let funcName := "dump"%string in
  tclass <- deref (deClassGetTclass r theClass) ;;
  constructor <- deref (deTclassGetFunction r tclass) ;;
  let linkage := deFunctionGetLinkage r constructor in
  let '(function, r) :=
    deFunctionCreate (deBlockGetFilepath r classBlock) classBlock
      DE_FUNC_PLAIN funcName linkage line r in
  functionBlock <- deref (deFunctionGetSubBlock r function) ;;
  let paramName := "self"%string in
  let '(_, r) :=
    deVariableCreate functionBlock DE_VAR_PARAMETER true paramName None false line r in
  let selfExpr := deIdentExpressionCreate "self"%string line in
  let toStringExpr := deIdentExpressionCreate "toString"%string line in
  let selfExpr := deExpressionSetDatatype selfExpr (deClassDatatypeCreate theClass) in
  let '(printStatement, r) := deStatementCreate functionBlock DE_STATEMENT_PRINT line r in
  let accessExpr := deBinaryExpressionCreate DE_EXPR_DOT selfExpr toStringExpr line in
  let paramsExpr := deExpressionCreate DE_EXPR_LIST line in
  let callExpr := deBinaryExpressionCreate DE_EXPR_CALL accessExpr paramsExpr line in
  let newlineExpr := deCStringExpressionCreate newline line in
  let printArgsExpr := deBinaryExpressionCreate DE_EXPR_LIST callExpr newlineExpr line in
  let r := deStatementInsertExpression printStatement printArgsExpr r in
  Ok (function, r).

(** ** Notions used to state the properties *)

(** The parameter prefix of a block: its variables up to the first one that is
    not a parameter. *)
Fixpoint parameterPrefix (r : deRoot) (variables : list deVariable) : list deVariable :=
  match variables with
  | [] => []
  | v :: rest =>
      if deVariableType_eqb (deVariableGetType r v) DE_VAR_PARAMETER
      then v :: parameterPrefix r rest
      else []
  end.

(** Position [i] of the two signatures passes the rule: both carry a datatype
    there and the new one is compatible with the old one. *)
Definition compatibleAt (r : deRoot) (newSignature oldSignature : deSignature) (i : nat) : Prop :=
  exists newDatatype oldDatatype,
    nth_error (deSignatureGetTypes r newSignature) i = Some newDatatype /\
    nth_error (deSignatureGetTypes r oldSignature) i = Some oldDatatype /\
    datatypesCompatible r newDatatype oldDatatype = true.

(** The members of a class block that the generated toString prints: the
    variables that are neither type-only nor generated by the compiler, in the
    order of their declaration. *)
Definition isMember (r : deRoot) (v : deVariable) : bool :=
  negb (deVariableIsType r v) && negb (deVariableGenerated r v).

Definition classMembers (r : deRoot) (block : deBlock) : list deVariable :=
  filter (isMember r) (deBlockGetVariables r block).

Definition hasDatatype (r : deRoot) (v : deVariable) : bool :=
  match deVariableGetDatatype r v with
  | Some _ => true
  | None => false
  end.

(** [self.<member>], typed with the datatype of the member. *)
Definition memberAccess (r : deRoot) (selfExpr : deExpression) (v : deVariable)
    (datatype : deDatatype) : deExpression :=
  Expression DE_EXPR_DOT (deVariableGetLine r v)
    [selfExpr;
     Expression DE_EXPR_IDENT (deVariableGetLine r v) [] None (Some (deVariableGetSym r v)) 0 None]
    (Some datatype) None 0 None.

(** [<u32>e]: a cast of [e] to the unsigned integer type of width 32. *)
Definition castToU32 (line : deLine) (e : deExpression) : deExpression :=
  Expression DE_EXPR_CAST line
    [Expression DE_EXPR_UINTTYPE line [] (Some (deUintDatatype 32)) None 32 None; e]
    (Some (deUintDatatype 32)) None 0 None.

Definition tupleElement (r : deRoot) (selfExpr : deExpression) (v : deVariable)
    (datatype : deDatatype) : deExpression :=
  if deDatatypeType_eqb (deDatatypeGetType datatype) DE_TYPE_CLASS
  then castToU32 (deVariableGetLine r v) (memberAccess r selfExpr v datatype)
  else memberAccess r selfExpr v datatype.

(** The elements of the tuple, one per member that has a datatype. *)
Fixpoint tupleElements (r : deRoot) (selfExpr : deExpression) (members : list deVariable)
    : list deExpression :=
  match members with
  | [] => []
  | v :: rest =>
      match deVariableGetDatatype r v with
      | Some d => tupleElement r selfExpr v d :: tupleElements r selfExpr rest
      | None => tupleElements r selfExpr rest
      end
  end.

Fixpoint memberDatatypes (r : deRoot) (members : list deVariable) : list deDatatype :=
  match members with
  | [] => []
  | v :: rest =>
      match deVariableGetDatatype r v with
      | Some d => d :: memberDatatypes r rest
      | None => memberDatatypes r rest
      end
  end.

(** The format of an object as the spec words it: an opening brace, the
    entries [name = slot] separated by a comma and a space, a closing brace. *)
Fixpoint entriesFormat (slot : deExpression -> string) (r : deRoot) (selfExpr : deExpression)
    (members : list deVariable) (firstTime : bool) : string :=
  match members with
  | [] => EmptyString
  | v :: rest =>
      match deVariableGetDatatype r v with
      | Some d =>
          ((if firstTime then EmptyString else ", ")
             ++ deVariableGetSym r v ++ " = " ++ slot (tupleElement r selfExpr v d)
             ++ entriesFormat slot r selfExpr rest false)%string
      | None => entriesFormat slot r selfExpr rest firstTime
      end
  end.

Definition objectFormat (slot : deExpression -> string) (r : deRoot) (selfExpr : deExpression)
    (members : list deVariable) : string :=
  ("{" ++ entriesFormat slot r selfExpr members true ++ "}")%string.


(** ** The life of the class tables

    Other modules create functions, blocks, variables and signatures and
    record signatures with classes, but tclasses and classes are allocated,
    numbered and listed by class.c alone. *)
Definition otherModules (r r' : deRoot) : Prop :=
  used (Tclasses r') = used (Tclasses r) /\
  used (Classes r') = used (Classes r) /\
  (forall t, deTclassGetClasses r' t = deTclassGetClasses r t /\
             deTclassGetNumClasses r' t = deTclassGetNumClasses r t /\
             deTclassHasDefaultClass r' t = deTclassHasDefaultClass r t) /\
  (forall c, deClassGetNumber r' c = deClassGetNumber r c).

(** One call of a function exported by class.c, or any activity of the other
    modules. *)
Inductive classStep (r r' : deRoot) : Prop :=
| step_deTclassCreate constructor refWidth line tclass :
    deTclassCreate constructor refWidth line r = Ok (tclass, r') -> classStep r r'
| step_deCopyTclass tclass destConstructor copy :
    deCopyTclass tclass destConstructor r = Ok (copy, r') -> classStep r r'
| step_deClassCreate tclass signature theClass :
    deClassCreate tclass signature r = Ok (theClass, r') -> classStep r r'
| step_deTclassGetDefaultClass tclass theClass :
    deTclassGetDefaultClass tclass r = Ok (theClass, r') -> classStep r r'
| step_deGenerateDefaultToStringMethod slot theClass function :
    deGenerateDefaultToStringMethod slot theClass r = Ok (function, r') -> classStep r r'
| step_deGenerateDefaultDumpMethod theClass function :
    deGenerateDefaultDumpMethod theClass r = Ok (function, r') -> classStep r r'
| step_otherModules :
    otherModules r r' -> classStep r r'.

(** The databases a compilation can reach from the empty one. *)
Inductive reachable : deRoot -> Prop :=
| reachable_empty : reachable deRootCreate
| reachable_step r r' : reachable r -> classStep r r' -> reachable r'.


(** The three ways in which a step changes what the class tables say about
    numbering: a class is added to a tclass, a tclass is allocated, or a
    tclass is flagged as having a default class. *)
Definition sameTclass (r r' : deRoot) (t : deTclass) : Prop :=
  deTclassGetClasses r' t = deTclassGetClasses r t /\
  deTclassGetNumClasses r' t = deTclassGetNumClasses r t /\
  deTclassHasDefaultClass r' t = deTclassHasDefaultClass r t.

Definition classAdded (tclass : deTclass) (r r' : deRoot) : Prop :=
  used (Tclasses r') = used (Tclasses r) /\
  used (Classes r') = S (used (Classes r)) /\
  deTclassGetClasses r' tclass = deTclassGetClasses r tclass ++ [used (Classes r)] /\
  deTclassGetNumClasses r' tclass = u32 (deTclassGetNumClasses r tclass + 1) /\
  deTclassHasDefaultClass r' tclass = deTclassHasDefaultClass r tclass /\
  (forall t, t <> tclass -> sameTclass r r' t) /\
  deClassGetNumber r' (used (Classes r)) = u32 (deTclassGetNumClasses r tclass + 1) /\
  (forall c, c <> used (Classes r) -> deClassGetNumber r' c = deClassGetNumber r c).

Definition tclassAdded (r r' : deRoot) : Prop :=
  used (Tclasses r') = S (used (Tclasses r)) /\
  used (Classes r') = used (Classes r) /\
  deTclassGetClasses r' (used (Tclasses r)) = [] /\
  deTclassGetNumClasses r' (used (Tclasses r)) = 0%N /\
  deTclassHasDefaultClass r' (used (Tclasses r)) = false /\
  (forall t, t <> used (Tclasses r) -> sameTclass r r' t) /\
  (forall c, deClassGetNumber r' c = deClassGetNumber r c).

Definition flagSet (tclass : deTclass) (r r' : deRoot) : Prop :=
  used (Tclasses r') = used (Tclasses r) /\
  used (Classes r') = used (Classes r) /\
  deTclassGetClasses r tclass <> [] /\
  deTclassHasDefaultClass r' tclass = true /\
  deTclassGetClasses r' tclass = deTclassGetClasses r tclass /\
  deTclassGetNumClasses r' tclass = deTclassGetNumClasses r tclass /\
  (forall t, t <> tclass -> sameTclass r r' t) /\
  (forall c, deClassGetNumber r' c = deClassGetNumber r c).

Inductive effect (r r' : deRoot) : Prop :=
| effect_otherModules : otherModules r r' -> effect r r'
| effect_classAdded tclass : classAdded tclass r r' -> effect r r'
| effect_tclassAdded : tclassAdded r r' -> effect r r'
| effect_flagSet tclass : flagSet tclass r r' -> effect r r'.

Inductive effects : deRoot -> deRoot -> Prop :=
| effects_none r : effects r r
| effects_more r r' r'' : effects r r' -> effect r' r'' -> effects r r''.

(** The numbering of the classes of a tclass: its classes are allocated, and
    as long as their count fits a [uint32] the count is the length of the list
    and the classes carry the numbers 1, 2, 3, ... in the order of the list. *)
Definition numbered (r : deRoot) (t : deTclass) : Prop :=
  Forall (fun c => c < used (Classes r)) (deTclassGetClasses r t) /\
  ((N.of_nat (length (deTclassGetClasses r t)) <= uint32_max)%N ->
   deTclassGetNumClasses r t = N.of_nat (length (deTclassGetClasses r t)) /\
   map (deClassGetNumber r) (deTclassGetClasses r t)
   = map N.of_nat (seq 1 (length (deTclassGetClasses r t)))).

(** What holds of every tclass in every reachable database. *)
Definition classTablesSound (r : deRoot) : Prop :=
  forall t, numbered r t /\
            (deTclassHasDefaultClass r t = true -> deTclassGetClasses r t <> []).

(** The variables of the block of the constructor of a tclass, in the order
    of their declaration. *)
Definition constructorVariables (r : deRoot) (t : deTclass) : option (list deVariable) :=
  match deTclassGetFunction r t with
  | Some constructor =>
      match deFunctionGetSubBlock r constructor with
      | Some block => Some (deBlockGetVariables r block)
      | None => None
      end
  | None => None
  end.


Definition noVariableFlagged (r : deRoot) (t : deTclass) : Prop :=
  exists variables,
    constructorVariables r t = Some variables /\
    forall v, In v variables -> deVariableInTclassSignature r v = false.



(** ** Resolving a signature to a class *)

(** Modelled from the spec's words: the scan of resolveOrCreateClass as the
    spec states it, returning the first class whose founding signature
    matches the new signature. *)
Definition foundingSignatureMatches (r : deRoot) (signature : deSignature) (c : deClass) : bool :=
  match deClassGetFirstSignature r c with
  | Some founding =>
      match classSignaturesMatch r signature founding with
      | Ok true => true
      | _ => false
      end
  | None => false
  end.

Definition resolveOrCreateClass (tclass : deTclass) (signature : deSignature) (r : deRoot)
    : Result (deClass * deRoot) :=
  match deSignatureGetClass r signature with
  | Some cached => Ok (cached, r)
  | None =>
      match find (foundingSignatureMatches r signature) (deTclassGetClasses r tclass) with
      | Some theClass => Ok (theClass, r)
      | None => classCreate tclass r
      end
  end.

(** The scan passes over a class: it has a first signature and the new
    signature does not match it. *)
Definition passedOver (r : deRoot) (signature : deSignature) (c : deClass) : Prop :=
  exists founding,
    deClassGetFirstSignature r c = Some founding /\
    classSignaturesMatch r signature founding = Ok false.

(** The scan stops at a class: it has no first signature and the tclass is
    flagged as having a default class, or the new signature matches its
    first signature. *)
Definition stopsAt (r : deRoot) (tclass : deTclass) (signature : deSignature) (c : deClass)
    : Prop :=
  (deClassGetFirstSignature r c = None /\ deTclassHasDefaultClass r tclass = true) \/
  (exists founding,
      deClassGetFirstSignature r c = Some founding /\
      classSignaturesMatch r signature founding = Ok true).

Definition option_datatype_eqb (a b : option deDatatype) : bool :=
  match a, b with
  | Some x, Some y => deDatatype_eqb x y
  | None, None => true
  | _, _ => false
  end.

(** Two signatures carry identical datatypes at every position of a
    parameter of the prefix flagged inTclassSignature; [i] is the position of
    the first of [parameters]. *)
Fixpoint sameIdentityFrom (r : deRoot) (types1 types2 : list deDatatype)
    (parameters : list deVariable) (i : nat) : bool :=
  match parameters with
  | [] => true
  | p :: rest =>
      (if deVariableInTclassSignature r p
       then option_datatype_eqb (nth_error types1 i) (nth_error types2 i)
       else true)
      && sameIdentityFrom r types1 types2 rest (S i)
  end.

Definition sameIdentity (r : deRoot) (block : deBlock) (s1 s2 : deSignature) : bool :=
  sameIdentityFrom r (deSignatureGetTypes r s1) (deSignatureGetTypes r s2)
    (parameterPrefix r (deBlockGetVariables r block)) 0.

(** The handles the matcher follows are allocated: the classes of the tclass,
    the block of the constructor and its variables, and the classes named by
    the datatypes of the first signatures. *)
Definition datatypeAllocated (r : deRoot) (d : deDatatype) : bool :=
  match deDatatypeGetClass d with
  | Some c => c <? used (Classes r)
  | None => true
  end.

Definition matcherAllocated (r : deRoot) (tclass : deTclass) (block : deBlock) : bool :=
  forallb (fun c => c <? used (Classes r)) (deTclassGetClasses r tclass)
  && (block <? used (Blocks r))
  && forallb (fun v => v <? used (Variables r)) (deBlockGetVariables r block)
  && forallb (fun c => match deClassGetFirstSignature r c with
                       | Some founding =>
                           forallb (datatypeAllocated r) (deSignatureGetTypes r founding)
                       | None => true
                       end)
       (deTclassGetClasses r tclass).

(** What the matcher reads of the allocated objects is the same in [r']. *)
Definition matcherKept (r r' : deRoot) : Prop :=
  (forall s, deSignatureGetFunction r' s = deSignatureGetFunction r s /\
             deSignatureGetTypes r' s = deSignatureGetTypes r s) /\
  Functions r' = Functions r /\
  (forall b, b < used (Blocks r) -> cell (Blocks r') b = cell (Blocks r) b) /\
  (forall v, v < used (Variables r) -> cell (Variables r') v = cell (Variables r) v) /\
  (forall c, c < used (Classes r) -> deClassGetTclass r' c = deClassGetTclass r c).

(** Two databases with the same class tables. *)
Definition sameClassTables (a b : deRoot) : Prop :=
  Tclasses a = Tclasses b /\ Classes a = Classes b.

(** ** What the rest of the compiler does to the tables

    Modelled from the spec: the parser flags the template parameters of a
    constructor and the type-only variables, and the binder creates one
    signature per call with the datatypes of the arguments. *)
Definition deVariableSetInTclassSignature (v : deVariable) (b : bool) : deRoot -> deRoot :=
  withVariables (tableModify v (fun x =>
    mkVariable (variable_Type x) (variable_Const x) (variable_Sym x) (variable_Initializer x)
      (variable_Generated x) (variable_Line x) (variable_IsType x)
      b (variable_Datatype x) (variable_Instantiated x))).

Definition deVariableSetIsType (v : deVariable) (b : bool) : deRoot -> deRoot :=
  withVariables (tableModify v (fun x =>
    mkVariable (variable_Type x) (variable_Const x) (variable_Sym x) (variable_Initializer x)
      (variable_Generated x) (variable_Line x) b
      (variable_InTclassSignature x) (variable_Datatype x) (variable_Instantiated x))).

Definition signatureCreate (function : deFunction) (types : list deDatatype) (r : deRoot)
    : deSignature * deRoot :=
  let '(s, tab) := tableAlloc (mkSignature (Some function) None types) (Signatures r) in
  (s, withSignatures (fun _ => tab) r).

(** ** Two small programs

    Each program is given by the databases it goes through.  What the parser
    and the binder do is written with the constructors above; the calls of
    class.c are the calls of its model. *)

Definition orElse {A} (m : Result A) (a : A) : A :=
  match m with
  | Ok x => x
  | Abort => a
  end.

(** [class Point(self, <x>, y) { tmp = ... }]: the constructor is function 0
    with block 1; its variables are the parameters self (0), x (1, a template
    parameter) and y (2) and the local tmp (3, flagged as well). *)
Definition pointParsed : deRoot :=
  let r := deRootCreate in
  let '(moduleBlock, r) := deBlockCreate None DE_BLOCK_FUNCTION 0 r in
  let '(constructor, r) :=
    deFunctionCreate None moduleBlock DE_FUNC_CONSTRUCTOR "Point"%string 0 1 r in
  let block := 1 in
  let '(_, r) := deVariableCreate block DE_VAR_PARAMETER true "self"%string None false 1 r in
  let '(x, r) := deVariableCreate block DE_VAR_PARAMETER true "x"%string None false 1 r in
  let r := deVariableSetInTclassSignature x true r in
  let '(_, r) := deVariableCreate block DE_VAR_PARAMETER true "y"%string None false 1 r in
  let '(tmp, r) := deVariableCreate block DE_VAR_LOCAL false "tmp"%string None false 2 r in
  deVariableSetInTclassSignature tmp true r.

(** The tclass of Point is tclass 0. *)
Definition pointDeclared : deRoot :=
  snd (orElse (deTclassCreate 0 32 1 pointParsed) (0, deRootCreate)).

(** Three calls give the signatures 0, 1 and 2: the second differs from the
    first in the datatype of y, the third in the datatype of x. *)
Definition pointRoot : deRoot :=
  let r := pointDeclared in
  let self := deTbdclassDatatype 0 in
  let '(_, r) := signatureCreate 0 [self; deUintDatatype 32; deStringDatatype] r in
  let '(_, r) := signatureCreate 0 [self; deUintDatatype 32; deBoolDatatype] r in
  let '(_, r) := signatureCreate 0 [self; deStringDatatype; deStringDatatype] r in
  r.

(** The first call creates class 0 of the tclass. *)
Definition pointCreated : deRoot :=
  snd (orElse (deClassCreate 0 0 pointRoot) (0, deRootCreate)).

(** The binder records signature 0 as the first signature of class 0. *)
Definition pointRecorded : deRoot := deClassAppendSignature 0 0 pointCreated.

(** It declares the members x, T (type-only), y and next (a Point) in the
    block of the class, block 3. *)
Definition pointClassRoot : deRoot :=
  let r := pointRecorded in
  let classBlock := 3 in
  let '(x, r) := deVariableCreate classBlock DE_VAR_LOCAL false "x"%string None false 3 r in
  let r := deVariableSetDatatype x (deUintDatatype 32) r in
  let '(T, r) := deVariableCreate classBlock DE_VAR_LOCAL true "T"%string None false 3 r in
  let r := deVariableSetDatatype T (deUintDatatype 32) r in
  let r := deVariableSetIsType T true r in
  let '(y, r) := deVariableCreate classBlock DE_VAR_LOCAL false "y"%string None false 4 r in
  let r := deVariableSetDatatype y deStringDatatype r in
  let '(next, r) := deVariableCreate classBlock DE_VAR_LOCAL false "next"%string None false 5 r in
  deVariableSetDatatype next (deClassDatatype 0) r.

(** The third call creates class 1. *)
Definition pointSecond : deRoot :=
  snd (orElse (deClassCreate 0 2 pointClassRoot) (0, deRootCreate)).

(** [class Pair(self, x, y)] has no template parameter: the constructor is
    function 0 with block 1 and the parameters self (0), x (1) and y (2). *)
Definition pairParsed : deRoot :=
  let r := deRootCreate in
  let '(moduleBlock, r) := deBlockCreate None DE_BLOCK_FUNCTION 0 r in
  let '(constructor, r) :=
    deFunctionCreate None moduleBlock DE_FUNC_CONSTRUCTOR "Pair"%string 0 1 r in
  let block := 1 in
  let '(_, r) := deVariableCreate block DE_VAR_PARAMETER true "self"%string None false 1 r in
  let '(_, r) := deVariableCreate block DE_VAR_PARAMETER true "x"%string None false 1 r in
  let '(_, r) := deVariableCreate block DE_VAR_PARAMETER true "y"%string None false 1 r in
  r.

(** The tclass of Pair is tclass 0. *)
Definition pairDeclared : deRoot :=
  snd (orElse (deTclassCreate 0 32 1 pairParsed) (0, deRootCreate)).

(** Signature 0 is the call [Pair(self, 5u32, "hi")], signature 1 the call
    [Pair(self, true, false)]. *)
Definition pairRoot : deRoot :=
  let r := pairDeclared in
  let self := deTbdclassDatatype 0 in
  let '(_, r) := signatureCreate 0 [self; deUintDatatype 32; deStringDatatype] r in
  let '(_, r) := signatureCreate 0 [self; deBoolDatatype; deBoolDatatype] r in
  r.

(** The default class of Pair is class 0, with block 3. *)
Definition pairDefaultRoot : deRoot :=
  snd (orElse (deTclassGetDefaultClass 0 pairRoot) (None, deRootCreate)).

(** The binder declares the members x and y in the block of the class. *)
Definition pairClassRoot : deRoot :=
  let r := pairDefaultRoot in
  let classBlock := 3 in
  let '(x, r) := deVariableCreate classBlock DE_VAR_LOCAL false "x"%string None false 3 r in
  let r := deVariableSetDatatype x (deUintDatatype 32) r in
  let '(y, r) := deVariableCreate classBlock DE_VAR_LOCAL false "y"%string None false 4 r in
  deVariableSetDatatype y deStringDatatype r.

(** The self expression of the methods generated for the default class of Pair. *)
Definition pairSelf : deExpression :=
  Expression DE_EXPR_IDENT (deBlockGetLine pairClassRoot 3) []
    (Some (deClassDatatype 0)) (Some "self"%string) 0 None.
(** ** Looking up a method of a class *)

Definition deIdentType_eqb (a b : deIdentType) : bool :=
  match a, b with
  | DE_IDENT_FUNCTION, DE_IDENT_FUNCTION => true
  | DE_IDENT_VARIABLE, DE_IDENT_VARIABLE => true
  | _, _ => false
  end.

(** Modelled from the spec: [deBlockFindIdent] is the lookup of the
    identifier table of a block by name, generated with the database; it
    returns the identifier of the block bound to the name, null when the
    block binds none.  The identifiers of a block are searched in the order
    they were added; the properties below are stated for names that the block
    binds at most once, where no other order can be observed. *)
Definition deBlockFindIdent (r : deRoot) (block : deBlock) (sym : utSym) : option deIdent :=
  find (fun ident => String.eqb (deIdentGetSym r ident) sym) (deBlockGetIdents r block).

(** Find the method of the class bound to [methodSym]: null unless the
    identifier exists and names a function. *)
Definition deClassFindMethod (r : deRoot) (theClass : deClass) (methodSym : utSym)
    : Result (option deFunction) :=
  block <- deref (deClassGetSubBlock r theClass) ;;
  match deBlockFindIdent r block methodSym with
  | None => Ok None
  | Some ident =>
      if negb (deIdentType_eqb (deIdentGetType r ident) DE_IDENT_FUNCTION)
      then Ok None
      else Ok (deIdentGetFunction r ident)
  end.

(** The name is bound by no identifier of the block. *)
Definition unbound (r : deRoot) (block : deBlock) (sym : utSym) : Prop :=
  Forall (fun ident => deIdentGetSym r ident <> sym) (deBlockGetIdents r block).

(** What a generated method adds to the class block: a function [function]
    with the given linkage and line, bound to [name] by a new function
    identifier of the block, whose body holds the parameter self declared on
    [selfLine]. *)
Definition methodAdded (name : utSym) (linkage : deLinkage) (line selfLine : deLine)
    (classBlock : deBlock) (function : deFunction) (r r' : deRoot) : Prop :=
  function = used (Functions r) /\
  Tclasses r' = Tclasses r /\ Classes r' = Classes r /\
  deBlockGetIdents r' classBlock = deBlockGetIdents r classBlock ++ [used (Idents r)] /\
  deIdentGetSym r' (used (Idents r)) = name /\
  deIdentGetType r' (used (Idents r)) = DE_IDENT_FUNCTION /\
  deIdentGetFunction r' (used (Idents r)) = Some function /\
  (forall i, i < used (Idents r) -> cell (Idents r') i = cell (Idents r) i) /\
  deBlockGetFunctions r' classBlock = deBlockGetFunctions r classBlock ++ [function] /\
  deBlockGetVariables r' classBlock = deBlockGetVariables r classBlock /\
  cell (Functions r') function
  = mkFunction DE_FUNC_PLAIN linkage line false (Some (used (Blocks r))) None
      [used (Idents r)] /\
  (forall f, f <> function -> cell (Functions r') f = cell (Functions r) f) /\
  deBlockGetVariables r' (used (Blocks r)) = [used (Variables r)] /\
  cell (Variables r') (used (Variables r))
  = mkVariable DE_VAR_PARAMETER true "self"%string None false selfLine false false None false /\
  (forall v, v <> used (Variables r) -> cell (Variables r') v = cell (Variables r) v).

(** The identifiers of the block are allocated. *)
Definition identsAllocated (r : deRoot) (block : deBlock) : Prop :=
  Forall (fun ident => ident < used (Idents r)) (deBlockGetIdents r block).

(** The datatype of the tuple element printed for a member of datatype [d]:
    the 32 bit unsigned integer type for a class, [d] itself otherwise. *)
Definition printedDatatype (d : deDatatype) : deDatatype :=
  if deDatatypeType_eqb (deDatatypeGetType d) DE_TYPE_CLASS then deUintDatatype 32 else d.

(** Every function of the list has a first identifier, and it is allocated. *)
Definition functionsNamed (r : deRoot) (functions : list deFunction) : Prop :=
  Forall (fun f => exists first,
              deFunctionGetFirstIdent r f = Some first /\ first < used (Idents r))
         functions.

(** The database [r'] is [r] with one forwarding identifier for each function
    of the list, in order, added to the block [subBlock]; the tables of the
    functions differ in the identifier lists only, which grow. *)
Definition forwarded (subBlock : deBlock) (functions : list deFunction) (r r' : deRoot)
    : Prop :=
  Tclasses r' = Tclasses r /\ Classes r' = Classes r /\ Variables r' = Variables r /\
  Signatures r' = Signatures r /\ Statements r' = Statements r /\
  root_Tclasses r' = root_Tclasses r /\ root_Classes r' = root_Classes r /\
  used (Blocks r') = used (Blocks r) /\
  used (Idents r') = used (Idents r) + length functions /\
  (forall i, i < used (Idents r) -> cell (Idents r') i = cell (Idents r) i) /\
  cell (Blocks r') subBlock
  = mkBlock (deBlockGetFilepath r subBlock) (deBlockGetType r subBlock)
      (deBlockGetLine r subBlock) (deBlockGetVariables r subBlock)
      (deBlockGetFunctions r subBlock)
      (deBlockGetIdents r subBlock ++ seq (used (Idents r)) (length functions))
      (deBlockGetStatements r subBlock) /\
  (forall b, b <> subBlock -> cell (Blocks r') b = cell (Blocks r) b) /\
  (forall k f,
      nth_error functions k = Some f ->
      exists first,
        deFunctionGetFirstIdent r f = Some first /\
        cell (Idents r') (used (Idents r) + k)
        = mkIdent (Some subBlock) DE_IDENT_FUNCTION (deIdentGetSym r first)
            (deFunctionGetLine r f) (Some f)) /\
  (forall f,
      deFunctionGetLine r' f = deFunctionGetLine r f /\
      deFunctionGetSubBlock r' f = deFunctionGetSubBlock r f /\
      deFunctionGetTclass r' f = deFunctionGetTclass r f /\
      exists added, deFunctionGetIdents r' f = deFunctionGetIdents r f ++ added).


(** ** Running a generated print statement *)

Section PrintOutput.

(** What the call of a method on the object yields as text; the bodies of
    the methods are run by the interpreter and the code generator. *)
Variable callOutput : deFunction -> string.





End PrintOutput.

(** Modelled from the spec: the compiler marks the constructors of its
    built-in classes. *)
Definition deFunctionSetBuiltin (f : deFunction) (b : bool) : deRoot -> deRoot :=
  withFunctions (tableModify f (fun x =>
    mkFunction (function_Type x) (function_Linkage x) (function_Line x) b
      (function_SubBlock x) (function_Tclass x) (function_Idents x))).

(** [class Pair] again, its constructor marked as built-in. *)
Definition builtinParsed : deRoot := deFunctionSetBuiltin 0 true pairParsed.

(** The default class of Pair after its toString method was generated. *)
Definition pairPrinted : deRoot :=
  snd (orElse (deGenerateDefaultToStringMethod (fun _ => "<slot>"%string) 0 pairClassRoot)
         (0, deRootCreate)).

(** [class Box(self, v) { tmp = ... }]: the constructor is function 0 with
    block 1; of its variables self (0), v (1) and the local tmp (2), only the
    local is flagged.  The tclass of Box is tclass 0; the signatures 0 and 1
    are two calls with different datatypes. *)
Definition boxParsed : deRoot :=
  let r := deRootCreate in
  let '(moduleBlock, r) := deBlockCreate None DE_BLOCK_FUNCTION 0 r in
  let '(constructor, r) :=
    deFunctionCreate None moduleBlock DE_FUNC_CONSTRUCTOR "Box"%string 0 1 r in
  let block := 1 in
  let '(_, r) := deVariableCreate block DE_VAR_PARAMETER true "self"%string None false 1 r in
  let '(_, r) := deVariableCreate block DE_VAR_PARAMETER true "v"%string None false 1 r in
  let '(tmp, r) := deVariableCreate block DE_VAR_LOCAL false "tmp"%string None false 2 r in
  deVariableSetInTclassSignature tmp true r.

Definition boxDeclared : deRoot :=
  snd (orElse (deTclassCreate 0 32 1 boxParsed) (0, deRootCreate)).

Definition boxRoot : deRoot :=
  let r := boxDeclared in
  let '(_, r) := signatureCreate 0 [deTbdclassDatatype 0; deUintDatatype 32] r in
  let '(_, r) := signatureCreate 0 [deTbdclassDatatype 0; deStringDatatype] r in
  r.


(** The binder records signature 2 as the first signature of class 1; a
    fourth call, [Point(self, "a", true)], gives signature 3. *)
Definition pointFourth : deRoot :=
  snd (signatureCreate 0 [deTbdclassDatatype 0; deStringDatatype; deBoolDatatype]
         (deClassAppendSignature 1 2 pointSecond)).



(** ** Basic facts *)

Lemma bind_Ok {A B} (m : Result A) (k : A -> Result B) (b : B) :
  bind m k = Ok b -> exists a, m = Ok a /\ k a = Ok b.
Proof. destruct m as [a|]; simpl; intros H; [eauto | discriminate]. Qed.

Lemma deref_Ok {A} (h : option A) (a : A) : deref h = Ok a -> h = Some a.
Proof. destruct h; simpl; congruence. Qed.


Lemma deDatatype_eqb_eq (a b : deDatatype) : deDatatype_eqb a b = true <-> a = b.
Proof.
  revert b. induction a using deDatatype_deep_ind; intros b; destruct b; simpl;
    try (split; [discriminate | congruence]); try tauto.
  - rewrite N.eqb_eq. split; congruence.
  - rewrite N.eqb_eq. split; congruence.
  - rewrite N.eqb_eq. split; congruence.
  - rewrite IHa. split; congruence.
  - rewrite Nat.eqb_eq. split; congruence.
  - rewrite Nat.eqb_eq. split; congruence.
  - rewrite Nat.eqb_eq. split; congruence.
  - rewrite Nat.eqb_eq. split; congruence.
  - rename types into l'. revert l'.
    induction H as [|x xs Hx Hxs IH]; intros [|y ys];
      try (split; [discriminate | congruence]); try tauto.
    rewrite andb_true_iff, Hx, IH. split.
    + intros [-> E]. congruence.
    + intros E. inversion E. subst. tauto.
Qed.

Lemma deDatatype_eqb_refl (a : deDatatype) : deDatatype_eqb a a = true.
Proof. now apply deDatatype_eqb_eq. Qed.

Lemma deDatatype_eqb_neq (a b : deDatatype) : deDatatype_eqb a b = false <-> a <> b.
Proof.
  rewrite <- deDatatype_eqb_eq. destruct (deDatatype_eqb a b); split; congruence.
Qed.

Lemma update_same {A} (f : nat -> A) k a : update f k a k = a.
Proof. unfold update. now rewrite Nat.eqb_refl. Qed.

Lemma update_other {A} (f : nat -> A) k a i : i <> k -> update f k a i = f i.
Proof. unfold update. intros H. apply Nat.eqb_neq in H. now rewrite H. Qed.

Lemma option_nat_eqb_eq a b : option_nat_eqb a b = true <-> a = b.
Proof.
  destruct a, b; simpl; try rewrite Nat.eqb_eq; split; congruence.
Qed.

Lemma string_app_assoc (a b c : string) : ((a ++ b) ++ c = a ++ (b ++ c))%string.
Proof. induction a as [|x a IH]; simpl; [reflexivity | now rewrite IH]. Qed.

Lemma string_app_nil_r (a : string) : (a ++ EmptyString = a)%string.
Proof. induction a as [|x a IH]; simpl; [reflexivity | now rewrite IH]. Qed.

(** *** What the constructors of the other modules change *)

Lemma deBlockCreate_frame filepath type line (r : deRoot) :
  let b := fst (deBlockCreate filepath type line r) in
  let r' := snd (deBlockCreate filepath type line r) in
  b = used (Blocks r) /\
  used (Blocks r') = S (used (Blocks r)) /\
  cell (Blocks r') b = mkBlock filepath type line [] [] [] [] /\
  (forall b', b' <> b -> cell (Blocks r') b' = cell (Blocks r) b') /\
  Tclasses r' = Tclasses r /\ Classes r' = Classes r /\ Functions r' = Functions r /\
  Variables r' = Variables r /\ Idents r' = Idents r /\ Signatures r' = Signatures r /\
  Statements r' = Statements r /\
  root_Tclasses r' = root_Tclasses r /\ root_Classes r' = root_Classes r.
Proof.
  simpl. repeat split; try reflexivity.
  - apply update_same.
  - intros b' Hb. now apply update_other.
Qed.

Lemma deVariableCreate_frame block type isConst name initializer generated line (r : deRoot) :
  let v := fst (deVariableCreate block type isConst name initializer generated line r) in
  let r' := snd (deVariableCreate block type isConst name initializer generated line r) in
  v = used (Variables r) /\
  used (Variables r') = S (used (Variables r)) /\
  cell (Variables r') v
  = mkVariable type isConst name initializer generated line false false None false /\
  (forall v', v' <> v -> cell (Variables r') v' = cell (Variables r) v') /\
  used (Blocks r') = used (Blocks r) /\
  deBlockGetVariables r' block = deBlockGetVariables r block ++ [v] /\
  deBlockGetStatements r' block = deBlockGetStatements r block /\
  deBlockGetFunctions r' block = deBlockGetFunctions r block /\
  deBlockGetIdents r' block = deBlockGetIdents r block ++ [used (Idents r)] /\
  (forall b', b' <> block -> cell (Blocks r') b' = cell (Blocks r) b') /\
  Tclasses r' = Tclasses r /\ Classes r' = Classes r /\ Functions r' = Functions r /\
  (used (Idents r') = S (used (Idents r)) /\
   cell (Idents r') (used (Idents r)) = mkIdent (Some block) DE_IDENT_VARIABLE name line None /\
   forall i, i <> used (Idents r) -> cell (Idents r') i = cell (Idents r) i) /\
  Signatures r' = Signatures r /\ Statements r' = Statements r /\
  root_Tclasses r' = root_Tclasses r /\ root_Classes r' = root_Classes r.
Proof.
  simpl. unfold deBlockGetVariables, deBlockGetStatements, deBlockGetFunctions,
    deBlockGetIdents. simpl.
  rewrite !update_same. simpl. rewrite ?update_same. simpl.
  repeat split; try reflexivity.
  - intros v' Hv. now apply update_other.
  - intros b' Hb. now rewrite !update_other by assumption.
  - intros i Hi. now apply update_other.
Qed.

Lemma deStatementCreate_frame block type line (r : deRoot) :
  let s := fst (deStatementCreate block type line r) in
  let r' := snd (deStatementCreate block type line r) in
  s = used (Statements r) /\
  cell (Statements r') s = mkStatement type line None /\
  used (Blocks r') = used (Blocks r) /\
  deBlockGetStatements r' block = deBlockGetStatements r block ++ [s] /\
  deBlockGetVariables r' block = deBlockGetVariables r block /\
  (forall b', b' <> block -> cell (Blocks r') b' = cell (Blocks r) b') /\
  Tclasses r' = Tclasses r /\ Classes r' = Classes r /\ Functions r' = Functions r /\
  Variables r' = Variables r /\ Idents r' = Idents r /\ Signatures r' = Signatures r /\
  root_Tclasses r' = root_Tclasses r /\ root_Classes r' = root_Classes r.
Proof.
  simpl. unfold deBlockGetVariables, deBlockGetStatements. simpl.
  rewrite !update_same. simpl.
  repeat split; try reflexivity.
  intros b' Hb. now apply update_other.
Qed.

Lemma deFunctionCreate_frame filepath block type name linkage line (r : deRoot) :
  let f := fst (deFunctionCreate filepath block type name linkage line r) in
  let r' := snd (deFunctionCreate filepath block type name linkage line r) in
  f = used (Functions r) /\
  used (Functions r') = S (used (Functions r)) /\
  deFunctionGetSubBlock r' f = Some (used (Blocks r)) /\
  deFunctionGetTclass r' f = None /\
  (forall f', f' <> f -> cell (Functions r') f' = cell (Functions r) f') /\
  used (Blocks r') = S (used (Blocks r)) /\
  cell (Blocks r') (used (Blocks r)) = mkBlock filepath DE_BLOCK_FUNCTION line [] [] [] [] /\
  (forall b', b' <> used (Blocks r) ->
              deBlockGetVariables r' b' = deBlockGetVariables r b' /\
              deBlockGetStatements r' b' = deBlockGetStatements r b' /\
              deBlockGetFilepath r' b' = deBlockGetFilepath r b' /\
              deBlockGetLine r' b' = deBlockGetLine r b') /\
  (forall b', b' <> used (Blocks r) -> b' <> block -> cell (Blocks r') b' = cell (Blocks r) b') /\
  Tclasses r' = Tclasses r /\ Classes r' = Classes r /\
  Variables r' = Variables r /\ Signatures r' = Signatures r /\
  Statements r' = Statements r /\
  root_Tclasses r' = root_Tclasses r /\ root_Classes r' = root_Classes r.
Proof.
  simpl. unfold deFunctionGetSubBlock, deFunctionGetTclass, deBlockGetVariables,
    deBlockGetStatements, deBlockGetFilepath, deBlockGetLine. simpl.
  rewrite !update_same. simpl.
  repeat split; try reflexivity.
  - intros f' Hf. rewrite !update_other by assumption. reflexivity.
  - rewrite update_other by assumption.
    destruct (Nat.eq_dec b' block) as [->|Hne];
      [rewrite !update_same | rewrite !update_other by assumption]; reflexivity.
  - rewrite update_other by assumption.
    destruct (Nat.eq_dec b' block) as [->|Hne];
      [rewrite !update_same | rewrite !update_other by assumption]; reflexivity.
  - rewrite update_other by assumption.
    destruct (Nat.eq_dec b' block) as [->|Hne];
      [rewrite !update_same | rewrite !update_other by assumption]; reflexivity.
  - rewrite update_other by assumption.
    destruct (Nat.eq_dec b' block) as [->|Hne];
      [rewrite !update_same | rewrite !update_other by assumption]; reflexivity.
  - intros b' Hb Hb'. rewrite !update_other by assumption. reflexivity.
Qed.

(** *** Computing with the tables *)

Ltac fields :=
  cbn [tclass_Function tclass_RefWidth tclass_Datatype tclass_Line tclass_HasDefaultClass
  tclass_NumClasses tclass_Classes
  class_Tclass class_Number class_RefWidth class_SubBlock class_Datatype class_Signatures
  function_Type function_Linkage function_Line function_Builtin function_SubBlock
  function_Tclass function_Idents
  block_Filepath block_Type block_Line block_Variables block_Functions block_Idents
  block_Statements
  variable_Type variable_Const variable_Sym variable_Initializer variable_Generated
  variable_Line variable_IsType variable_InTclassSignature variable_Datatype
  variable_Instantiated
  ident_Block ident_Type ident_Sym ident_Line ident_Function
  signature_Function signature_Class signature_Types
  statement_Type statement_Line statement_Expression] in *.

Ltac database :=
  repeat (cbv -[update u32 N.add app Nat.eqb Nat.ltb N.of_nat hd_error nth_error existsb
                forwardFunctions
                tclass_Function tclass_RefWidth tclass_Datatype tclass_Line tclass_HasDefaultClass
  tclass_NumClasses tclass_Classes
  class_Tclass class_Number class_RefWidth class_SubBlock class_Datatype class_Signatures
  function_Type function_Linkage function_Line function_Builtin function_SubBlock
  function_Tclass function_Idents
  block_Filepath block_Type block_Line block_Variables block_Functions block_Idents
  block_Statements
  variable_Type variable_Const variable_Sym variable_Initializer variable_Generated
  variable_Line variable_IsType variable_InTclassSignature variable_Datatype
  variable_Instantiated
  ident_Block ident_Type ident_Sym ident_Line ident_Function
  signature_Function signature_Class signature_Types
  statement_Type statement_Line statement_Expression] in *;
          fields;
          repeat (rewrite update_same; fields);
          repeat match goal with
                 | H : context [update _ ?k _ ?k] |- _ => rewrite update_same in H; fields
                 end).

Ltac cell_eq :=
  intros;
  first
    [ rewrite !update_other by assumption; reflexivity
    | match goal with
      | |- context [update _ ?k _ ?x] =>
          destruct (Nat.eq_dec x k) as [->|?];
          [rewrite ?update_same | rewrite ?update_other by assumption];
          reflexivity
      end ].

Ltac open_root r :=
  destruct r as [[? ?] [? ?] [? ?] [? ?] [? ?] [? ?] [? ?] [? ?] ? ?].

Lemma classCreate_frame (tclass : deTclass) (r : deRoot) (constructor : deFunction)
    (block : deBlock) :
  deTclassGetFunction r tclass = Some constructor ->
  deFunctionGetSubBlock r constructor = Some block ->
  exists r',
    classCreate tclass r = Ok (used (Classes r), r') /\
    used (Classes r') = S (used (Classes r)) /\
    used (Tclasses r') = used (Tclasses r) /\
    cell (Tclasses r') tclass
    = mkTclass (deTclassGetFunction r tclass) (deTclassGetRefWidth r tclass)
        (deTclassGetDatatype r tclass) (deTclassGetLine r tclass)
        (deTclassHasDefaultClass r tclass) (u32 (deTclassGetNumClasses r tclass + 1))
        (deTclassGetClasses r tclass ++ [used (Classes r)]) /\
    (forall t, t <> tclass -> cell (Tclasses r') t = cell (Tclasses r) t) /\
    cell (Classes r') (used (Classes r))
    = mkClass (Some tclass) (u32 (deTclassGetNumClasses r tclass + 1))
        (deTclassGetRefWidth r tclass) (Some (used (Blocks r)))
        (Some (deClassDatatype (used (Classes r)))) [] /\
    (forall c, c <> used (Classes r) -> cell (Classes r') c = cell (Classes r) c) /\
    Functions r' = Functions r /\ Signatures r' = Signatures r /\
    (used (Idents r') = S (used (Idents r)) /\
     cell (Idents r') (used (Idents r))
     = mkIdent (Some (used (Blocks r))) DE_IDENT_VARIABLE "nextFree"%string 0 None /\
     forall i, i <> used (Idents r) -> cell (Idents r') i = cell (Idents r) i) /\
    Statements r' = Statements r /\
    root_Tclasses r' = root_Tclasses r /\
    used (Blocks r') = S (used (Blocks r)) /\
    cell (Blocks r') (used (Blocks r))
    = mkBlock (deBlockGetFilepath r block) DE_BLOCK_CLASS (deTclassGetLine r tclass)
        [used (Variables r)] [] [used (Idents r)] [] /\
    (forall b, b <> used (Blocks r) -> cell (Blocks r') b = cell (Blocks r) b) /\
    used (Variables r') = S (used (Variables r)) /\
    cell (Variables r') (used (Variables r))
    = mkVariable DE_VAR_LOCAL false "nextFree"%string None true 0 false false
        (Some (deUintDatatype (deTclassGetRefWidth r tclass))) true /\
    (forall v, v <> used (Variables r) -> cell (Variables r') v = cell (Variables r) v).
Proof.
  intros Hc Hb. open_root r. database.
  rewrite Hc. database. rewrite Hb. database.
  eexists. split; [reflexivity|]. database.
  repeat split; try reflexivity.
  - intros t Ht. now rewrite !update_other by assumption.
  - intros c Hne. now rewrite !update_other by assumption.
  - intros i Hne. now rewrite !update_other by assumption.
  - intros b Hne. now rewrite !update_other by assumption.
  - intros v Hne. now rewrite !update_other by assumption.
Qed.

Lemma deIdentCreate_frame block type name line (r : deRoot) :
  let r' := snd (deIdentCreate block type name line r) in
  Tclasses r' = Tclasses r /\ Classes r' = Classes r /\ Variables r' = Variables r.
Proof. simpl. repeat split; reflexivity. Qed.

Lemma u32_succ (k : nat) :
  (N.of_nat (S k) <= uint32_max)%N -> u32 (N.of_nat k + 1) = N.of_nat (S k).
Proof.
  unfold u32, uint32_max. intros H.
  rewrite N.mod_small; lia.
Qed.

Lemma deSignatureGetiType_nat (r : deRoot) (s : deSignature) (k : nat) :
  deSignatureGetiType r s (N.of_nat k) = deref (nth_error (deSignatureGetTypes r s) k).
Proof. unfold deSignatureGetiType. now rewrite Nat2N.id. Qed.

Lemma nth_error_in_range {A} (l : list A) (k : nat) :
  k < length l -> exists a, nth_error l k = Some a.
Proof.
  intros H. destruct (nth_error l k) eqn:E; [eauto|].
  apply nth_error_None in E. lia.
Qed.

(** ** What the functions of class.c do to the class tables *)

Ltac split_match H :=
  repeat match type of H with
         | context [match ?x with _ => _ end] =>
             let T := type of x in
             lazymatch eval hnf in T with
             | Result _ => idtac
             | option _ => idtac
             | bool => idtac
             end;
             lazymatch x with
             | context [match _ with _ => _ end] => fail
             | _ => revert H; destruct x eqn:?; intros H; try discriminate H
             end
         end.

Lemma classCreate_Ok (tclass : deTclass) (r : deRoot) (theClass : deClass) (r' : deRoot) :
  classCreate tclass r = Ok (theClass, r') ->
  exists constructor block,
    deTclassGetFunction r tclass = Some constructor /\
    deFunctionGetSubBlock r constructor = Some block.
Proof.
  intros H. open_root r. database. split_match H. eauto.
Qed.

Lemma classCreate_classAdded (tclass : deTclass) (r : deRoot) (theClass : deClass)
    (r' : deRoot) :
  classCreate tclass r = Ok (theClass, r') ->
  theClass = used (Classes r) /\ classAdded tclass r r'.
Proof.
  intros H. destruct (classCreate_Ok _ _ _ _ H) as (constructor & block & Hc & Hb).
  destruct (classCreate_frame _ _ _ _ Hc Hb)
    as (r'' & E & HuC & HuT & Ht & Hts & Hcl & Hcls & _).
  rewrite E in H. injection H as <- <-. split; [reflexivity|].
  unfold classAdded, sameTclass, deTclassGetClasses, deTclassGetNumClasses,
    deTclassHasDefaultClass, deClassGetNumber.
  rewrite Ht, Hcl. simpl.
  repeat split; try assumption; try reflexivity.
  - now rewrite Hts.
  - now rewrite Hts.
  - now rewrite Hts.
  - intros c Hne. now rewrite Hcls.
Qed.

Lemma deClassCreate_cases (tclass : deTclass) (signature : deSignature) (r : deRoot)
    (theClass : deClass) (r' : deRoot) :
  deClassCreate tclass signature r = Ok (theClass, r') ->
  r' = r \/ classCreate tclass r = Ok (theClass, r').
Proof.
  unfold deClassCreate. intros H.
  destruct (deSignatureGetClass r signature).
  - injection H as <- <-. now left.
  - destruct (findExistingClass r signature) as [[c|]|]; simpl in H.
    + injection H as <- <-. now left.
    + now right.
    + discriminate.
Qed.

Ltac step_deref H :=
  match type of H with
  | bind (deref ?x) _ = _ => destruct x eqn:?; cbn [bind deref] in H; [|discriminate H]
  end.

Ltac step_create H :=
  match type of H with
  | context [deFunctionCreate ?a ?b ?c ?d ?e ?f ?r] =>
      let F := fresh "Hframe" in
      pose proof (deFunctionCreate_frame a b c d e f r) as F;
      destruct (deFunctionCreate a b c d e f r) as [? ?]; cbn [fst snd] in F;
      destruct F as (_ & _ & _ & _ & _ & _ & _ & _ & _ & ? & ? & _)
  | context [deVariableCreate ?a ?b ?c ?d ?e ?f ?g ?r] =>
      let F := fresh "Hframe" in
      pose proof (deVariableCreate_frame a b c d e f g r) as F;
      destruct (deVariableCreate a b c d e f g r) as [? ?]; cbn [fst snd] in F;
      destruct F as (_ & _ & _ & _ & _ & _ & _ & _ & _ & _ & ? & ? & _)
  | context [deStatementCreate ?a ?b ?c ?r] =>
      let F := fresh "Hframe" in
      pose proof (deStatementCreate_frame a b c r) as F;
      destruct (deStatementCreate a b c r) as [? ?]; cbn [fst snd] in F;
      destruct F as (_ & _ & _ & _ & _ & _ & ? & ? & _)
  end.

Lemma addDestroyMethod_kept (tclass : deTclass) (r r' : deRoot) :
  addDestroyMethod tclass r = Ok r' ->
  Tclasses r' = Tclasses r /\ Classes r' = Classes r.
Proof.
  intros H. unfold addDestroyMethod in H.
  step_deref H. step_deref H. cbv zeta in H.
  step_create H. step_deref H. step_create H.
  injection H as <-. split; congruence.
Qed.

Lemma deTclassCreate_tclassAdded (constructor : deFunction) (refWidth : N) (line : deLine)
    (r : deRoot) (tclass : deTclass) (r' : deRoot) :
  deTclassCreate constructor refWidth line r = Ok (tclass, r') ->
  tclass = used (Tclasses r) /\ tclassAdded r r'.
Proof.
  intros H. unfold deTclassCreate in H.
  destruct (deTclassAlloc r) as [t r0] eqn:Ealloc. cbv zeta in H.
  set (r1 := deFunctionInsertTclass constructor t
               (deTclassSetLine t line
                  (deTclassSetDatatype t (deTclassDatatypeCreate t)
                     (deTclassSetRefWidth t refWidth r0)))) in H.
  assert (Hkept : exists r2, Tclasses r2 = Tclasses r1 /\ Classes r2 = Classes r1 /\
                             r' = deRootAppendTclass t r2 /\ tclass = t).
  { destruct (deFunctionBuiltin r1 constructor); cbn [negb] in H.
    - cbn [bind] in H. injection H as <- <-. exists r1. auto.
    - destruct (addDestroyMethod t r1) as [r2|] eqn:Ed; cbn [bind] in H; [|discriminate].
      injection H as <- <-. apply addDestroyMethod_kept in Ed. destruct Ed.
      exists r2. auto. }
  destruct Hkept as (r2 & Ht & Hc & -> & ->).
  unfold tclassAdded, sameTclass, deTclassGetClasses, deTclassGetNumClasses,
    deTclassHasDefaultClass, deClassGetNumber.
  change (Tclasses (deRootAppendTclass t r2)) with (Tclasses r2).
  change (Classes (deRootAppendTclass t r2)) with (Classes r2).
  rewrite Ht, Hc. subst r1. clear H Ht Hc r2.
  open_root r. database. injection Ealloc as <- <-. database.
  repeat split; try reflexivity;
    rewrite !update_other by assumption; reflexivity.
Qed.

Lemma deGenerateDefaultDumpMethod_kept (theClass : deClass) (r : deRoot)
    (function : deFunction) (r' : deRoot) :
  deGenerateDefaultDumpMethod theClass r = Ok (function, r') ->
  Tclasses r' = Tclasses r /\ Classes r' = Classes r.
Proof.
  intros H. unfold deGenerateDefaultDumpMethod in H.
  step_deref H. cbv zeta in H. step_deref H. step_deref H.
  step_create H. step_deref H. step_create H. step_create H.
  injection H as <- <-.
  unfold deStatementInsertExpression, withStatements. cbn [Tclasses Classes].
  split; congruence.
Qed.

Lemma deGenerateDefaultToStringMethod_kept (slot : deExpression -> string) (theClass : deClass)
    (r : deRoot) (function : deFunction) (r' : deRoot) :
  deGenerateDefaultToStringMethod slot theClass r = Ok (function, r') ->
  Tclasses r' = Tclasses r /\ Classes r' = Classes r.
Proof.
  intros H. unfold deGenerateDefaultToStringMethod in H.
  step_deref H. cbv zeta in H. step_deref H. step_deref H.
  step_create H. step_deref H. step_create H.
  apply bind_Ok in H. destruct H as (tupleExpr & _ & H).
  apply bind_Ok in H. destruct H as (format & _ & H).
  step_create H.
  injection H as <- <-.
  unfold deStatementInsertExpression, withStatements. cbn [Tclasses Classes].
  split; congruence.
Qed.

Lemma kept_otherModules (r r' : deRoot) :
  Tclasses r' = Tclasses r -> Classes r' = Classes r -> otherModules r r'.
Proof.
  intros Ht Hc. unfold otherModules, deTclassGetClasses, deTclassGetNumClasses,
    deTclassHasDefaultClass, deClassGetNumber.
  rewrite Ht, Hc. repeat split; reflexivity.
Qed.

Lemma deTclassGetDefaultClass_cases (tclass : deTclass) (r : deRoot)
    (theClass : option deClass) (r' : deRoot) :
  deTclassGetDefaultClass tclass r = Ok (theClass, r') ->
  (deTclassHasDefaultClass r tclass = true /\ r' = r /\
   theClass = deTclassGetFirstClass r tclass) \/
  (deTclassHasDefaultClass r tclass = false /\
   tclassHasTemplateParameters r tclass = Ok true /\ r' = r /\ theClass = None) \/
  (deTclassHasDefaultClass r tclass = false /\
   tclassHasTemplateParameters r tclass = Ok false /\
   exists r1,
     ((deTclassGetClasses r tclass <> [] /\ r1 = r) \/
      (deTclassGetClasses r tclass = [] /\ exists c, classCreate tclass r = Ok (c, r1))) /\
     r' = deTclassSetHasDefaultClass tclass true r1 /\
     theClass = deTclassGetFirstClass r' tclass).
Proof.
  unfold deTclassGetDefaultClass, deTclassGetFirstClass. intros H.
  destruct (deTclassHasDefaultClass r tclass); simpl in H.
  - injection H as <- <-. now left.
  - right. destruct (tclassHasTemplateParameters r tclass) as [[|]|]; simpl in H.
    + injection H as <- <-. now left.
    + right. split; [reflexivity|]. split; [reflexivity|].
      destruct (deTclassGetClasses r tclass) as [|c0 cs] eqn:Ecs; simpl in H.
      * destruct (classCreate tclass r) as [[c r1]|] eqn:Ecc; simpl in H; [|discriminate].
        injection H as <- <-. exists r1. split; [|split; reflexivity].
        right. split; [reflexivity|]. now exists c.
      * injection H as <- <-. exists r. split; [|split; reflexivity].
        left. split; [discriminate | reflexivity].
    + discriminate.
Qed.

Lemma deTclassSetHasDefaultClass_flagSet (tclass : deTclass) (r : deRoot) :
  deTclassGetClasses r tclass <> [] ->
  flagSet tclass r (deTclassSetHasDefaultClass tclass true r).
Proof.
  intros H. unfold flagSet, sameTclass. open_root r. database.
  repeat split; try reflexivity; try assumption;
    try (rewrite !update_other by assumption; reflexivity).
Qed.

(** ** Steps as effects on the class tables *)


Lemma effects_one (a b : deRoot) : effect a b -> effects a b.
Proof. intros H. eapply effects_more; [apply effects_none | exact H]. Qed.

Lemma classCreate_effect (tclass : deTclass) (r : deRoot) (theClass : deClass) (r' : deRoot) :
  classCreate tclass r = Ok (theClass, r') -> effect r r'.
Proof.
  intros H. apply classCreate_classAdded in H. destruct H as [_ H].
  eapply effect_classAdded; exact H.
Qed.

Lemma classStep_effects (r r' : deRoot) : classStep r r' -> effects r r'.
Proof.
  intros [constructor refWidth line tclass H | tclass dest copy H | tclass signature c H
         | tclass c H | slot c f H | c f H | H].
  - apply effects_one, effect_tclassAdded. now apply deTclassCreate_tclassAdded in H.
  - apply effects_one, effect_tclassAdded. unfold deCopyTclass in H.
    now apply deTclassCreate_tclassAdded in H.
  - apply deClassCreate_cases in H. destruct H as [-> | H].
    + apply effects_none.
    + apply effects_one. eapply classCreate_effect; eassumption.
  - apply deTclassGetDefaultClass_cases in H.
    destruct H as [(_ & -> & _) | [(_ & _ & -> & _) | (_ & _ & r1 & Hr1 & -> & _)]].
    + apply effects_none.
    + apply effects_none.
    + destruct Hr1 as [(Hne & ->) | (_ & c' & Hcc)].
      * apply effects_one. eapply effect_flagSet.
        now apply deTclassSetHasDefaultClass_flagSet.
      * eapply effects_more.
        -- apply effects_one. eapply classCreate_effect; eassumption.
        -- eapply effect_flagSet. apply deTclassSetHasDefaultClass_flagSet.
           apply classCreate_classAdded in Hcc.
           destruct Hcc as (_ & _ & _ & Hcs & _). rewrite Hcs.
           intros E. now apply app_eq_nil in E.
  - apply effects_one, effect_otherModules.
    apply deGenerateDefaultToStringMethod_kept in H. destruct H.
    now apply kept_otherModules.
  - apply effects_one, effect_otherModules.
    apply deGenerateDefaultDumpMethod_kept in H. destruct H.
    now apply kept_otherModules.
  - now apply effects_one, effect_otherModules.
Qed.


(** ** The numbering is kept by every effect *)

Lemma map_number_kept (r r' : deRoot) (fresh : deClass) (classes : list deClass) :
  Forall (fun c => c < fresh) classes ->
  (forall c, c <> fresh -> deClassGetNumber r' c = deClassGetNumber r c) ->
  map (deClassGetNumber r') classes = map (deClassGetNumber r) classes.
Proof.
  intros Hlt Hkeep. induction Hlt as [|c cs Hc _ IH]; simpl; [reflexivity|].
  rewrite IH, Hkeep by lia. reflexivity.
Qed.

Lemma numbered_same (r r' : deRoot) (t : deTclass) :
  deTclassGetClasses r' t = deTclassGetClasses r t ->
  deTclassGetNumClasses r' t = deTclassGetNumClasses r t ->
  used (Classes r) <= used (Classes r') ->
  (forall c, c < used (Classes r) -> deClassGetNumber r' c = deClassGetNumber r c) ->
  numbered r t -> numbered r' t.
Proof.
  intros Hcs Hn Hused Hnum [Halloc Hseq]. unfold numbered.
  rewrite Hcs, Hn. split.
  - eapply Forall_impl; [|exact Halloc]. simpl. intros c Hc. lia.
  - intros Hlen. destruct (Hseq Hlen) as [Hcount Hmap]. split; [assumption|].
    rewrite <- Hmap. apply map_ext_in. intros c Hc.
    rewrite Forall_forall in Halloc. apply Hnum. now apply Halloc.
Qed.

Lemma numbered_classAdded (tclass : deTclass) (r r' : deRoot) :
  classAdded tclass r r' -> numbered r tclass -> numbered r' tclass.
Proof.
  intros (_ & HuC & Hcs & Hn & _ & _ & Hnew & Hold) [Halloc Hseq]. unfold numbered.
  rewrite Hcs, Hn, HuC. split.
  - apply Forall_app. split.
    + eapply Forall_impl; [|exact Halloc]. simpl. intros c Hc. lia.
    + constructor; [lia | constructor].
  - rewrite length_app. cbn [length]. rewrite Nat.add_1_r. intros Hlen.
    destruct Hseq as [Hcount Hmap]; [lia|]. rewrite Hcount. split.
    + now apply u32_succ.
    + rewrite map_app. cbn [map]. rewrite Hnew, Hcount, u32_succ by assumption.
      rewrite (@map_number_kept r r' (used (Classes r))) by assumption.
      rewrite Hmap, seq_S, map_app. reflexivity.
Qed.

Lemma effect_sound (r r' : deRoot) :
  effect r r' -> classTablesSound r -> classTablesSound r'.
Proof.
  intros [H | tclass H | H | tclass H] Hsound t; destruct (Hsound t) as [Hnum Hflag].
  - destruct H as (_ & HuC & Ht & Hnumbers). destruct (Ht t) as (Hcs & Hn & Hf). split.
    + apply (@numbered_same r r' t); try assumption; [lia|].
      intros c _. apply Hnumbers.
    + now rewrite Hf, Hcs.
  - pose proof H as (_ & HuC & Hcs & _ & Hf & Hother & _ & Hold).
    destruct (Nat.eq_dec t tclass) as [->|Hne].
    + split.
      * now apply (@numbered_classAdded tclass r r').
      * intros _. rewrite Hcs. intros E. now apply app_eq_nil in E.
    + destruct (Hother t Hne) as (Hcs' & Hn' & Hf'). split.
      * apply (@numbered_same r r' t); try assumption; [lia|].
        intros c Hc. apply Hold. lia.
      * now rewrite Hf', Hcs'.
  - destruct H as (_ & HuC & Hcs & Hn & Hf & Hother & Hnumbers).
    destruct (Nat.eq_dec t (used (Tclasses r))) as [->|Hne].
    + split.
      * unfold numbered. rewrite Hcs, Hn. split; [constructor|]. intros _. split; reflexivity.
      * rewrite Hf. discriminate.
    + destruct (Hother t Hne) as (Hcs' & Hn' & Hf'). split.
      * apply (@numbered_same r r' t); try assumption; [lia|].
        intros c _. apply Hnumbers.
      * now rewrite Hf', Hcs'.
  - destruct H as (_ & HuC & Hne & Hf & Hcs & Hn & Hother & Hnumbers).
    destruct (Nat.eq_dec t tclass) as [->|Hneq].
    + split.
      * apply (@numbered_same r r' tclass); try assumption; [lia|].
        intros c _. apply Hnumbers.
      * intros _. now rewrite Hcs.
    + destruct (Hother t Hneq) as (Hcs' & Hn' & Hf'). split.
      * apply (@numbered_same r r' t); try assumption; [lia|].
        intros c _. apply Hnumbers.
      * now rewrite Hf', Hcs'.
Qed.

Lemma effects_sound (r r' : deRoot) :
  effects r r' -> classTablesSound r -> classTablesSound r'.
Proof.
  induction 1 as [|r r' r'' _ IH Heff]; [trivial|].
  intros H. eapply effect_sound; eauto.
Qed.

Lemma empty_sound : classTablesSound deRootCreate.
Proof.
  intros t. split; [split|].
  - constructor.
  - intros _. split; reflexivity.
  - discriminate.
Qed.

Lemma reachable_sound (r : deRoot) : reachable r -> classTablesSound r.
Proof.
  induction 1 as [|r r' _ IH Hstep]; [apply empty_sound|].
  exact (effects_sound _ _ (classStep_effects _ _ Hstep) IH).
Qed.

(** ** Nothing is removed from a tclass *)

Lemma effect_grows (r r' : deRoot) (t : deTclass) :
  effect r r' -> t < used (Tclasses r) ->
  t < used (Tclasses r') /\
  (exists added, deTclassGetClasses r' t = deTclassGetClasses r t ++ added) /\
  (deTclassHasDefaultClass r t = true -> deTclassHasDefaultClass r' t = true).
Proof.
  intros [H | tclass H | H | tclass H] Ht.
  - destruct H as (HuT & _ & Hsame & _). destruct (Hsame t) as (Hcs & _ & Hf).
    split; [lia|]. split; [exists []; now rewrite app_nil_r | now rewrite Hf].
  - destruct H as (HuT & _ & Hcs & _ & Hf & Hother & _).
    split; [lia|]. destruct (Nat.eq_dec t tclass) as [->|Hne].
    + split; [eexists; exact Hcs | now rewrite Hf].
    + destruct (Hother t Hne) as (Hcs' & _ & Hf').
      split; [exists []; now rewrite app_nil_r | now rewrite Hf'].
  - destruct H as (HuT & _ & _ & _ & _ & Hother & _).
    split; [lia|]. destruct (Hother t ltac:(lia)) as (Hcs' & _ & Hf').
    split; [exists []; now rewrite app_nil_r | now rewrite Hf'].
  - destruct H as (HuT & _ & _ & Hf & Hcs & _ & Hother & _).
    split; [lia|]. destruct (Nat.eq_dec t tclass) as [->|Hne].
    + split; [exists []; now rewrite app_nil_r | now rewrite Hf].
    + destruct (Hother t Hne) as (Hcs' & _ & Hf').
      split; [exists []; now rewrite app_nil_r | now rewrite Hf'].
Qed.

Lemma effects_grow (r r' : deRoot) (t : deTclass) :
  effects r r' -> t < used (Tclasses r) ->
  t < used (Tclasses r') /\
  (exists added, deTclassGetClasses r' t = deTclassGetClasses r t ++ added) /\
  (deTclassHasDefaultClass r t = true -> deTclassHasDefaultClass r' t = true).
Proof.
  induction 1 as [|r r' r'' _ IH Heff]; intros Ht.
  - split; [assumption|]. split; [exists []; now rewrite app_nil_r | trivial].
  - destruct (IH Ht) as (Ht' & (added & Hcs) & Hf).
    destruct (@effect_grows r' r'' t Heff Ht') as (Ht'' & (added' & Hcs') & Hf').
    split; [assumption|]. split; [|auto].
    exists (added ++ added'). now rewrite Hcs', Hcs, app_assoc.
Qed.

(** ** The two programs are reachable *)

Lemma deClassAppendSignature_otherModules (c : deClass) (s : deSignature) (r : deRoot) :
  otherModules r (deClassAppendSignature c s r).
Proof.
  unfold otherModules. open_root r. database.
  repeat split; try reflexivity.
  intros k. destruct (Nat.eq_dec k c) as [->|Hne].
  - now rewrite !update_same.
  - now rewrite !update_other by assumption.
Qed.

Lemma pointParsed_reachable : reachable pointParsed.
Proof.
  apply reachable_step with (r := deRootCreate); [apply reachable_empty|].
  apply step_otherModules, kept_otherModules; vm_compute; reflexivity.
Qed.

Lemma pointDeclared_reachable : reachable pointDeclared.
Proof.
  apply reachable_step with (r := pointParsed); [apply pointParsed_reachable|].
  apply step_deTclassCreate with (constructor := 0) (refWidth := 32%N) (line := 1) (tclass := 0).
  vm_compute. reflexivity.
Qed.

Lemma pointRoot_reachable : reachable pointRoot.
Proof.
  apply reachable_step with (r := pointDeclared); [apply pointDeclared_reachable|].
  apply step_otherModules, kept_otherModules; vm_compute; reflexivity.
Qed.

Lemma pointCreated_reachable : reachable pointCreated.
Proof.
  apply reachable_step with (r := pointRoot); [apply pointRoot_reachable|].
  apply step_deClassCreate with (tclass := 0) (signature := 0) (theClass := 0).
  vm_compute. reflexivity.
Qed.

Lemma pointClassRoot_reachable : reachable pointClassRoot.
Proof.
  apply reachable_step with (r := pointRecorded).
  - apply reachable_step with (r := pointCreated); [apply pointCreated_reachable|].
    apply step_otherModules, deClassAppendSignature_otherModules.
  - apply step_otherModules, kept_otherModules; vm_compute; reflexivity.
Qed.

Lemma pointSecond_reachable : reachable pointSecond.
Proof.
  apply reachable_step with (r := pointClassRoot); [apply pointClassRoot_reachable|].
  apply step_deClassCreate with (tclass := 0) (signature := 2) (theClass := 1).
  vm_compute. reflexivity.
Qed.

Lemma pairParsed_reachable : reachable pairParsed.
Proof.
  apply reachable_step with (r := deRootCreate); [apply reachable_empty|].
  apply step_otherModules, kept_otherModules; vm_compute; reflexivity.
Qed.

Lemma pairDeclared_reachable : reachable pairDeclared.
Proof.
  apply reachable_step with (r := pairParsed); [apply pairParsed_reachable|].
  apply step_deTclassCreate with (constructor := 0) (refWidth := 32%N) (line := 1) (tclass := 0).
  vm_compute. reflexivity.
Qed.

Lemma pairRoot_reachable : reachable pairRoot.
Proof.
  apply reachable_step with (r := pairDeclared); [apply pairDeclared_reachable|].
  apply step_otherModules, kept_otherModules; vm_compute; reflexivity.
Qed.

Lemma pairDefaultRoot_reachable : reachable pairDefaultRoot.
Proof.
  apply reachable_step with (r := pairRoot); [apply pairRoot_reachable|].
  apply step_deTclassGetDefaultClass with (tclass := 0) (theClass := Some 0).
  vm_compute. reflexivity.
Qed.

(** ** Datatype compatibility *)

(** C3: two datatypes are compatible exactly when they are identical, or the
    new one is the TBDCLASS placeholder of a tclass [T] and the old one is a
    class whose tclass is [T]; a class as new datatype against a placeholder
    as old datatype is never compatible. *)
Theorem datatypesCompatible_iff (r : deRoot) :
  (forall newDatatype oldDatatype,
      datatypesCompatible r newDatatype oldDatatype = true <->
      newDatatype = oldDatatype \/
      exists T theClass,
        newDatatype = deTbdclassDatatype T /\
        oldDatatype = deClassDatatype theClass /\
        deClassGetTclass r theClass = Some T) /\
  (forall theClass T,
      datatypesCompatible r (deClassDatatype theClass) (deTbdclassDatatype T) = false).
Proof.
  split.
  - intros n o. unfold datatypesCompatible.
    destruct (deDatatype_eqb n o) eqn:E.
    + apply deDatatype_eqb_eq in E. tauto.
    + apply deDatatype_eqb_neq in E.
      destruct n; simpl;
        try (split; [discriminate | intros [H | (T & c & H & _)]; congruence]).
      destruct o; simpl;
        try (split; [discriminate | intros [H | (T & c & _ & H & _)]; congruence]).
      rewrite option_nat_eqb_eq. split.
      * intros H. right. eauto.
      * intros [H | (T & c & H1 & H2 & H3)]; [congruence|].
        inversion H1; inversion H2; subst. assumption.
  - intros c T. reflexivity.
Qed.

(** ** The signature-match rule *)

Lemma matchVariables_rule (r : deRoot) (newSignature oldSignature : deSignature)
    (variables : list deVariable) :
  forall k : nat,
    k + length (parameterPrefix r variables) <= length (deSignatureGetTypes r newSignature) ->
    k + length (parameterPrefix r variables) <= length (deSignatureGetTypes r oldSignature) ->
    (N.of_nat (k + length (parameterPrefix r variables)) <= uint32_max)%N ->
    exists b,
      matchVariables r newSignature oldSignature variables (N.of_nat k) = Ok b /\
      (b = true <->
       forall i p, nth_error (parameterPrefix r variables) i = Some p ->
                   deVariableInTclassSignature r p = true ->
                   compatibleAt r newSignature oldSignature (k + i)).
Proof.
  induction variables as [|v rest IH]; intros k Hn Ho Hk; simpl in *.
  - exists true. split; [reflexivity|]. split; [|reflexivity].
    intros _ [|i] p; discriminate.
  - destruct (deVariableType_eqb (deVariableGetType r v) DE_VAR_PARAMETER) eqn:Ev; simpl in *.
    + destruct (IH (S k)) as (b & Hb & Hiff); try lia.
      destruct (deVariableInTclassSignature r v) eqn:Ef.
      * rewrite !deSignatureGetiType_nat.
        destruct (@nth_error_in_range _ (deSignatureGetTypes r newSignature) k) as (n & En); [lia|].
        destruct (@nth_error_in_range _ (deSignatureGetTypes r oldSignature) k) as (o & Eo); [lia|].
        rewrite En, Eo. simpl.
        destruct (datatypesCompatible r n o) eqn:Ec; simpl.
        -- rewrite u32_succ by lia. exists b. split; [assumption|].
           rewrite Hiff. split.
           ++ intros H [|i] p Hp Hflag; simpl in Hp.
              ** rewrite Nat.add_0_r. exists n, o. auto.
              ** replace (k + S i) with (S k + i) by lia. eauto.
           ++ intros H i p Hp Hflag.
              replace (S k + i) with (k + S i) by lia. apply H with (p := p); assumption.
        -- exists false. split; [reflexivity|]. split; [discriminate|].
           intros H. destruct (H 0 v eq_refl Ef) as (n' & o' & En' & Eo' & Ec').
           rewrite Nat.add_0_r in En', Eo'. congruence.
      * simpl. rewrite u32_succ by lia. exists b. split; [assumption|].
        rewrite Hiff. split.
        -- intros H [|i] p Hp Hflag; simpl in Hp.
           ++ congruence.
           ++ replace (k + S i) with (S k + i) by lia. eauto.
        -- intros H i p Hp Hflag.
           replace (S k + i) with (k + S i) by lia. apply H with (p := p); assumption.
    + exists true. split; [reflexivity|]. split; [|reflexivity].
      intros _ [|i] p; discriminate.
Qed.

(** C2: the signature-match test compares the two signatures on the parameter
    prefix of the constructor's variables only, position by position; it
    answers "match" exactly when, at every parameter of the prefix flagged
    inTclassSignature, the new datatype is compatible with the old one; the
    positions of the other parameters and everything from the first
    non-parameter variable on play no part. *)
Theorem classSignaturesMatch_rule (r : deRoot) (newSignature oldSignature : deSignature)
    (constructor : deFunction) (block : deBlock) :
  deSignatureGetFunction r newSignature = Some constructor ->
  deFunctionGetSubBlock r constructor = Some block ->
  length (parameterPrefix r (deBlockGetVariables r block))
    <= length (deSignatureGetTypes r newSignature) ->
  length (parameterPrefix r (deBlockGetVariables r block))
    <= length (deSignatureGetTypes r oldSignature) ->
  (N.of_nat (length (parameterPrefix r (deBlockGetVariables r block))) <= uint32_max)%N ->
  exists b,
    classSignaturesMatch r newSignature oldSignature = Ok b /\
    (b = true <->
     forall i p,
       nth_error (parameterPrefix r (deBlockGetVariables r block)) i = Some p ->
       deVariableInTclassSignature r p = true ->
       compatibleAt r newSignature oldSignature i).
Proof.
  intros Hf Hb Hn Ho Hk. unfold classSignaturesMatch. rewrite Hf. simpl. rewrite Hb. simpl.
  exact (@matchVariables_rule r newSignature oldSignature (deBlockGetVariables r block) 0 Hn Ho Hk).
Qed.

Lemma classSignaturesMatch_rule_witness :
  exists b,
    classSignaturesMatch pointRoot 1 0 = Ok b /\
    (b = true <->
     forall i p,
       nth_error (parameterPrefix pointRoot (deBlockGetVariables pointRoot 1)) i = Some p ->
       deVariableInTclassSignature pointRoot p = true ->
       compatibleAt pointRoot 1 0 i).
Proof.
  apply (@classSignaturesMatch_rule pointRoot 1 0 0 1).
  - reflexivity.
  - reflexivity.
  - vm_compute. lia.
  - vm_compute. lia.
  - apply N.leb_le. reflexivity.
Defined.

(** ** Classes without a first signature *)

Lemma findAmongClasses_app (r : deRoot) (tclass : deTclass) (signature : deSignature)
    (before rest : list deClass) :
  Forall (passedOver r signature) before ->
  findAmongClasses r tclass signature (before ++ rest)
  = findAmongClasses r tclass signature rest.
Proof.
  induction 1 as [|c before (other & Hfirst & Hmatch) _ IH]; simpl.
  - reflexivity.
  - rewrite Hfirst, Hmatch. simpl. exact IH.
Qed.

(** C10: when the scan of [findExistingClass] reaches a class that has no
    first signature (every class before it has one, and none of those
    matches), that class is the answer whatever the datatypes of the
    signature, provided the tclass is flagged as having a default class; if it
    is not flagged the assertion stops the compiler. *)
Theorem findExistingClass_without_signature (r : deRoot) (signature : deSignature)
    (function : deFunction) (tclass : deTclass) (before after : list deClass)
    (theClass : deClass) :
  deSignatureGetFunction r signature = Some function ->
  deFunctionGetTclass r function = Some tclass ->
  deTclassGetClasses r tclass = before ++ theClass :: after ->
  Forall (passedOver r signature) before ->
  deClassGetFirstSignature r theClass = None ->
  findExistingClass r signature
  = if deTclassHasDefaultClass r tclass then Ok (Some theClass) else Abort.
Proof.
  intros Hf Ht Hcs Hbefore Hnone. unfold findExistingClass.
  rewrite Hf. simpl. rewrite Ht. simpl. rewrite Hcs.
  rewrite findAmongClasses_app by assumption. simpl. rewrite Hnone.
  destruct (deTclassHasDefaultClass r tclass); reflexivity.
Qed.

Lemma findExistingClass_without_signature_witness :
  findExistingClass pairDefaultRoot 1
  = (if deTclassHasDefaultClass pairDefaultRoot 0 then Ok (Some 0) else Abort) /\
  findExistingClass pointSecond 2
  = (if deTclassHasDefaultClass pointSecond 0 then Ok (Some 1) else Abort).
Proof.
  split.
  - apply (@findExistingClass_without_signature pairDefaultRoot 1 0 0 [] [] 0);
      try (vm_compute; reflexivity).
    constructor.
  - apply (@findExistingClass_without_signature pointSecond 2 0 0 [0] [] 1);
      try (vm_compute; reflexivity).
    constructor; [|constructor]. exists 0. split; vm_compute; reflexivity.
Defined.

(** ** The tuple of the generated toString *)

Lemma memberExpression_tupleElement (r : deRoot) (selfExpr : deExpression) (v : deVariable)
    (d : deDatatype) :
  memberExpression r selfExpr v d = tupleElement r selfExpr v d.
Proof.
  unfold memberExpression, tupleElement.
  destruct (deDatatypeType_eqb (deDatatypeGetType d) DE_TYPE_CLASS); reflexivity.
Qed.

Lemma appendMembers_members (r : deRoot) (selfExpr : deExpression) (variables : list deVariable) :
  forall t l c dt n w s types,
    forallb (hasDatatype r) (filter (isMember r) variables) = true ->
    appendMembers r selfExpr variables (Expression t l c dt n w s) types
    = Ok (Expression t l (c ++ tupleElements r selfExpr (filter (isMember r) variables)) dt n w s,
          types ++ memberDatatypes r (filter (isMember r) variables)).
Proof.
  induction variables as [|v rest IH]; intros t l c dt n w s types H; simpl in *.
  - now rewrite !app_nil_r.
  - fold (isMember r v). destruct (isMember r v) eqn:Em; simpl in *.
    + apply andb_true_iff in H. destruct H as [Hv Hrest].
      unfold hasDatatype in Hv.
      destruct (deVariableGetDatatype r v) as [d|] eqn:Ed; [|discriminate]. simpl.
      rewrite memberExpression_tupleElement, IH by assumption.
      now rewrite <- !app_assoc.
    + now apply IH.
Qed.








(** ** The format of the generated toString *)

Lemma appendElements_entries (slot : deExpression -> string) (r : deRoot)
    (selfExpr : deExpression) (members : list deVariable) :
  forall firstTime format,
    forallb (hasDatatype r) members = true ->
    appendElements slot (tupleElements r selfExpr members) firstTime format
    = Ok (format ++ entriesFormat slot r selfExpr members firstTime)%string.
Proof.
  induction members as [|v rest IH]; intros firstTime format H; simpl in *.
  - now rewrite string_app_nil_r.
  - apply andb_true_iff in H. destruct H as [Hv Hrest]. unfold hasDatatype in Hv.
    destruct (deVariableGetDatatype r v) as [d|] eqn:Ed; [|discriminate].
    assert (Hname :
      (if deExpressionType_eqb (deExpressionGetType (tupleElement r selfExpr v d)) DE_EXPR_CAST
       then inner <- deref (deExpressionGetLastExpression (tupleElement r selfExpr v d)) ;;
            deref (deExpressionGetLastExpression inner)
       else deref (deExpressionGetLastExpression (tupleElement r selfExpr v d)))
      = Ok (Expression DE_EXPR_IDENT (deVariableGetLine r v) [] None
              (Some (deVariableGetSym r v)) 0 None)).
    { unfold tupleElement.
      destruct (deDatatypeType_eqb (deDatatypeGetType d) DE_TYPE_CLASS); reflexivity. }
    simpl. rewrite Hname. simpl.
    rewrite IH by assumption. f_equal.
    unfold deAppendOneFormatElement, deAppendToBuffer.
    destruct firstTime.
    + simpl. rewrite !string_app_assoc. reflexivity.
    + simpl. rewrite !string_app_assoc. reflexivity.
Qed.

Lemma findObjectPrintFormat_objectFormat (slot : deExpression -> string) (r : deRoot)
    (selfExpr : deExpression) (members : list deVariable) t l dt n w s :
  forallb (hasDatatype r) members = true ->
  findObjectPrintFormat slot (Expression t l (tupleElements r selfExpr members) dt n w s)
  = Ok (objectFormat slot r selfExpr members).
Proof.
  intros H. unfold findObjectPrintFormat, objectFormat. simpl.
  rewrite appendElements_entries by assumption. simpl.
  unfold deAppendToBuffer. reflexivity.
Qed.

Lemma appendMembers_ext (r r' : deRoot) (selfExpr : deExpression) (variables : list deVariable) :
  Forall (fun v => cell (Variables r') v = cell (Variables r) v) variables ->
  forall tupleExpr types,
    appendMembers r' selfExpr variables tupleExpr types
    = appendMembers r selfExpr variables tupleExpr types.
Proof.
  induction 1 as [|v rest Hv _ IH]; intros tupleExpr types; simpl.
  - reflexivity.
  - unfold deVariableIsType, deVariableGenerated, deVariableGetDatatype, memberExpression,
      deVariableGetLine, deVariableGetSym.
    rewrite Hv.
    destruct (negb (variable_IsType (cell (Variables r) v))
              && negb (variable_Generated (cell (Variables r) v))); [|apply IH].
    destruct (variable_Datatype (cell (Variables r) v)); simpl; [apply IH | reflexivity].
Qed.

Lemma allocated_below (n : nat) (l : list nat) :
  forallb (fun v => v <? n) l = true -> Forall (fun v => v <> n) l.
Proof.
  rewrite forallb_forall, Forall_forall. intros H v Hv.
  specialize (H v Hv). apply Nat.ltb_lt in H. lia.
Qed.

(** C7: the generated toString returns [format % tuple] where the tuple has one
    element per member of the class block (the variables that are neither
    type-only nor generated, in declaration order) and the format is an
    opening brace, then per member, separated by a comma and a space, the
    name of the member, " = " and the format element of its tuple element,
    then a closing brace. *)
Theorem deGenerateDefaultToStringMethod_format (slot : deExpression -> string) (r : deRoot)
    (theClass : deClass) (classBlock : deBlock) (tclass : deTclass) (constructor : deFunction) :
  deClassGetSubBlock r theClass = Some classBlock ->
  deClassGetTclass r theClass = Some tclass ->
  deTclassGetFunction r tclass = Some constructor ->
  (classBlock <? used (Blocks r)) = true ->
  forallb (fun v => v <? used (Variables r)) (deBlockGetVariables r classBlock) = true ->
  forallb (hasDatatype r) (classMembers r classBlock) = true ->
  let line := deBlockGetLine r classBlock in
  let selfExpr :=
    Expression DE_EXPR_IDENT line [] (Some (deClassDatatype theClass)) (Some "self"%string) 0 None in
  let members := classMembers r classBlock in
  exists function r' functionBlock statement,
    deGenerateDefaultToStringMethod slot theClass r = Ok (function, r') /\
    deFunctionGetSubBlock r' function = Some functionBlock /\
    deBlockGetStatements r' functionBlock = [statement] /\
    deStatementGetType r' statement = DE_STATEMENT_RETURN /\
    deStatementGetExpression r' statement
    = Some (Expression DE_EXPR_MOD line
              [Expression DE_EXPR_STRING line [] None None 0
                 (Some (objectFormat slot r selfExpr members));
               Expression DE_EXPR_TUPLE line (tupleElements r selfExpr members)
                 (Some (deTupleDatatype (memberDatatypes r members))) None 0 None]
              None None 0 None).
Proof.
  intros Hblock Htclass Hctor Hb Hvars Hdt line selfExpr members.
  subst selfExpr. set (selfExpr := Expression DE_EXPR_IDENT line [] (Some (deClassDatatype theClass)) (Some "self"%string) 0 None).
  apply Nat.ltb_lt in Hb.
  unfold deGenerateDefaultToStringMethod.
  rewrite Hblock. cbn [bind deref]. rewrite Htclass. cbn [bind deref].
  rewrite Hctor. cbn [bind deref].
  pose proof (deFunctionCreate_frame (deBlockGetFilepath r classBlock) classBlock DE_FUNC_PLAIN
                "toString"%string (deFunctionGetLinkage r constructor) 0 r) as Hfc.
  destruct (deFunctionCreate (deBlockGetFilepath r classBlock) classBlock DE_FUNC_PLAIN
              "toString"%string (deFunctionGetLinkage r constructor) 0 r) as [function r1].
  cbn [fst snd] in Hfc.
  destruct Hfc as (Hf & _ & Hsub & _ & _ & Hused1 & Hcell1 & Hkeep1 & _ & _ & _ & Hvar1 & _ & Hst1 & _).
  rewrite Hsub. cbn [bind deref].
  destruct (Hkeep1 classBlock ltac:(lia)) as (Hv1 & _ & _ & Hline1).
  rewrite Hline1. fold line.
  pose proof (deVariableCreate_frame (used (Blocks r)) DE_VAR_PARAMETER true "self"%string None
                false line r1) as Hvc.
  destruct (deVariableCreate (used (Blocks r)) DE_VAR_PARAMETER true "self"%string None
              false line r1) as [self r2].
  cbn [fst snd] in Hvc.
  destruct Hvc as (Hself & _ & _ & Hkeepv & Hused2 & _ & Hst2 & _ & _ & Hkeepb & _ & _ & Hfun2
                   & _ & _ & Hstat2 & _).
  assert (Hbuild : buildClassTupleExpression r2 classBlock selfExpr
                   = Ok (Expression DE_EXPR_TUPLE line (tupleElements r selfExpr members)
                           (Some (deTupleDatatype (memberDatatypes r members))) None 0 None)).
  { unfold buildClassTupleExpression, deExpressionCreate.
    assert (Hvs : deBlockGetVariables r2 classBlock = deBlockGetVariables r classBlock).
    { unfold deBlockGetVariables. rewrite Hkeepb by lia. exact Hv1. }
    rewrite Hvs.
    rewrite (@appendMembers_ext r r2).
    - rewrite appendMembers_members by exact Hdt. reflexivity.
    - apply allocated_below in Hvars. rewrite Forall_forall in *.
      intros v Hv. rewrite Hkeepv.
      + now rewrite Hvar1.
      + rewrite Hself, Hvar1. now apply Hvars. }
  cbv zeta. unfold deIdentExpressionCreate, deExpressionSetDatatype, deClassDatatypeCreate.
  fold line. change (Expression DE_EXPR_IDENT line [] (Some (deClassDatatype theClass))
            (Some "self"%string) 0 None) with selfExpr.
  pose proof (deStatementCreate_frame (used (Blocks r)) DE_STATEMENT_RETURN line r2) as Hsc.
  destruct (deStatementCreate (used (Blocks r)) DE_STATEMENT_RETURN line r2) as [statement r3].
  cbn [fst snd] in Hsc.
  destruct Hsc as (Hs & Hcells & _ & Hst3 & _ & _ & _ & _ & Hfun3 & _).
  eexists function, _, (used (Blocks r)), statement.
  split.
  { rewrite Hbuild. cbn [bind].
    rewrite findObjectPrintFormat_objectFormat by exact Hdt. cbn [bind]. reflexivity. }
  split.
  { unfold deFunctionGetSubBlock, deStatementInsertExpression in *. simpl.
    rewrite Hfun3, Hfun2. exact Hsub. }
  split.
  { unfold deBlockGetStatements, deStatementInsertExpression in *. simpl.
    rewrite Hst3, Hst2, Hcell1. reflexivity. }
  unfold deStatementGetType, deStatementGetExpression, deStatementInsertExpression. simpl.
  rewrite !update_same, Hcells. simpl. split; reflexivity.
Qed.

Lemma deGenerateDefaultToStringMethod_format_witness :
  (exists function r' functionBlock statement,
      deGenerateDefaultToStringMethod (fun _ => "<slot>"%string) 0 pairClassRoot
      = Ok (function, r') /\
      deFunctionGetSubBlock r' function = Some functionBlock /\
      deBlockGetStatements r' functionBlock = [statement] /\
      deStatementGetType r' statement = DE_STATEMENT_RETURN /\
      deStatementGetExpression r' statement
      = Some (Expression DE_EXPR_MOD (deBlockGetLine pairClassRoot 3)
                [Expression DE_EXPR_STRING (deBlockGetLine pairClassRoot 3) [] None None 0
                   (Some (objectFormat (fun _ => "<slot>"%string) pairClassRoot pairSelf
                            (classMembers pairClassRoot 3)));
                 Expression DE_EXPR_TUPLE (deBlockGetLine pairClassRoot 3)
                   (tupleElements pairClassRoot pairSelf (classMembers pairClassRoot 3))
                   (Some (deTupleDatatype
                            (memberDatatypes pairClassRoot (classMembers pairClassRoot 3))))
                   None 0 None]
                None None 0 None)) /\
  objectFormat (fun _ => "<slot>"%string) pairClassRoot pairSelf (classMembers pairClassRoot 3)
  = "{x = <slot>, y = <slot>}"%string.
Proof.
  split.
  - apply (@deGenerateDefaultToStringMethod_format (fun _ => "<slot>"%string)
             pairClassRoot 0 3 0 0); reflexivity.
  - reflexivity.
Defined.

(** ** The generated dump method *)



(** ** Sequence numbers *)

Lemma numbers_nth (number : deClass -> N) (classes : list deClass) (i : nat) (c : deClass) :
  map number classes = map N.of_nat (seq 1 (length classes)) ->
  nth_error classes i = Some c ->
  number c = N.of_nat (S i).
Proof.
  intros Hmap Hnth.
  assert (Hi : i < length classes) by (apply nth_error_Some; congruence).
  apply (f_equal (fun l => nth_error l i)) in Hmap.
  rewrite !nth_error_map, Hnth, nth_error_seq in Hmap.
  destruct (Nat.ltb_spec i (length classes)); [|lia].
  simpl in Hmap. now injection Hmap.
Qed.

(** C6: in every database the compiler can reach, as long as the count of
    the classes of a tclass fits a [uint32], the count stored in the tclass is
    the length of its list of classes and the classes carry the numbers 1, 2,
    3, ... in the order of their creation; creating a class gives it the count
    plus one as number, stores that count and appends the class; and no step
    removes a class of an allocated tclass or lowers its count. *)
Theorem class_numbering (r : deRoot) (t : deTclass) :
  reachable r ->
  (N.of_nat (length (deTclassGetClasses r t)) <= uint32_max)%N ->
  deTclassGetNumClasses r t = N.of_nat (length (deTclassGetClasses r t)) /\
  (forall i c, nth_error (deTclassGetClasses r t) i = Some c ->
               deClassGetNumber r c = N.of_nat (S i)) /\
  (forall c r',
      classCreate t r = Ok (c, r') ->
      (N.of_nat (S (length (deTclassGetClasses r t))) <= uint32_max)%N ->
      deClassGetNumber r' c = (deTclassGetNumClasses r t + 1)%N /\
      deTclassGetNumClasses r' t = (deTclassGetNumClasses r t + 1)%N /\
      deTclassGetClasses r' t = deTclassGetClasses r t ++ [c]) /\
  (forall r',
      classStep r r' -> t < used (Tclasses r) ->
      (exists added, deTclassGetClasses r' t = deTclassGetClasses r t ++ added) /\
      ((N.of_nat (length (deTclassGetClasses r' t)) <= uint32_max)%N ->
       (deTclassGetNumClasses r t <= deTclassGetNumClasses r' t)%N)).
Proof.
  intros Hreach Hlen.
  destruct (reachable_sound _ Hreach t) as [[Halloc Hseq] _].
  destruct (Hseq Hlen) as [Hcount Hmap].
  split; [exact Hcount|]. split; [|split].
  - intros i c Hnth. now apply (@numbers_nth _ (deTclassGetClasses r t)).
  - intros c r' Hcc Hroom. apply classCreate_classAdded in Hcc.
    destruct Hcc as (-> & _ & _ & Hcs & Hn & _ & _ & Hnew & _).
    rewrite Hnew, Hn, Hcs, Hcount, u32_succ by assumption.
    repeat split; lia.
  - intros r' Hstep Ht.
    destruct (@effects_grow r r' t (classStep_effects _ _ Hstep) Ht) as (_ & (added & Hcs) & _).
    split; [now exists added|]. intros Hlen'.
    assert (Hreach' : reachable r') by (eapply reachable_step; eassumption).
    destruct (reachable_sound _ Hreach' t) as [[_ Hseq'] _].
    destruct (Hseq' Hlen') as [Hcount' _].
    rewrite Hcount, Hcount', Hcs, length_app. lia.
Qed.

Lemma class_numbering_witness :
  deTclassGetNumClasses pointSecond 0
  = N.of_nat (length (deTclassGetClasses pointSecond 0)) /\
  (forall i c, nth_error (deTclassGetClasses pointSecond 0) i = Some c ->
               deClassGetNumber pointSecond c = N.of_nat (S i)) /\
  (forall c r',
      classCreate 0 pointSecond = Ok (c, r') ->
      (N.of_nat (S (length (deTclassGetClasses pointSecond 0%nat))) <= uint32_max)%N ->
      deClassGetNumber r' c = (deTclassGetNumClasses pointSecond 0%nat + 1)%N /\
      deTclassGetNumClasses r' 0 = (deTclassGetNumClasses pointSecond 0%nat + 1)%N /\
      deTclassGetClasses r' 0 = deTclassGetClasses pointSecond 0 ++ [c]) /\
  (forall r',
      classStep pointSecond r' -> 0 < used (Tclasses pointSecond) ->
      (exists added,
          deTclassGetClasses r' 0 = deTclassGetClasses pointSecond 0 ++ added) /\
      ((N.of_nat (length (deTclassGetClasses r' 0%nat)) <= uint32_max)%N ->
       (deTclassGetNumClasses pointSecond 0%nat <= deTclassGetNumClasses r' 0%nat)%N)).
Proof.
  apply (@class_numbering pointSecond 0).
  - exact pointSecond_reachable.
  - apply N.leb_le. reflexivity.
Defined.

(** ** The default class *)

Lemma deTclassGetDefaultClass_flagged (tclass : deTclass) (r : deRoot) :
  deTclassHasDefaultClass r tclass = true ->
  deTclassGetDefaultClass tclass r = Ok (deTclassGetFirstClass r tclass, r).
Proof. intros H. unfold deTclassGetDefaultClass. now rewrite H. Qed.



Lemma flagSet_other (t t0 : deTclass) (a b : deRoot) :
  t <> t0 -> flagSet t0 a b -> deTclassHasDefaultClass b t = deTclassHasDefaultClass a t.
Proof.
  intros Hne (_ & _ & _ & _ & _ & _ & Hother & _). now destruct (Hother t Hne) as (_ & _ & E).
Qed.




Lemma noVariableFlagged_iff (r : deRoot) (t : deTclass) :
  noVariableFlagged r t <-> tclassHasTemplateParameters r t = Ok false.
Proof.
  unfold noVariableFlagged, constructorVariables, tclassHasTemplateParameters.
  destruct (deTclassGetFunction r t) as [constructor|]; cbn [bind deref].
  - destruct (deFunctionGetSubBlock r constructor) as [block|]; cbn [bind deref].
    + split.
      * intros (variables & E & Hall). injection E as <-. f_equal.
        destruct (existsb _ _) eqn:Ex; [|reflexivity].
        apply existsb_exists in Ex. destruct Ex as (v & Hin & Hv).
        rewrite (Hall v Hin) in Hv. discriminate Hv.
      * intros E. injection E as E. exists (deBlockGetVariables r block).
        split; [reflexivity|]. intros v Hin.
        destruct (deVariableInTclassSignature r v) eqn:Hv; [|reflexivity].
        assert (Ex : existsb (deVariableInTclassSignature r) (deBlockGetVariables r block)
                     = true) by (apply existsb_exists; now exists v).
        rewrite Ex in E. discriminate E.
    + split; [intros (? & E & _) | intros E]; discriminate E.
  - split; [intros (? & E & _) | intros E]; discriminate E.
Qed.


Lemma tclassHasTemplateParameters_Ok (tclass : deTclass) (r : deRoot) (b : bool) :
  tclassHasTemplateParameters r tclass = Ok b ->
  exists constructor block,
    deTclassGetFunction r tclass = Some constructor /\
    deFunctionGetSubBlock r constructor = Some block.
Proof.
  unfold tclassHasTemplateParameters. intros H.
  destruct (deTclassGetFunction r tclass) as [constructor|] eqn:Ec; [|discriminate].
  cbn [bind deref] in H.
  destruct (deFunctionGetSubBlock r constructor) as [block|] eqn:Eb; [|discriminate].
  eauto.
Qed.







(** ** The class created for the default class *)

(** C5: the class that [deTclassGetDefaultClass] creates for a tclass without
    flagged variable and without class is made by [classCreate] like every
    other class: its nextFree variable is typed as the unsigned integer of
    the reference width, not as the class itself, and its block holds no
    function identifier (and no function) at all. *)
Theorem deTclassGetDefaultClass_ordinary_class (r : deRoot) (t : deTclass) :
  deTclassHasDefaultClass r t = false ->
  noVariableFlagged r t ->
  deTclassGetClasses r t = [] ->
  exists r',
    deTclassGetDefaultClass t r = Ok (Some (used (Classes r)), r') /\
    deClassGetSubBlock r' (used (Classes r)) = Some (used (Blocks r)) /\
    deClassGetDatatype r' (used (Classes r)) = Some (deClassDatatype (used (Classes r))) /\
    deBlockGetVariables r' (used (Blocks r)) = [used (Variables r)] /\
    deVariableGetSym r' (used (Variables r)) = "nextFree"%string /\
    deVariableGetDatatype r' (used (Variables r))
    = Some (deUintDatatype (deTclassGetRefWidth r t)) /\
    deVariableGetDatatype r' (used (Variables r)) <> deClassGetDatatype r' (used (Classes r)) /\
    Forall (fun ident => deIdentGetType r' ident <> DE_IDENT_FUNCTION)
      (deBlockGetIdents r' (used (Blocks r))) /\
    deBlockGetFunctions r' (used (Blocks r)) = [].
Proof.
  intros Hf Hp Hcs. apply noVariableFlagged_iff in Hp.
  destruct (tclassHasTemplateParameters_Ok _ _ _ Hp) as (constructor & block & Hc & Hb).
  destruct (classCreate_frame _ _ _ _ Hc Hb)
    as (r1 & E & _ & _ & Ht & _ & Hcl & _ & _ & _ & (_ & Hid & _) & _ & _ & _ & Hbl & _ & _
        & Hv & _).
  exists (deTclassSetHasDefaultClass t true r1).
  unfold deTclassGetDefaultClass, deTclassGetFirstClass.
  rewrite Hf, Hp. cbn [negb bind]. rewrite Hcs. cbn [hd_error bind utAssert].
  rewrite E. cbn [bind].
  unfold deClassGetSubBlock, deClassGetDatatype, deBlockGetVariables, deVariableGetSym,
    deVariableGetDatatype, deBlockGetIdents, deBlockGetFunctions, deTclassGetClasses,
    deIdentGetType, deTclassSetHasDefaultClass, withTclasses.
  cbn [Tclasses Classes Blocks Variables Idents tableModify cell used].
  rewrite update_same, Ht, Hcl, Hbl, Hv. cbn. rewrite Hcs.
  repeat split; try reflexivity; try discriminate.
  constructor; [|constructor]. rewrite Hid. cbn. discriminate.
Qed.

Lemma deTclassGetDefaultClass_ordinary_class_witness :
  exists r',
    deTclassGetDefaultClass 0 pairRoot = Ok (Some (used (Classes pairRoot)), r') /\
    deClassGetSubBlock r' (used (Classes pairRoot)) = Some (used (Blocks pairRoot)) /\
    deClassGetDatatype r' (used (Classes pairRoot))
    = Some (deClassDatatype (used (Classes pairRoot))) /\
    deBlockGetVariables r' (used (Blocks pairRoot)) = [used (Variables pairRoot)] /\
    deVariableGetSym r' (used (Variables pairRoot)) = "nextFree"%string /\
    deVariableGetDatatype r' (used (Variables pairRoot))
    = Some (deUintDatatype (deTclassGetRefWidth pairRoot 0)) /\
    deVariableGetDatatype r' (used (Variables pairRoot))
    <> deClassGetDatatype r' (used (Classes pairRoot)) /\
    Forall (fun ident => deIdentGetType r' ident <> DE_IDENT_FUNCTION)
      (deBlockGetIdents r' (used (Blocks pairRoot))) /\
    deBlockGetFunctions r' (used (Blocks pairRoot)) = [].
Proof.
  apply (deTclassGetDefaultClass_ordinary_class pairRoot 0); try (vm_compute; reflexivity).
  exists [0; 1; 2]. split; [vm_compute; reflexivity|].
  intros v [<- | [<- | [<- | []]]]; vm_compute; reflexivity.
Defined.

(** What [defaultClassCreate], which nothing calls, would have made of the
    default class of Pair: nextFree typed as the class itself, and in the
    block of the class a function identifier for the destroy method of the
    tclass. *)
Lemma defaultClassCreate_forwards :
  exists r' ident,
    defaultClassCreate 0 pairRoot = Ok (0, r') /\
    deClassGetSubBlock r' 0 = Some 3 /\
    deBlockGetVariables r' 3 = [4] /\
    deVariableGetDatatype r' 4 = Some (deClassDatatype 0) /\
    deBlockGetFunctions pairRoot 1 = [1] /\
    In ident (deBlockGetIdents r' 3) /\
    deIdentGetType r' ident = DE_IDENT_FUNCTION /\
    deIdentGetSym r' ident = "destroy"%string /\
    deIdentGetFunction r' ident = Some 1.
Proof.
  eexists. exists 7. split; [vm_compute; reflexivity|].
  repeat split; try (vm_compute; reflexivity).
  vm_compute. right. left. reflexivity.
Qed.

(** ** Resolving a signature to a class *)

Lemma option_datatype_eqb_eq (a b : option deDatatype) :
  option_datatype_eqb a b = true <-> a = b.
Proof.
  destruct a, b; simpl; try rewrite deDatatype_eqb_eq; split; congruence.
Qed.

(** Signatures with the same identity are matched alike against any old
    signature. *)
Lemma matchVariables_sameIdentity (r : deRoot) (s1 s2 old : deSignature)
    (variables : list deVariable) :
  forall k : nat,
    sameIdentityFrom r (deSignatureGetTypes r s1) (deSignatureGetTypes r s2)
      (parameterPrefix r variables) k = true ->
    (N.of_nat (k + length (parameterPrefix r variables)) <= uint32_max)%N ->
    matchVariables r s1 old variables (N.of_nat k)
    = matchVariables r s2 old variables (N.of_nat k).
Proof.
  induction variables as [|v rest IH]; intros k Hsame Hk; simpl in *; [reflexivity|].
  destruct (deVariableType_eqb (deVariableGetType r v) DE_VAR_PARAMETER); simpl in *;
    [|reflexivity].
  apply andb_true_iff in Hsame. destruct Hsame as [Hv Hrest].
  rewrite u32_succ by lia.
  rewrite (IH (S k)) by (try assumption; lia).
  destruct (deVariableInTclassSignature r v); [|reflexivity].
  apply option_datatype_eqb_eq in Hv.
  rewrite !deSignatureGetiType_nat, Hv. reflexivity.
Qed.

(** A signature matches any signature of the same identity. *)
Lemma matchVariables_self (r : deRoot) (s1 s2 : deSignature) (variables : list deVariable) :
  forall k : nat,
    sameIdentityFrom r (deSignatureGetTypes r s1) (deSignatureGetTypes r s2)
      (parameterPrefix r variables) k = true ->
    k + length (parameterPrefix r variables) <= length (deSignatureGetTypes r s1) ->
    (N.of_nat (k + length (parameterPrefix r variables)) <= uint32_max)%N ->
    matchVariables r s2 s1 variables (N.of_nat k) = Ok true.
Proof.
  induction variables as [|v rest IH]; intros k Hsame Hlen Hk; simpl in *; [reflexivity|].
  destruct (deVariableType_eqb (deVariableGetType r v) DE_VAR_PARAMETER); simpl in *;
    [|reflexivity].
  apply andb_true_iff in Hsame. destruct Hsame as [Hv Hrest].
  rewrite u32_succ by lia.
  rewrite (IH (S k)) by (try assumption; lia).
  destruct (deVariableInTclassSignature r v); [|reflexivity].
  apply option_datatype_eqb_eq in Hv.
  rewrite !deSignatureGetiType_nat, <- Hv.
  destruct (@nth_error_in_range _ (deSignatureGetTypes r s1) k) as (d & Ed); [lia|].
  rewrite Ed. simpl. unfold datatypesCompatible. now rewrite deDatatype_eqb_refl.
Qed.

(** *** The matcher reads allocated objects only *)

Lemma datatypesCompatible_kept (r r' : deRoot) (newDatatype oldDatatype : deDatatype) :
  (forall c, deDatatypeGetClass oldDatatype = Some c ->
             deClassGetTclass r' c = deClassGetTclass r c) ->
  datatypesCompatible r' newDatatype oldDatatype = datatypesCompatible r newDatatype oldDatatype.
Proof.
  intros H. unfold datatypesCompatible.
  destruct (deDatatypeGetClass oldDatatype) as [c|]; [|reflexivity].
  now rewrite (H c eq_refl).
Qed.

Lemma matchVariables_kept (r r' : deRoot) (s old : deSignature) (variables : list deVariable) :
  deSignatureGetTypes r' s = deSignatureGetTypes r s ->
  deSignatureGetTypes r' old = deSignatureGetTypes r old ->
  Forall (fun v => cell (Variables r') v = cell (Variables r) v) variables ->
  Forall (fun d => forall c, deDatatypeGetClass d = Some c ->
                             deClassGetTclass r' c = deClassGetTclass r c)
         (deSignatureGetTypes r old) ->
  forall xParam,
    matchVariables r' s old variables xParam = matchVariables r s old variables xParam.
Proof.
  intros Hs Hold Hvars Hclasses.
  induction Hvars as [|v rest Hv _ IH]; intros xParam; simpl; [reflexivity|].
  unfold deVariableGetType, deVariableInTclassSignature, deSignatureGetiType.
  rewrite Hv, Hs, Hold, IH.
  destruct (deVariableType_eqb (variable_Type (cell (Variables r) v)) DE_VAR_PARAMETER);
    [|reflexivity]. simpl.
  destruct (variable_InTclassSignature (cell (Variables r) v)); [|reflexivity].
  destruct (nth_error (deSignatureGetTypes r s) (N.to_nat xParam)) as [n|]; [|reflexivity].
  simpl.
  destruct (nth_error (deSignatureGetTypes r old) (N.to_nat xParam)) as [o|] eqn:Eo;
    [|reflexivity].
  simpl. rewrite Forall_forall in Hclasses.
  rewrite (@datatypesCompatible_kept r r' n o); [reflexivity|].
  apply Hclasses. eapply nth_error_In; eassumption.
Qed.

Lemma datatypeAllocated_kept (r r' : deRoot) (types : list deDatatype) :
  matcherKept r r' ->
  forallb (datatypeAllocated r) types = true ->
  Forall (fun d => forall c, deDatatypeGetClass d = Some c ->
                             deClassGetTclass r' c = deClassGetTclass r c) types.
Proof.
  intros (_ & _ & _ & _ & Hclasses) H. rewrite forallb_forall in H.
  apply Forall_forall. intros d Hd c Hc. apply Hclasses.
  specialize (H d Hd). unfold datatypeAllocated in H. rewrite Hc in H.
  now apply Nat.ltb_lt.
Qed.

Lemma classSignaturesMatch_kept (r r' : deRoot) (s old : deSignature) (function : deFunction)
    (block : deBlock) :
  matcherKept r r' ->
  deSignatureGetFunction r s = Some function ->
  deFunctionGetSubBlock r function = Some block ->
  block < used (Blocks r) ->
  forallb (fun v => v <? used (Variables r)) (deBlockGetVariables r block) = true ->
  forallb (datatypeAllocated r) (deSignatureGetTypes r old) = true ->
  classSignaturesMatch r' s old = classSignaturesMatch r s old.
Proof.
  intros Hkept Hf Hb Hblock Hvars Hold.
  pose proof (datatypeAllocated_kept _ _ _ Hkept Hold) as Hclasses.
  destruct Hkept as (Hsig & Hfun & Hblocks & Hvariables & _).
  unfold classSignaturesMatch.
  destruct (Hsig s) as [Hsf Hst]. destruct (Hsig old) as [_ Hot].
  rewrite Hsf, Hf. cbn [bind deref].
  unfold deFunctionGetSubBlock in *. rewrite Hfun, Hb. cbn [bind deref].
  unfold deBlockGetVariables in *. rewrite (Hblocks block Hblock).
  apply matchVariables_kept; try assumption.
  apply Forall_forall. intros v Hv. apply Hvariables.
  rewrite forallb_forall in Hvars. apply Nat.ltb_lt. now apply Hvars.
Qed.

Lemma matcherKept_refl (r : deRoot) : matcherKept r r.
Proof. repeat split; reflexivity. Qed.

Lemma matcherKept_classCreate (tclass : deTclass) (r : deRoot) (c : deClass) (r1 : deRoot) :
  classCreate tclass r = Ok (c, r1) -> matcherKept r r1.
Proof.
  intros H. destruct (classCreate_Ok _ _ _ _ H) as (constructor & block & Hc & Hb).
  destruct (classCreate_frame _ _ _ _ Hc Hb)
    as (r1' & E & _ & _ & _ & _ & Hcl & Hcls & Hfun & Hsig & _ & _ & _ & _ & _ & Hbl & _ & _ & Hv).
  rewrite E in H. injection H as <- <-.
  unfold matcherKept, deSignatureGetFunction, deSignatureGetTypes, deClassGetTclass.
  rewrite Hsig. repeat split; try assumption.
  - intros b Hlt. apply Hbl. lia.
  - intros v Hlt. apply Hv. lia.
  - intros c Hlt. rewrite Hcls by lia. reflexivity.
Qed.

(** *** Recording a signature with a class *)

Lemma deClassAppendSignature_reads (c : deClass) (s : deSignature) (r : deRoot) :
  Tclasses (deClassAppendSignature c s r) = Tclasses r /\
  Functions (deClassAppendSignature c s r) = Functions r /\
  Blocks (deClassAppendSignature c s r) = Blocks r /\
  Variables (deClassAppendSignature c s r) = Variables r /\
  (forall s', deSignatureGetFunction (deClassAppendSignature c s r) s'
              = deSignatureGetFunction r s' /\
              deSignatureGetTypes (deClassAppendSignature c s r) s'
              = deSignatureGetTypes r s') /\
  (forall s', s' <> s -> deSignatureGetClass (deClassAppendSignature c s r) s'
                         = deSignatureGetClass r s') /\
  (forall c', deClassGetTclass (deClassAppendSignature c s r) c' = deClassGetTclass r c') /\
  deClassGetSignatures (deClassAppendSignature c s r) c = deClassGetSignatures r c ++ [s] /\
  (forall c', c' <> c -> deClassGetSignatures (deClassAppendSignature c s r) c'
                         = deClassGetSignatures r c').
Proof.
  open_root r. database.
  repeat split; try reflexivity; cell_eq.
Qed.

Lemma matcherKept_append (r r1 : deRoot) (c : deClass) (s : deSignature) :
  matcherKept r r1 -> matcherKept r (deClassAppendSignature c s r1).
Proof.
  intros (Hsig & Hfun & Hbl & Hv & Hcl).
  destruct (deClassAppendSignature_reads c s r1)
    as (_ & Hfun' & Hbl' & Hv' & Hsig' & _ & Hcl' & _).
  unfold matcherKept. rewrite Hfun', Hbl', Hv'. repeat split; try assumption.
  - rewrite (proj1 (Hsig' s0)). apply Hsig.
  - rewrite (proj2 (Hsig' s0)). apply Hsig.
  - intros c0 Hc0. rewrite Hcl'. now apply Hcl.
Qed.

(** *** The scan *)

Lemma findAmongClasses_found (r : deRoot) (tclass : deTclass) (signature : deSignature)
    (classes : list deClass) (c : deClass) :
  findAmongClasses r tclass signature classes = Ok (Some c) ->
  exists before after,
    classes = before ++ c :: after /\
    Forall (passedOver r signature) before /\
    stopsAt r tclass signature c.
Proof.
  induction classes as [|c0 rest IH]; simpl; [discriminate|].
  destruct (deClassGetFirstSignature r c0) as [founding|] eqn:Efirst.
  - destruct (classSignaturesMatch r signature founding) as [[|]|] eqn:Ematch; simpl.
    + intros H. injection H as <-. exists [], rest. split; [reflexivity|].
      split; [constructor|]. right. eauto.
    + intros H. destruct (IH H) as (before & after & -> & Hbefore & Hstop).
      exists (c0 :: before), after. split; [reflexivity|]. split; [|assumption].
      constructor; [|assumption]. exists founding. auto.
    + discriminate.
  - destruct (deTclassHasDefaultClass r tclass) eqn:Eflag; simpl; [|discriminate].
    intros H. injection H as <-. exists [], rest. split; [reflexivity|].
    split; [constructor|]. left. auto.
Qed.

Lemma findAmongClasses_none (r : deRoot) (tclass : deTclass) (signature : deSignature)
    (classes : list deClass) :
  findAmongClasses r tclass signature classes = Ok None <->
  Forall (passedOver r signature) classes.
Proof.
  induction classes as [|c0 rest IH]; simpl.
  - split; [constructor | reflexivity].
  - destruct (deClassGetFirstSignature r c0) as [founding|] eqn:Efirst.
    + destruct (classSignaturesMatch r signature founding) as [[|]|] eqn:Ematch; simpl.
      * split; [discriminate|]. intros H. inversion H as [|? ? (f & Ef & Em) _]; subst.
        congruence.
      * rewrite IH. split.
        -- intros H. constructor; [|assumption]. exists founding. auto.
        -- intros H. now inversion H.
      * split; [discriminate|]. intros H. inversion H as [|? ? (f & Ef & Em) _]; subst.
        congruence.
    + split.
      * destruct (deTclassHasDefaultClass r tclass); discriminate.
      * intros H. inversion H as [|? ? (f & Ef & Em) _]; subst. congruence.
Qed.

Lemma findAmongClasses_stops (r : deRoot) (tclass : deTclass) (signature : deSignature)
    (before after : list deClass) (c : deClass) :
  Forall (passedOver r signature) before ->
  stopsAt r tclass signature c ->
  findAmongClasses r tclass signature (before ++ c :: after) = Ok (Some c).
Proof.
  intros Hbefore Hstop. rewrite findAmongClasses_app by assumption. simpl.
  destruct Hstop as [(Hnone & Hflag) | (founding & Hfirst & Hmatch)].
  - now rewrite Hnone, Hflag.
  - now rewrite Hfirst, Hmatch.
Qed.

Lemma passedOver_not_stopsAt (r : deRoot) (tclass : deTclass) (signature : deSignature)
    (c : deClass) :
  passedOver r signature c -> stopsAt r tclass signature c -> False.
Proof.
  intros (f & Ef & Em) [(Hnone & _) | (f' & Ef' & Em')]; congruence.
Qed.

Lemma deClassCreate_found (r : deRoot) (tclass : deTclass) (signature : deSignature)
    (function : deFunction) (before after : list deClass) (c : deClass) :
  deSignatureGetFunction r signature = Some function ->
  deFunctionGetTclass r function = Some tclass ->
  deSignatureGetClass r signature = None ->
  deTclassGetClasses r tclass = before ++ c :: after ->
  Forall (passedOver r signature) before ->
  stopsAt r tclass signature c ->
  deClassCreate tclass signature r = Ok (c, r).
Proof.
  intros Hf Ht Hcached Hcs Hbefore Hstop.
  unfold deClassCreate, findExistingClass.
  rewrite Hcached, Hf. cbn [bind deref]. rewrite Ht. cbn [bind deref].
  rewrite Hcs, findAmongClasses_stops by assumption. reflexivity.
Qed.

Lemma deClassCreate_three_ways (r : deRoot) (tclass : deTclass) (signature : deSignature)
    (function : deFunction) (c : deClass) (r' : deRoot) :
  deSignatureGetFunction r signature = Some function ->
  deFunctionGetTclass r function = Some tclass ->
  deClassCreate tclass signature r = Ok (c, r') ->
  (deSignatureGetClass r signature = Some c /\ r' = r) \/
  (deSignatureGetClass r signature = None /\ r' = r /\
   exists before after,
     deTclassGetClasses r tclass = before ++ c :: after /\
     Forall (passedOver r signature) before /\
     stopsAt r tclass signature c) \/
  (deSignatureGetClass r signature = None /\
   Forall (passedOver r signature) (deTclassGetClasses r tclass) /\
   classCreate tclass r = Ok (c, r')).
Proof.
  intros Hf Ht. unfold deClassCreate, findExistingClass.
  destruct (deSignatureGetClass r signature) as [cached|].
  - intros H. injection H as <- <-. now left.
  - intros H. right. rewrite Hf in H. cbn [bind deref] in H. rewrite Ht in H.
    cbn [bind deref] in H.
    destruct (findAmongClasses r tclass signature (deTclassGetClasses r tclass))
      as [[found|]|] eqn:Escan; cbn [bind] in H; [| |discriminate].
    + injection H as <- <-. left. split; [reflexivity|]. split; [reflexivity|].
      now apply findAmongClasses_found in Escan.
    + right. split; [reflexivity|]. split; [|assumption].
      now apply findAmongClasses_none in Escan.
Qed.

Lemma classSignaturesMatch_sameIdentity (r : deRoot) (s1 s2 old : deSignature)
    (function : deFunction) (block : deBlock) :
  deSignatureGetFunction r s1 = Some function ->
  deSignatureGetFunction r s2 = Some function ->
  deFunctionGetSubBlock r function = Some block ->
  sameIdentity r block s1 s2 = true ->
  (N.of_nat (length (parameterPrefix r (deBlockGetVariables r block))) <= uint32_max)%N ->
  classSignaturesMatch r s1 old = classSignaturesMatch r s2 old.
Proof.
  intros H1 H2 Hb Hsame Hk. unfold classSignaturesMatch.
  rewrite H1, H2. cbn [bind deref]. rewrite Hb. cbn [bind deref].
  now apply (@matchVariables_sameIdentity r s1 s2 old (deBlockGetVariables r block) 0).
Qed.

Lemma classSignaturesMatch_self (r : deRoot) (s1 s2 : deSignature)
    (function : deFunction) (block : deBlock) :
  deSignatureGetFunction r s2 = Some function ->
  deFunctionGetSubBlock r function = Some block ->
  sameIdentity r block s1 s2 = true ->
  length (parameterPrefix r (deBlockGetVariables r block))
    <= length (deSignatureGetTypes r s1) ->
  (N.of_nat (length (parameterPrefix r (deBlockGetVariables r block))) <= uint32_max)%N ->
  classSignaturesMatch r s2 s1 = Ok true.
Proof.
  intros H2 Hb Hsame Hlen Hk. unfold classSignaturesMatch.
  rewrite H2. cbn [bind deref]. rewrite Hb. cbn [bind deref].
  now apply (@matchVariables_self r s1 s2 (deBlockGetVariables r block) 0).
Qed.

(** *** Two calls *)

Lemma first_after_append (l : list deSignature) (s : deSignature) :
  hd_error (l ++ [s]) = Some (hd s l).
Proof. destruct l; reflexivity. Qed.

Lemma deClassCreate_again (r : deRoot) (tclass : deTclass) (signature other : deSignature)
    (function : deFunction) (block : deBlock) (c : deClass) (r1 : deRoot) :
  deSignatureGetFunction r signature = Some function ->
  deFunctionGetTclass r function = Some tclass ->
  deFunctionGetSubBlock r function = Some block ->
  other <> signature ->
  deSignatureGetFunction r other = Some function ->
  deSignatureGetClass r signature = None ->
  deSignatureGetClass r other = None ->
  sameIdentity r block signature other = true ->
  length (parameterPrefix r (deBlockGetVariables r block))
    <= length (deSignatureGetTypes r signature) ->
  (N.of_nat (length (parameterPrefix r (deBlockGetVariables r block))) <= uint32_max)%N ->
  matcherAllocated r tclass block = true ->
  forallb (datatypeAllocated r) (deSignatureGetTypes r signature) = true ->
  deClassCreate tclass signature r = Ok (c, r1) ->
  deClassCreate tclass other (deClassAppendSignature c signature r1)
  = Ok (c, deClassAppendSignature c signature r1).
Proof.
  intros Hf Ht Hb Hne Hof Hcached Hocached Hsame Hlen Hk Halloc Hsigalloc Hcall.
  unfold matcherAllocated in Halloc.
  apply andb_true_iff in Halloc. destruct Halloc as [Halloc Hfounding].
  apply andb_true_iff in Halloc. destruct Halloc as [Halloc Hvars].
  apply andb_true_iff in Halloc. destruct Halloc as [Hclasses Hblock].
  apply Nat.ltb_lt in Hblock.
  rewrite forallb_forall in Hclasses, Hfounding.
  (* what the first call did *)
  assert (Hfirst : exists before after,
             deTclassGetClasses r1 tclass = before ++ c :: after /\
             Forall (fun b => b <> c /\ In b (deTclassGetClasses r tclass) /\
                              passedOver r signature b) before /\
             matcherKept r r1 /\ Signatures r1 = Signatures r /\
             (forall b, In b (deTclassGetClasses r tclass) ->
                        deClassGetSignatures r1 b = deClassGetSignatures r b) /\
             ((In c (deTclassGetClasses r tclass) /\ stopsAt r tclass signature c) \/
              deClassGetSignatures r1 c = [])).
  { destruct (@deClassCreate_three_ways r tclass signature function c r1 Hf Ht Hcall)
      as [(Hc & _) | [(_ & -> & before & after & Hcs & Hbefore & Hstop)
                     | (_ & Hall & Hcc)]]; [congruence| |].
    - exists before, after. split; [assumption|]. split.
      + apply Forall_forall. intros b Hin. rewrite Forall_forall in Hbefore. split; [|split].
        * intros ->. eapply passedOver_not_stopsAt; [apply Hbefore|]; eassumption.
        * rewrite Hcs. apply in_or_app. now left.
        * now apply Hbefore.
      + split; [apply matcherKept_refl|]. split; [reflexivity|]. split; [reflexivity|].
        left. split; [|assumption]. rewrite Hcs. apply in_or_app. right. now left.
    - pose proof (matcherKept_classCreate _ _ _ _ Hcc) as Hkept.
      destruct (classCreate_Ok _ _ _ _ Hcc) as (constructor & cblock & Hc' & Hb').
      destruct (classCreate_frame _ _ _ _ Hc' Hb')
        as (r1' & E & _ & _ & Htc & _ & Hcl & Hcls & _ & Hsig & _).
      rewrite E in Hcc. injection Hcc as <- <-.
      exists (deTclassGetClasses r tclass), []. split.
      + unfold deTclassGetClasses at 1. now rewrite Htc.
      + split.
        * apply Forall_forall. intros b Hin. rewrite Forall_forall in Hall. split; [|split].
          -- specialize (Hclasses b Hin). apply Nat.ltb_lt in Hclasses. lia.
          -- assumption.
          -- now apply Hall.
        * split; [assumption|]. split; [assumption|]. split.
          -- intros b Hin. unfold deClassGetSignatures. rewrite Hcls; [reflexivity|].
             specialize (Hclasses b Hin). apply Nat.ltb_lt in Hclasses. lia.
          -- right. unfold deClassGetSignatures. now rewrite Hcl. }
  destruct Hfirst as (before & after & Hcs & Hbefore & Hkept & Hsigs & Hold & Hc).
  set (r' := deClassAppendSignature c signature r1).
  pose proof (matcherKept_append _ _ c signature Hkept) as Hkept'. fold r' in Hkept'.
  destruct (deClassAppendSignature_reads c signature r1)
    as (Htc' & Hfun' & _ & _ & Hsig' & Hclass' & _ & Hcsig' & Hothers').
  fold r' in Htc', Hfun', Hsig', Hclass', Hcsig', Hothers'.
  destruct Hkept as (Hsigk & Hfunk & _).
  (* matching in the new database is matching in the old one *)
  assert (Hmatch : forall founding,
             forallb (datatypeAllocated r) (deSignatureGetTypes r founding) = true ->
             classSignaturesMatch r' other founding
             = classSignaturesMatch r signature founding).
  { intros founding Hfalloc.
    rewrite (@classSignaturesMatch_kept r r' other founding function block) by assumption.
    symmetry. now apply (@classSignaturesMatch_sameIdentity r signature other founding
                           function block). }
  apply (@deClassCreate_found r' tclass other function before after c).
  - rewrite (proj1 (Hsig' other)), (proj1 (Hsigk other)). exact Hof.
  - unfold deFunctionGetTclass in *. now rewrite Hfun', Hfunk.
  - rewrite Hclass' by assumption. unfold deSignatureGetClass in *. now rewrite Hsigs.
  - unfold deTclassGetClasses in *. now rewrite Htc'.
  - apply Forall_forall. intros b Hin. rewrite Forall_forall in Hbefore.
    destruct (Hbefore b Hin) as (Hbc & Hbin & founding & Hbfirst & Hbmatch).
    exists founding. split.
    + unfold deClassGetFirstSignature in *. now rewrite Hothers', Hold by assumption.
    + rewrite Hmatch; [assumption|].
      specialize (Hfounding b Hbin). now rewrite Hbfirst in Hfounding.
  - right. unfold deClassGetFirstSignature. rewrite Hcsig', first_after_append.
    eexists. split; [reflexivity|].
    assert (Hself : classSignaturesMatch r' other signature = Ok true).
    { rewrite Hmatch by assumption.
      rewrite (@classSignaturesMatch_sameIdentity r signature other signature function block)
        by assumption.
      now apply (@classSignaturesMatch_self r signature other function block). }
    destruct Hc as [(Hcin & [(Hnone & _) | (founding & Hcfirst & Hcmatch)]) | Hempty].
    + unfold deClassGetFirstSignature in Hnone. rewrite (Hold c Hcin).
      destruct (deClassGetSignatures r c); [exact Hself | discriminate].
    + unfold deClassGetFirstSignature in Hcfirst. rewrite (Hold c Hcin).
      destruct (deClassGetSignatures r c) as [|s0 rest] eqn:Esigs; [discriminate|].
      injection Hcfirst as ->. cbn [hd].
      rewrite Hmatch; [assumption|].
      specialize (Hfounding c Hcin). unfold deClassGetFirstSignature in Hfounding.
      now rewrite Esigs in Hfounding.
    + rewrite Hempty. exact Hself.
Qed.

(** The scan of [deClassCreate] does not return "the first class whose
    founding signature matches": for the second call of Pair, after the
    default class was made, the class returned has no signature at all, where
    the three steps as the spec words them would allocate a new class.  Nor
    do two calls alone return the same class: the class that the first call
    of Point creates has no first signature until the caller records one,
    and a second call right after the first, with a signature of the same
    flagged datatypes, stops the compiler at the assertion of the scan. *)
Lemma deClassCreate_claim_counterexample :
  (deSignatureGetClass pairDefaultRoot 1 = None /\
   find (foundingSignatureMatches pairDefaultRoot 1) (deTclassGetClasses pairDefaultRoot 0)
   = None /\
   deClassCreate 0 1 pairDefaultRoot = Ok (0, pairDefaultRoot) /\
   deClassCreate 0 1 pairDefaultRoot <> resolveOrCreateClass 0 1 pairDefaultRoot) /\
  (sameIdentity pointRoot 1 0 1 = true /\
   deClassCreate 0 0 pointRoot = Ok (0, pointCreated) /\
   deClassCreate 0 1 pointCreated = Abort).
Proof.
  split.
  - split; [vm_compute; reflexivity|]. split; [vm_compute; reflexivity|].
    split; [vm_compute; reflexivity|].
    intros H.
    apply (f_equal (fun m => match m with
                             | Ok (c, _) => Some c
                             | Abort => None
                             end)) in H.
    vm_compute in H. discriminate H.
  - split; [vm_compute; reflexivity|]. split; vm_compute; reflexivity.
Qed.

(** C1 (amended): for a signature of the constructor of the tclass,
    [deClassCreate] (1) returns the class cached in the signature, if any;
    (2) otherwise scans the classes of the tclass in creation order, passing
    over the classes whose first signature the new signature does not match,
    and returns the first class that has no first signature (the tclass being
    flagged as having a default class) or whose first signature it matches;
    (3) otherwise, every class passed over, returns what [classCreate]
    allocates and appends; and it succeeds in no other way.  Once the caller
    has recorded the signature with the returned class, a call with another
    uncached signature of the same constructor that carries identical
    datatypes at every flagged parameter position returns the same class and
    changes nothing. *)
Theorem deClassCreate_steps (r : deRoot) (tclass : deTclass) (signature : deSignature)
    (function : deFunction) (block : deBlock) :
  deSignatureGetFunction r signature = Some function ->
  deFunctionGetTclass r function = Some tclass ->
  deFunctionGetSubBlock r function = Some block ->
  (forall cached,
      deSignatureGetClass r signature = Some cached ->
      deClassCreate tclass signature r = Ok (cached, r)) /\
  (forall before c after,
      deSignatureGetClass r signature = None ->
      deTclassGetClasses r tclass = before ++ c :: after ->
      Forall (passedOver r signature) before ->
      stopsAt r tclass signature c ->
      deClassCreate tclass signature r = Ok (c, r)) /\
  (deSignatureGetClass r signature = None ->
   Forall (passedOver r signature) (deTclassGetClasses r tclass) ->
   deClassCreate tclass signature r = classCreate tclass r /\
   forall c r',
     classCreate tclass r = Ok (c, r') ->
     c = used (Classes r) /\
     deTclassGetClasses r' tclass = deTclassGetClasses r tclass ++ [c]) /\
  (forall c r',
      deClassCreate tclass signature r = Ok (c, r') ->
      (deSignatureGetClass r signature = Some c /\ r' = r) \/
      (deSignatureGetClass r signature = None /\ r' = r /\
       exists before after,
         deTclassGetClasses r tclass = before ++ c :: after /\
         Forall (passedOver r signature) before /\
         stopsAt r tclass signature c) \/
      (deSignatureGetClass r signature = None /\
       Forall (passedOver r signature) (deTclassGetClasses r tclass) /\
       classCreate tclass r = Ok (c, r'))) /\
  (forall other c r1,
      other <> signature ->
      deSignatureGetFunction r other = Some function ->
      deSignatureGetClass r signature = None ->
      deSignatureGetClass r other = None ->
      sameIdentity r block signature other = true ->
      length (parameterPrefix r (deBlockGetVariables r block))
        <= length (deSignatureGetTypes r signature) ->
      (N.of_nat (length (parameterPrefix r (deBlockGetVariables r block))) <= uint32_max)%N ->
      matcherAllocated r tclass block = true ->
      forallb (datatypeAllocated r) (deSignatureGetTypes r signature) = true ->
      deClassCreate tclass signature r = Ok (c, r1) ->
      deClassCreate tclass other (deClassAppendSignature c signature r1)
      = Ok (c, deClassAppendSignature c signature r1)).
Proof.
  intros Hf Ht Hb. split; [|split; [|split; [|split]]].
  - intros cached Hcached. unfold deClassCreate. now rewrite Hcached.
  - intros before c after Hcached Hcs Hbefore Hstop.
    now apply (@deClassCreate_found r tclass signature function before after c).
  - intros Hcached Hall. split.
    + unfold deClassCreate, findExistingClass.
      rewrite Hcached, Hf. cbn [bind deref]. rewrite Ht. cbn [bind deref].
      now rewrite (proj2 (@findAmongClasses_none r tclass signature
                            (deTclassGetClasses r tclass)) Hall).
    + intros c r' Hcc. apply classCreate_classAdded in Hcc.
      destruct Hcc as (-> & _ & _ & Hcs & _). now split.
  - intros c r' Hcall.
    now apply (@deClassCreate_three_ways r tclass signature function c r').
  - intros other c r1 Hne Hof Hcached Hocached Hsame Hlen Hk Halloc Hsigalloc Hcall.
    now apply (@deClassCreate_again r tclass signature other function block c r1).
Qed.

Lemma deClassCreate_steps_witness :
  (deSignatureGetClass pointRecorded 0 = Some 0 /\
   deClassCreate 0 0 pointRecorded = Ok (0, pointRecorded)) /\
  (deTclassGetClasses pointFourth 0 = [0; 1] /\
   classSignaturesMatch pointFourth 3 0 = Ok false /\
   classSignaturesMatch pointFourth 3 2 = Ok true /\
   deClassCreate 0 3 pointFourth = Ok (1, pointFourth)) /\
  (deTclassGetClasses pointClassRoot 0 = [0] /\
   classSignaturesMatch pointClassRoot 2 0 = Ok false /\
   deClassCreate 0 2 pointClassRoot = classCreate 0 pointClassRoot /\
   deClassCreate 0 2 pointClassRoot = Ok (1, pointSecond) /\
   deTclassGetClasses pointSecond 0 = [0; 1]) /\
  (deSignatureGetClass pointRoot 0 = None /\
   Forall (passedOver pointRoot 0) (deTclassGetClasses pointRoot 0) /\
   classCreate 0 pointRoot = Ok (0, pointCreated)) /\
  (deClassCreate 0 0 pointRoot = Ok (0, pointCreated) /\
   deClassCreate 0 1 (deClassAppendSignature 0 0 pointCreated)
   = Ok (0, deClassAppendSignature 0 0 pointCreated)).
Proof.
  assert (Hcall : deClassCreate 0 0 pointRoot = Ok (0, pointCreated))
    by (vm_compute; reflexivity).
  split; [|split; [|split; [|split]]].
  - (* the class cached in the signature *)
    assert (Hcached : deSignatureGetClass pointRecorded 0 = Some 0)
      by (vm_compute; reflexivity).
    split; [exact Hcached|].
    assert (Hf : deSignatureGetFunction pointRecorded 0 = Some 0) by (vm_compute; reflexivity).
    assert (Ht : deFunctionGetTclass pointRecorded 0 = Some 0) by (vm_compute; reflexivity).
    assert (Hb : deFunctionGetSubBlock pointRecorded 0 = Some 1) by (vm_compute; reflexivity).
    destruct (deClassCreate_steps pointRecorded 0 0 0 1 Hf Ht Hb) as (Hfast & _).
    exact (Hfast 0 Hcached).
  - (* the scan passes over class 0 and stops at class 1 *)
    assert (Hcs : deTclassGetClasses pointFourth 0 = [0] ++ 1 :: [])
      by (vm_compute; reflexivity).
    assert (Hno : classSignaturesMatch pointFourth 3 0 = Ok false)
      by (vm_compute; reflexivity).
    assert (Hyes : classSignaturesMatch pointFourth 3 2 = Ok true)
      by (vm_compute; reflexivity).
    split; [exact Hcs|]. split; [exact Hno|]. split; [exact Hyes|].
    assert (Hf : deSignatureGetFunction pointFourth 3 = Some 0) by (vm_compute; reflexivity).
    assert (Ht : deFunctionGetTclass pointFourth 0 = Some 0) by (vm_compute; reflexivity).
    assert (Hb : deFunctionGetSubBlock pointFourth 0 = Some 1) by (vm_compute; reflexivity).
    destruct (deClassCreate_steps pointFourth 0 3 0 1 Hf Ht Hb) as (_ & Hscan & _).
    apply (Hscan [0] 1 []); [vm_compute; reflexivity | exact Hcs | |].
    + constructor; [|constructor]. exists 0. split; [vm_compute; reflexivity | exact Hno].
    + right. exists 2. split; [vm_compute; reflexivity | exact Hyes].
  - (* every class passed over: a class is created *)
    assert (Hcs : deTclassGetClasses pointClassRoot 0 = [0]) by (vm_compute; reflexivity).
    assert (Hno : classSignaturesMatch pointClassRoot 2 0 = Ok false)
      by (vm_compute; reflexivity).
    assert (Hmake : classCreate 0 pointClassRoot = Ok (1, pointSecond))
      by (vm_compute; reflexivity).
    assert (Hf : deSignatureGetFunction pointClassRoot 2 = Some 0) by (vm_compute; reflexivity).
    assert (Ht : deFunctionGetTclass pointClassRoot 0 = Some 0) by (vm_compute; reflexivity).
    assert (Hb : deFunctionGetSubBlock pointClassRoot 0 = Some 1) by (vm_compute; reflexivity).
    destruct (deClassCreate_steps pointClassRoot 0 2 0 1 Hf Ht Hb) as (_ & _ & Hcreate & _).
    destruct Hcreate as (Esame & Hnew).
    + vm_compute. reflexivity.
    + rewrite Hcs. constructor; [|constructor].
      exists 0. split; [vm_compute; reflexivity | exact Hno].
    + destruct (Hnew 1 pointSecond Hmake) as (_ & Hlist).
      split; [exact Hcs|]. split; [exact Hno|]. split; [exact Esame|].
      split; [rewrite Esame; exact Hmake|].
      rewrite Hlist, Hcs. reflexivity.
  - (* a call that succeeds took one of the three ways *)
    assert (Hf : deSignatureGetFunction pointRoot 0 = Some 0) by (vm_compute; reflexivity).
    assert (Ht : deFunctionGetTclass pointRoot 0 = Some 0) by (vm_compute; reflexivity).
    assert (Hb : deFunctionGetSubBlock pointRoot 0 = Some 1) by (vm_compute; reflexivity).
    destruct (deClassCreate_steps pointRoot 0 0 0 1 Hf Ht Hb) as (_ & _ & _ & Hways & _).
    destruct (Hways 0 pointCreated Hcall) as [(Hc & _) | [(_ & _ & before & after & Hcs & _)
                                                         | Hthird]].
    + vm_compute in Hc. discriminate Hc.
    + vm_compute in Hcs. destruct before; discriminate Hcs.
    + exact Hthird.
  - (* the second call, once the first signature is recorded *)
    split; [exact Hcall|].
    assert (Hf : deSignatureGetFunction pointRoot 0 = Some 0) by (vm_compute; reflexivity).
    assert (Ht : deFunctionGetTclass pointRoot 0 = Some 0) by (vm_compute; reflexivity).
    assert (Hb : deFunctionGetSubBlock pointRoot 0 = Some 1) by (vm_compute; reflexivity).
    destruct (deClassCreate_steps pointRoot 0 0 0 1 Hf Ht Hb) as (_ & _ & _ & _ & Hagain).
    apply Hagain; try (vm_compute; reflexivity).
    + lia.
    + apply N.leb_le. reflexivity.
Defined.

(** ** Declaring a tclass *)

(** What [deTclassCreate] writes for a constructor that is not built-in and
    has a body. *)
Lemma deTclassCreate_frame (constructor : deFunction) (refWidth : N) (line : deLine)
    (r : deRoot) (classBlock : deBlock) :
  deFunctionBuiltin r constructor = false ->
  deFunctionGetSubBlock r constructor = Some classBlock ->
  constructor < used (Functions r) ->
  classBlock < used (Blocks r) ->
  exists r',
    deTclassCreate constructor refWidth line r = Ok (used (Tclasses r), r') /\
    used (Tclasses r') = S (used (Tclasses r)) /\
    cell (Tclasses r') (used (Tclasses r))
    = mkTclass (Some constructor) refWidth (Some (deTclassDatatype (used (Tclasses r)))) line
        false 0 [] /\
    (forall t, t <> used (Tclasses r) -> cell (Tclasses r') t = cell (Tclasses r) t) /\
    root_Tclasses r' = root_Tclasses r ++ [used (Tclasses r)] /\
    Classes r' = Classes r /\ root_Classes r' = root_Classes r /\
    Signatures r' = Signatures r /\ Statements r' = Statements r /\
    used (Functions r') = S (used (Functions r)) /\
    cell (Functions r') constructor
    = mkFunction (deFunctionGetType r constructor) (deFunctionGetLinkage r constructor)
        (deFunctionGetLine r constructor) false (Some classBlock) (Some (used (Tclasses r)))
        (deFunctionGetIdents r constructor) /\
    cell (Functions r') (used (Functions r))
    = mkFunction DE_FUNC_DESTRUCTOR (deFunctionGetLinkage r constructor)
        (deBlockGetLine r classBlock) false (Some (used (Blocks r))) None [used (Idents r)] /\
    (forall f, f <> constructor -> f <> used (Functions r) ->
               cell (Functions r') f = cell (Functions r) f) /\
    used (Idents r') = S (S (used (Idents r))) /\
    cell (Idents r') (used (Idents r))
    = mkIdent (Some classBlock) DE_IDENT_FUNCTION "destroy"%string (deBlockGetLine r classBlock)
        (Some (used (Functions r))) /\
    (cell (Idents r') (S (used (Idents r)))
     = mkIdent (Some (used (Blocks r))) DE_IDENT_VARIABLE "self"%string
         (deBlockGetLine r classBlock) None /\
     forall i, i <> used (Idents r) -> i <> S (used (Idents r)) ->
               cell (Idents r') i = cell (Idents r) i) /\
    used (Blocks r') = S (used (Blocks r)) /\
    cell (Blocks r') classBlock
    = mkBlock (deBlockGetFilepath r classBlock) (deBlockGetType r classBlock)
        (deBlockGetLine r classBlock) (deBlockGetVariables r classBlock)
        (deBlockGetFunctions r classBlock ++ [used (Functions r)])
        (deBlockGetIdents r classBlock ++ [used (Idents r)])
        (deBlockGetStatements r classBlock) /\
    cell (Blocks r') (used (Blocks r))
    = mkBlock (deBlockGetFilepath r classBlock) DE_BLOCK_FUNCTION (deBlockGetLine r classBlock)
        [used (Variables r)] [] [S (used (Idents r))] [] /\
    (forall b, b <> classBlock -> b <> used (Blocks r) ->
               cell (Blocks r') b = cell (Blocks r) b) /\
    used (Variables r') = S (used (Variables r)) /\
    cell (Variables r') (used (Variables r))
    = mkVariable DE_VAR_PARAMETER true "self"%string None false (deBlockGetLine r classBlock)
        false false None false /\
    (forall v, v <> used (Variables r) -> cell (Variables r') v = cell (Variables r) v).
Proof.
  intros Hb Hs Hc Hk.
  assert (Hc' : constructor <> used (Functions r)) by lia.
  assert (Hk' : classBlock <> used (Blocks r)) by lia.
  clear Hc Hk.
  open_root r. database.
  rewrite Hb. database. rewrite Hs. database.
  rewrite ?(update_other _ _ _ _ Hc'), ?(update_other _ _ _ _ Hk'). database.
  eexists. split; [reflexivity|]. database.
  rewrite ?(update_other _ _ _ _ Hc'), ?(update_other _ _ _ _ Hk'). database.
  rewrite ?Hb, ?Hs.
  rewrite ?(update_other _ (S _) _ _ (n_Sn _)), ?update_same. database.
  repeat split; try reflexivity; cell_eq.
Qed.

(** For a built-in constructor only the tclass is allocated. *)
Lemma deTclassCreate_builtin_frame (constructor : deFunction) (refWidth : N) (line : deLine)
    (r : deRoot) :
  deFunctionBuiltin r constructor = true ->
  exists r',
    deTclassCreate constructor refWidth line r = Ok (used (Tclasses r), r') /\
    used (Tclasses r') = S (used (Tclasses r)) /\
    cell (Tclasses r') (used (Tclasses r))
    = mkTclass (Some constructor) refWidth (Some (deTclassDatatype (used (Tclasses r)))) line
        false 0 [] /\
    (forall t, t <> used (Tclasses r) -> cell (Tclasses r') t = cell (Tclasses r) t) /\
    root_Tclasses r' = root_Tclasses r ++ [used (Tclasses r)] /\
    Classes r' = Classes r /\ root_Classes r' = root_Classes r /\
    Signatures r' = Signatures r /\ Statements r' = Statements r /\
    Blocks r' = Blocks r /\ Variables r' = Variables r /\ Idents r' = Idents r /\
    used (Functions r') = used (Functions r) /\
    cell (Functions r') constructor
    = mkFunction (deFunctionGetType r constructor) (deFunctionGetLinkage r constructor)
        (deFunctionGetLine r constructor) true (deFunctionGetSubBlock r constructor)
        (Some (used (Tclasses r))) (deFunctionGetIdents r constructor) /\
    (forall f, f <> constructor -> cell (Functions r') f = cell (Functions r) f).
Proof.
  intros Hb. open_root r. database. rewrite Hb. database.
  eexists. split; [reflexivity|]. database. rewrite ?Hb.
  repeat split; try reflexivity; cell_eq.
Qed.

Lemma addDestroyMethod_functions (tclass : deTclass) (r r' : deRoot) :
  addDestroyMethod tclass r = Ok r' ->
  root_Tclasses r' = root_Tclasses r /\ root_Classes r' = root_Classes r /\
  (forall f, f <> used (Functions r) -> cell (Functions r') f = cell (Functions r) f).
Proof.
  intros H. unfold addDestroyMethod in H.
  step_deref H. step_deref H. cbv zeta in H.
  match type of H with
  | context [deFunctionCreate ?a ?b ?c ?d ?e ?f ?r] =>
      pose proof (deFunctionCreate_frame a b c d e f r) as F;
      destruct (deFunctionCreate a b c d e f r) as [fn r1]; cbn [fst snd] in F;
      destruct F as (-> & _ & _ & _ & Hf & _ & _ & _ & _ & _ & _ & _ & _ & _ & Hrt & Hrc)
  end.
  step_deref H.
  match type of H with
  | context [deVariableCreate ?a ?b ?c ?d ?e ?f ?g ?r] =>
      pose proof (deVariableCreate_frame a b c d e f g r) as F;
      destruct (deVariableCreate a b c d e f g r) as [v r2]; cbn [fst snd] in F;
      destruct F as (_ & _ & _ & _ & _ & _ & _ & _ & _ & _ & _ & _ & Hf2 & _ & _ & _ & Hrt2 & Hrc2)
  end.
  injection H as <-. rewrite Hrt2, Hrc2, Hf2. repeat split; assumption.
Qed.

(** The tclass that [deTclassCreate] returns, whatever the constructor. *)
Lemma deTclassCreate_tclass (constructor : deFunction) (refWidth : N) (line : deLine)
    (r : deRoot) (tclass : deTclass) (r' : deRoot) :
  constructor < used (Functions r) ->
  deTclassCreate constructor refWidth line r = Ok (tclass, r') ->
  tclass = used (Tclasses r) /\
  used (Tclasses r') = S (used (Tclasses r)) /\
  cell (Tclasses r') tclass
  = mkTclass (Some constructor) refWidth (Some (deTclassDatatype tclass)) line false 0 [] /\
  (forall t, t <> tclass -> cell (Tclasses r') t = cell (Tclasses r) t) /\
  deFunctionGetTclass r' constructor = Some tclass /\
  root_Tclasses r' = root_Tclasses r ++ [tclass] /\
  Classes r' = Classes r /\ root_Classes r' = root_Classes r.
Proof.
  intros Hc H. unfold deTclassCreate in H.
  destruct (deTclassAlloc r) as [t r0] eqn:Ealloc. cbv zeta in H.
  set (r1 := deFunctionInsertTclass constructor t
               (deTclassSetLine t line
                  (deTclassSetDatatype t (deTclassDatatypeCreate t)
                     (deTclassSetRefWidth t refWidth r0)))) in H.
  assert (Hkept : exists r2, Tclasses r2 = Tclasses r1 /\ Classes r2 = Classes r1 /\
                             root_Tclasses r2 = root_Tclasses r1 /\
                             root_Classes r2 = root_Classes r1 /\
                             (forall f, f <> used (Functions r1) ->
                                        cell (Functions r2) f = cell (Functions r1) f) /\
                             r' = deRootAppendTclass t r2 /\ tclass = t).
  { destruct (deFunctionBuiltin r1 constructor); cbn [negb] in H.
    - cbn [bind] in H. injection H as <- <-. exists r1. repeat split; reflexivity.
    - destruct (addDestroyMethod t r1) as [r2|] eqn:Ed; cbn [bind] in H; [|discriminate].
      injection H as <- <-. pose proof (addDestroyMethod_kept _ _ _ Ed) as [? ?].
      pose proof (addDestroyMethod_functions _ _ _ Ed) as (? & ? & ?).
      exists r2. repeat split; assumption. }
  destruct Hkept as (r2 & Ht & Hcl & Hrt & Hrc & Hf & -> & ->).
  assert (Hc1 : constructor <> used (Functions r1)).
  { assert (E : used (Functions r1) = used (Functions r)).
    { unfold r1. clear - Ealloc. open_root r. database.
      injection Ealloc as <- <-. reflexivity. }
    rewrite E. lia. }
  unfold deFunctionGetTclass.
  change (Tclasses (deRootAppendTclass t r2)) with (Tclasses r2).
  change (Classes (deRootAppendTclass t r2)) with (Classes r2).
  change (Functions (deRootAppendTclass t r2)) with (Functions r2).
  change (root_Classes (deRootAppendTclass t r2)) with (root_Classes r2).
  change (root_Tclasses (deRootAppendTclass t r2)) with (root_Tclasses r2 ++ [t]).
  rewrite Ht, Hcl, Hrt, Hrc, (Hf _ Hc1). subst r1. clear H Ht Hcl Hrt Hrc Hf Hc1 r2 Hc.
  open_root r. database. injection Ealloc as <- <-. database.
  repeat split; try reflexivity; cell_eq.
Qed.

(** X1: [deTclassCreate] returns a new tclass linked both ways with its
    constructor, carrying the reference width, the line and its own TCLASS
    datatype, with no class, a count of zero and no default class; the tclass
    is appended to the list of the root, and no other tclass and no class is
    touched. *)
Theorem deTclassCreate_links (constructor : deFunction) (refWidth : N) (line : deLine)
    (r : deRoot) (tclass : deTclass) (r' : deRoot) :
  constructor < used (Functions r) ->
  deTclassCreate constructor refWidth line r = Ok (tclass, r') ->
  tclass = used (Tclasses r) /\
  used (Tclasses r') = S (used (Tclasses r)) /\
  deTclassGetFunction r' tclass = Some constructor /\
  deFunctionGetTclass r' constructor = Some tclass /\
  deTclassGetRefWidth r' tclass = refWidth /\
  deTclassGetLine r' tclass = line /\
  deTclassGetDatatype r' tclass = Some (deTclassDatatype tclass) /\
  deTclassGetClasses r' tclass = [] /\
  deTclassGetNumClasses r' tclass = 0%N /\
  deTclassHasDefaultClass r' tclass = false /\
  root_Tclasses r' = root_Tclasses r ++ [tclass] /\
  (forall t, t <> tclass -> cell (Tclasses r') t = cell (Tclasses r) t) /\
  Classes r' = Classes r /\ root_Classes r' = root_Classes r.
Proof.
  intros Hc H.
  destruct (deTclassCreate_tclass _ _ _ _ _ _ Hc H)
    as (Ht & Hu & Hcell & Hothers & Hf & Hroot & Hcl & Hrc).
  unfold deTclassGetFunction, deTclassGetRefWidth, deTclassGetLine, deTclassGetDatatype,
    deTclassGetClasses, deTclassGetNumClasses, deTclassHasDefaultClass.
  rewrite Hcell. cbn.
  repeat split; assumption || reflexivity.
Qed.

Lemma deTclassCreate_links_witness :
  exists r',
    deTclassCreate 0 32 1 pairParsed = Ok (0, r') /\
    deTclassGetFunction r' 0 = Some 0 /\
    deFunctionGetTclass r' 0 = Some 0 /\
    deTclassGetRefWidth r' 0 = 32%N /\
    deTclassGetClasses r' 0 = [] /\
    root_Tclasses r' = [0].
Proof.
  destruct (deTclassCreate 0 32 1 pairParsed) as [[t r']|] eqn:E;
    [|vm_compute in E; discriminate E].
  assert (Ha : 0 < used (Functions pairParsed)) by (vm_compute; lia).
  destruct (deTclassCreate_links 0 32 1 pairParsed t r' Ha E)
    as (Ht & _ & Hf & Hft & Hw & _ & _ & Hcs & _ & _ & Hroot & _).
  assert (Et : t = 0) by (rewrite Ht; vm_compute; reflexivity).
  subst t. exists r'. repeat split; try assumption.
Defined.

(** X2: for a constructor that is not built-in, [deTclassCreate] adds the
    destroy method to the block of the constructor: a new function of type
    destructor with the linkage of the constructor, bound to the name destroy
    by a new function identifier of that block, whose body holds the single
    constant parameter self and no statement.  The variables and statements of
    the constructor's block are as before. *)
Theorem deTclassCreate_destroy_method (constructor : deFunction) (refWidth : N) (line : deLine)
    (r : deRoot) (classBlock : deBlock) :
  deFunctionBuiltin r constructor = false ->
  deFunctionGetSubBlock r constructor = Some classBlock ->
  constructor < used (Functions r) ->
  classBlock < used (Blocks r) ->
  exists r' destroy ident body self,
    deTclassCreate constructor refWidth line r = Ok (used (Tclasses r), r') /\
    destroy = used (Functions r) /\
    deBlockGetFunctions r' classBlock = deBlockGetFunctions r classBlock ++ [destroy] /\
    deFunctionGetType r' destroy = DE_FUNC_DESTRUCTOR /\
    deFunctionGetLinkage r' destroy = deFunctionGetLinkage r constructor /\
    deFunctionGetLine r' destroy = deBlockGetLine r classBlock /\
    deFunctionGetTclass r' destroy = None /\
    deBlockGetIdents r' classBlock = deBlockGetIdents r classBlock ++ [ident] /\
    deIdentGetSym r' ident = "destroy"%string /\
    deIdentGetType r' ident = DE_IDENT_FUNCTION /\
    deIdentGetFunction r' ident = Some destroy /\
    deFunctionGetIdents r' destroy = [ident] /\
    deFunctionGetSubBlock r' destroy = Some body /\
    deBlockGetType r' body = DE_BLOCK_FUNCTION /\
    deBlockGetVariables r' body = [self] /\
    deBlockGetStatements r' body = [] /\
    deBlockGetFunctions r' body = [] /\
    deVariableGetSym r' self = "self"%string /\
    deVariableGetType r' self = DE_VAR_PARAMETER /\
    variable_Const (cell (Variables r') self) = true /\
    variable_Initializer (cell (Variables r') self) = None /\
    deVariableGenerated r' self = false /\
    deBlockGetVariables r' classBlock = deBlockGetVariables r classBlock /\
    deBlockGetStatements r' classBlock = deBlockGetStatements r classBlock.
Proof.
  intros Hb Hs Hc Hk.
  destruct (deTclassCreate_frame constructor refWidth line r classBlock Hb Hs Hc Hk)
    as (r' & E & _ & _ & _ & _ & _ & _ & _ & _ & _ & _ & Hd & _ & _ & Hi & _ & _ & Hcb & Hbody
        & _ & _ & Hself & _).
  exists r', (used (Functions r)), (used (Idents r)), (used (Blocks r)), (used (Variables r)).
  unfold deBlockGetFunctions, deFunctionGetType, deFunctionGetLinkage, deFunctionGetLine,
    deFunctionGetTclass, deBlockGetIdents, deIdentGetSym, deIdentGetType, deIdentGetFunction,
    deFunctionGetIdents, deFunctionGetSubBlock, deBlockGetType, deBlockGetVariables,
    deBlockGetStatements, deVariableGetSym, deVariableGetType, deVariableGenerated in *.
  rewrite Hd, Hi, Hcb, Hbody, Hself. cbn.
  repeat split; assumption || reflexivity.
Qed.

Lemma deTclassCreate_destroy_method_witness :
  exists r' destroy ident body self,
    deTclassCreate 0 32 1 pairParsed = Ok (used (Tclasses pairParsed), r') /\
    destroy = used (Functions pairParsed) /\
    deBlockGetFunctions r' 1 = deBlockGetFunctions pairParsed 1 ++ [destroy] /\
    deFunctionGetType r' destroy = DE_FUNC_DESTRUCTOR /\
    deFunctionGetLinkage r' destroy = deFunctionGetLinkage pairParsed 0 /\
    deFunctionGetLine r' destroy = deBlockGetLine pairParsed 1 /\
    deFunctionGetTclass r' destroy = None /\
    deBlockGetIdents r' 1 = deBlockGetIdents pairParsed 1 ++ [ident] /\
    deIdentGetSym r' ident = "destroy"%string /\
    deIdentGetType r' ident = DE_IDENT_FUNCTION /\
    deIdentGetFunction r' ident = Some destroy /\
    deFunctionGetIdents r' destroy = [ident] /\
    deFunctionGetSubBlock r' destroy = Some body /\
    deBlockGetType r' body = DE_BLOCK_FUNCTION /\
    deBlockGetVariables r' body = [self] /\
    deBlockGetStatements r' body = [] /\
    deBlockGetFunctions r' body = [] /\
    deVariableGetSym r' self = "self"%string /\
    deVariableGetType r' self = DE_VAR_PARAMETER /\
    variable_Const (cell (Variables r') self) = true /\
    variable_Initializer (cell (Variables r') self) = None /\
    deVariableGenerated r' self = false /\
    deBlockGetVariables r' 1 = deBlockGetVariables pairParsed 1 /\
    deBlockGetStatements r' 1 = deBlockGetStatements pairParsed 1.
Proof.
  apply (deTclassCreate_destroy_method 0 32 1 pairParsed 1).
  - vm_compute. reflexivity.
  - vm_compute. reflexivity.
  - vm_compute. lia.
  - vm_compute. lia.
Defined.

(** X3: for a built-in constructor [deTclassCreate] adds no destroy method:
    the tclass is the only object allocated, and the blocks, variables and
    identifiers of the database are as before. *)
Theorem deTclassCreate_builtin (constructor : deFunction) (refWidth : N) (line : deLine)
    (r : deRoot) :
  deFunctionBuiltin r constructor = true ->
  exists r',
    deTclassCreate constructor refWidth line r = Ok (used (Tclasses r), r') /\
    deTclassGetFunction r' (used (Tclasses r)) = Some constructor /\
    deFunctionGetTclass r' constructor = Some (used (Tclasses r)) /\
    used (Functions r') = used (Functions r) /\
    (forall f, f <> constructor -> cell (Functions r') f = cell (Functions r) f) /\
    deFunctionGetSubBlock r' constructor = deFunctionGetSubBlock r constructor /\
    deFunctionGetIdents r' constructor = deFunctionGetIdents r constructor /\
    Blocks r' = Blocks r /\ Variables r' = Variables r /\ Idents r' = Idents r /\
    Statements r' = Statements r /\ Classes r' = Classes r.
Proof.
  intros Hb.
  destruct (deTclassCreate_builtin_frame constructor refWidth line r Hb)
    as (r' & E & _ & Ht & _ & _ & Hcl & _ & _ & Hst & Hbl & Hv & Hi & Hu & Hf & Hfs).
  exists r'. unfold deTclassGetFunction, deFunctionGetTclass, deFunctionGetSubBlock,
    deFunctionGetIdents.
  rewrite Ht, Hf. cbn.
  repeat split; assumption || reflexivity.
Qed.

Lemma deTclassCreate_builtin_witness :
  exists r',
    deTclassCreate 0 32 1 builtinParsed = Ok (used (Tclasses builtinParsed), r') /\
    deTclassGetFunction r' (used (Tclasses builtinParsed)) = Some 0 /\
    deFunctionGetTclass r' 0 = Some (used (Tclasses builtinParsed)) /\
    used (Functions r') = used (Functions builtinParsed) /\
    (forall f, f <> 0 -> cell (Functions r') f = cell (Functions builtinParsed) f) /\
    deFunctionGetSubBlock r' 0 = deFunctionGetSubBlock builtinParsed 0 /\
    deFunctionGetIdents r' 0 = deFunctionGetIdents builtinParsed 0 /\
    Blocks r' = Blocks builtinParsed /\ Variables r' = Variables builtinParsed /\
    Idents r' = Idents builtinParsed /\
    Statements r' = Statements builtinParsed /\ Classes r' = Classes builtinParsed.
Proof.
  apply (deTclassCreate_builtin 0 32 1 builtinParsed). vm_compute. reflexivity.
Defined.

(** X4: [deCopyTclass] gives the destination constructor a new tclass with
    the reference width and the line of the original and none of its classes:
    the copy starts with an empty class list, a count of zero and no default
    class, and the original keeps its classes, its count and its flag. *)
Theorem deCopyTclass_no_classes (tclass : deTclass) (destConstructor : deFunction)
    (r : deRoot) (copy : deTclass) (r' : deRoot) :
  tclass < used (Tclasses r) ->
  destConstructor < used (Functions r) ->
  deCopyTclass tclass destConstructor r = Ok (copy, r') ->
  copy = used (Tclasses r) /\ copy <> tclass /\
  deTclassGetFunction r' copy = Some destConstructor /\
  deFunctionGetTclass r' destConstructor = Some copy /\
  deTclassGetRefWidth r' copy = deTclassGetRefWidth r tclass /\
  deTclassGetLine r' copy = deTclassGetLine r tclass /\
  deTclassGetClasses r' copy = [] /\
  deTclassGetNumClasses r' copy = 0%N /\
  deTclassHasDefaultClass r' copy = false /\
  cell (Tclasses r') tclass = cell (Tclasses r) tclass /\
  Classes r' = Classes r.
Proof.
  intros Ht Hc H. unfold deCopyTclass in H.
  destruct (deTclassCreate_tclass _ _ _ _ _ _ Hc H)
    as (Hcopy & Hu & Hcell & Hothers & Hf & Hroot & Hcl & Hrc).
  assert (Hne : tclass <> copy) by lia.
  unfold deTclassGetFunction, deTclassGetRefWidth, deTclassGetLine,
    deTclassGetClasses, deTclassGetNumClasses, deTclassHasDefaultClass.
  rewrite Hcell, (Hothers _ Hne). cbn.
  repeat split; try assumption; try reflexivity. now apply not_eq_sym.
Qed.

Lemma deCopyTclass_no_classes_witness :
  exists r',
    deCopyTclass 0 0 pointSecond = Ok (1, r') /\
    deTclassGetClasses pointSecond 0 = [0; 1] /\
    deTclassGetClasses r' 0 = [0; 1] /\
    deTclassGetClasses r' 1 = [] /\
    deTclassGetNumClasses r' 1 = 0%N /\
    deTclassGetRefWidth r' 1 = 32%N.
Proof.
  destruct (deCopyTclass 0 0 pointSecond) as [[copy r']|] eqn:E;
    [|vm_compute in E; discriminate E].
  assert (Ha : 0 < used (Tclasses pointSecond)) by (vm_compute; lia).
  assert (Hb : 0 < used (Functions pointSecond)) by (vm_compute; lia).
  destruct (deCopyTclass_no_classes 0 0 pointSecond copy r' Ha Hb E)
    as (Hcopy & _ & _ & _ & Hw & _ & Hcs & Hn & _ & Hcell & _).
  assert (Ec : copy = 1) by (rewrite Hcopy; vm_compute; reflexivity).
  subst copy. exists r'. unfold deTclassGetClasses in *. rewrite Hcell.
  repeat split; try assumption; try (vm_compute; reflexivity).
Defined.

(** ** Looking up the methods of a class *)

Lemma deFunctionCreate_idents filepath block type name linkage line (r : deRoot) :
  block < used (Blocks r) ->
  let f := fst (deFunctionCreate filepath block type name linkage line r) in
  let r' := snd (deFunctionCreate filepath block type name linkage line r) in
  used (Idents r') = S (used (Idents r)) /\
  cell (Idents r') (used (Idents r))
  = mkIdent (Some block) DE_IDENT_FUNCTION name line (Some f) /\
  (forall i, i <> used (Idents r) -> cell (Idents r') i = cell (Idents r) i) /\
  deBlockGetIdents r' block = deBlockGetIdents r block ++ [used (Idents r)] /\
  deBlockGetFunctions r' block = deBlockGetFunctions r block ++ [f] /\
  cell (Functions r') f
  = mkFunction type linkage line false (Some (used (Blocks r))) None [used (Idents r)].
Proof.
  intros Hk. assert (Hk' : block <> used (Blocks r)) by lia. clear Hk.
  open_root r. database. rewrite ?(update_other _ _ _ _ Hk'). database.
  repeat split; try reflexivity; cell_eq.
Qed.


Ltac method_function H Hk :=
  match type of H with
  | context [deFunctionCreate ?a ?b ?c ?d ?e ?f ?r] =>
      let F := fresh "F" in
      let G := fresh "G" in
      pose proof (deFunctionCreate_frame a b c d e f r) as F;
      pose proof (deFunctionCreate_idents a b c d e f r Hk) as G;
      destruct (deFunctionCreate a b c d e f r) as [fn r1]; cbn [fst snd] in F, G;
      destruct F as (-> & _ & Hsub & _ & Hf1 & _ & Hbody & Hfields & _ & Ht1 & Hcl1 & Hv1 & _);
      destruct G as (Hui1 & Hi & His & Hbi & Hbf & Hfcell);
      rewrite Hsub in H; cbn [bind deref] in H
  end.

Ltac method_variable H :=
  match type of H with
  | context [deVariableCreate ?a ?b ?c ?d ?e ?f ?g ?r] =>
      let F := fresh "F" in
      pose proof (deVariableCreate_frame a b c d e f g r) as F;
      destruct (deVariableCreate a b c d e f g r) as [v r2]; cbn [fst snd] in F;
      destruct F as (-> & _ & Hself & Hv2 & _ & Hvars2 & _ & _ & _ & Hb2 & Ht2 & Hcl2 & Hf2
                     & (_ & _ & Hi2) & _)
  end.

Ltac method_statement H :=
  match type of H with
  | context [deStatementCreate ?a ?b ?c ?r] =>
      let F := fresh "F" in
      pose proof (deStatementCreate_frame a b c r) as F;
      destruct (deStatementCreate a b c r) as [s r3]; cbn [fst snd] in F;
      destruct F as (_ & _ & _ & _ & Hvars3 & Hb3 & Ht3 & Hcl3 & Hf3 & Hv3 & Hi3 & _)
  end.

Lemma deGenerateDefaultDumpMethod_methodAdded (theClass : deClass) (r : deRoot)
    (function : deFunction) (r' : deRoot) (classBlock : deBlock) (tclass : deTclass)
    (constructor : deFunction) :
  deClassGetSubBlock r theClass = Some classBlock ->
  deClassGetTclass r theClass = Some tclass ->
  deTclassGetFunction r tclass = Some constructor ->
  classBlock < used (Blocks r) ->
  deGenerateDefaultDumpMethod theClass r = Ok (function, r') ->
  methodAdded "dump"%string (deFunctionGetLinkage r constructor)
    (deBlockGetLine r classBlock) (deBlockGetLine r classBlock) classBlock function r r'.
Proof.
  intros Hs Htc Hc Hk H. unfold deGenerateDefaultDumpMethod in H.
  rewrite Hs in H. cbn [bind deref] in H. cbv zeta in H.
  rewrite Htc in H. cbn [bind deref] in H. rewrite Hc in H. cbn [bind deref] in H.
  method_function H Hk. method_variable H. method_statement H.
  injection H as <- <-.
  assert (Hne : classBlock <> used (Blocks r)) by lia.
  destruct (Hfields _ Hne) as (Hmembers & _ & _ & Hline).
  rewrite ?Hline in Hself. rewrite Hv1 in Hself, Hv2, Hvars2.
  assert (Hkeep : forall i, i <= used (Idents r) -> cell (Idents r2) i = cell (Idents r1) i).
  { intros i Hle. apply Hi2. rewrite Hui1. lia. }
  unfold methodAdded, deBlockGetIdents, deBlockGetFunctions, deBlockGetVariables,
    deIdentGetSym, deIdentGetType, deIdentGetFunction,
    deStatementInsertExpression, withStatements in *.
  cbn [Tclasses Classes Blocks Idents Functions Variables].
  rewrite ?Hvars3, ?Hvars2, ?(Hb3 _ Hne), ?(Hb2 _ Hne), ?Hi3, ?(Hkeep _ (le_n _)), ?Ht3, ?Ht2,
    ?Ht1, ?Hcl3, ?Hcl2, ?Hcl1, ?Hf3, ?Hf2, ?Hv3, ?Hself, ?Hi, ?Hbi, ?Hbf, ?Hfcell, ?Hbody.
  cbn.
  repeat split; try reflexivity; try assumption.
  intros i Hlt. rewrite Hkeep by lia. apply His. lia.
Qed.

Lemma deGenerateDefaultToStringMethod_methodAdded (slot : deExpression -> string)
    (theClass : deClass) (r : deRoot) (function : deFunction) (r' : deRoot)
    (classBlock : deBlock) (tclass : deTclass) (constructor : deFunction) :
  deClassGetSubBlock r theClass = Some classBlock ->
  deClassGetTclass r theClass = Some tclass ->
  deTclassGetFunction r tclass = Some constructor ->
  classBlock < used (Blocks r) ->
  deGenerateDefaultToStringMethod slot theClass r = Ok (function, r') ->
  methodAdded "toString"%string (deFunctionGetLinkage r constructor) 0
    (deBlockGetLine r classBlock) classBlock function r r'.
Proof.
  intros Hs Htc Hc Hk H. unfold deGenerateDefaultToStringMethod in H.
  rewrite Hs in H. cbn [bind deref] in H. cbv zeta in H.
  rewrite Htc in H. cbn [bind deref] in H. rewrite Hc in H. cbn [bind deref] in H.
  method_function H Hk. method_variable H.
  apply bind_Ok in H. destruct H as (tupleExpr & _ & H).
  apply bind_Ok in H. destruct H as (format & _ & H).
  method_statement H.
  injection H as <- <-.
  assert (Hne : classBlock <> used (Blocks r)) by lia.
  destruct (Hfields _ Hne) as (Hmembers & _ & _ & Hline).
  rewrite ?Hline in Hself. rewrite Hv1 in Hself, Hv2, Hvars2.
  assert (Hkeep : forall i, i <= used (Idents r) -> cell (Idents r2) i = cell (Idents r1) i).
  { intros i Hle. apply Hi2. rewrite Hui1. lia. }
  unfold methodAdded, deBlockGetIdents, deBlockGetFunctions, deBlockGetVariables,
    deIdentGetSym, deIdentGetType, deIdentGetFunction,
    deStatementInsertExpression, withStatements in *.
  cbn [Tclasses Classes Blocks Idents Functions Variables].
  rewrite ?Hvars3, ?Hvars2, ?(Hb3 _ Hne), ?(Hb2 _ Hne), ?Hi3, ?(Hkeep _ (le_n _)), ?Ht3, ?Ht2,
    ?Ht1, ?Hcl3, ?Hcl2, ?Hcl1, ?Hf3, ?Hf2, ?Hv3, ?Hself, ?Hi, ?Hbi, ?Hbf, ?Hfcell, ?Hbody.
  cbn.
  repeat split; try reflexivity; try assumption.
  intros i Hlt. rewrite Hkeep by lia. apply His. lia.
Qed.

Lemma deGenerateDefaultToStringMethod_Ok (slot : deExpression -> string)
    (theClass : deClass) (r : deRoot) (function : deFunction) (r' : deRoot) :
  deGenerateDefaultToStringMethod slot theClass r = Ok (function, r') ->
  exists tclass constructor,
    deClassGetTclass r theClass = Some tclass /\
    deTclassGetFunction r tclass = Some constructor.
Proof.
  intros H. unfold deGenerateDefaultToStringMethod in H.
  step_deref H. cbv zeta in H. step_deref H. step_deref H. eauto.
Qed.

Lemma deGenerateDefaultDumpMethod_Ok (theClass : deClass) (r : deRoot)
    (function : deFunction) (r' : deRoot) :
  deGenerateDefaultDumpMethod theClass r = Ok (function, r') ->
  exists tclass constructor,
    deClassGetTclass r theClass = Some tclass /\
    deTclassGetFunction r tclass = Some constructor.
Proof.
  intros H. unfold deGenerateDefaultDumpMethod in H.
  step_deref H. cbv zeta in H. step_deref H. step_deref H. eauto.
Qed.

Lemma find_unbound (r : deRoot) (sym : utSym) (idents : list deIdent) :
  Forall (fun ident => deIdentGetSym r ident <> sym) idents ->
  find (fun ident => String.eqb (deIdentGetSym r ident) sym) idents = None.
Proof.
  induction 1 as [|i rest Hi _ IH]; [reflexivity|].
  cbn [find]. apply String.eqb_neq in Hi. now rewrite Hi.
Qed.

Lemma find_same_syms (r r' : deRoot) (sym : utSym) (idents : list deIdent) :
  Forall (fun ident => cell (Idents r') ident = cell (Idents r) ident) idents ->
  find (fun ident => String.eqb (deIdentGetSym r' ident) sym) idents
  = find (fun ident => String.eqb (deIdentGetSym r ident) sym) idents.
Proof.
  induction 1 as [|i rest Hi _ IH]; [reflexivity|].
  cbn [find]. unfold deIdentGetSym at 1 3. rewrite Hi, IH. reflexivity.
Qed.

Lemma find_in (r : deRoot) (sym : utSym) (idents : list deIdent) (ident : deIdent) :
  find (fun ident => String.eqb (deIdentGetSym r ident) sym) idents = Some ident ->
  In ident idents /\ deIdentGetSym r ident = sym.
Proof.
  intros H. apply find_some in H. destruct H as [Hin H].
  apply String.eqb_eq in H. now split.
Qed.

Lemma find_last (r : deRoot) (sym : utSym) (idents : list deIdent) (ident : deIdent) :
  find (fun i => String.eqb (deIdentGetSym r i) sym) (idents ++ [ident])
  = match find (fun i => String.eqb (deIdentGetSym r i) sym) idents with
    | Some found => Some found
    | None => if String.eqb (deIdentGetSym r ident) sym then Some ident else None
    end.
Proof.
  induction idents as [|i rest IH]; cbn [find app].
  - reflexivity.
  - destruct (String.eqb (deIdentGetSym r i) sym); [reflexivity | exact IH].
Qed.

Lemma unbound_check (r : deRoot) (block : deBlock) (sym : utSym) :
  forallb (fun ident => negb (String.eqb (deIdentGetSym r ident) sym))
    (deBlockGetIdents r block) = true ->
  unbound r block sym.
Proof.
  unfold unbound. rewrite forallb_forall, Forall_forall. intros H ident Hin.
  specialize (H ident Hin). apply negb_true_iff in H. now apply String.eqb_neq.
Qed.

Lemma identsAllocated_check (r : deRoot) (block : deBlock) :
  forallb (fun ident => ident <? used (Idents r)) (deBlockGetIdents r block) = true ->
  identsAllocated r block.
Proof.
  unfold identsAllocated. rewrite forallb_forall, Forall_forall. intros H ident Hin.
  now apply Nat.ltb_lt, H.
Qed.

(** Lookups after a method was added to a class block. *)
Lemma methodAdded_lookup (name : utSym) (linkage : deLinkage) (line selfLine : deLine)
    (classBlock : deBlock) (function : deFunction) (r r' : deRoot) (theClass : deClass) :
  deClassGetSubBlock r theClass = Some classBlock ->
  identsAllocated r classBlock ->
  methodAdded name linkage line selfLine classBlock function r r' ->
  (unbound r classBlock name -> deClassFindMethod r' theClass name = Ok (Some function)) /\
  (forall sym, sym <> name ->
               deClassFindMethod r' theClass sym = deClassFindMethod r theClass sym).
Proof.
  intros Hs Halloc (Hf & _ & Hcl & Hidents & Hsym & Htype & Hfun & Hothers & _).
  assert (Hkept : Forall (fun ident => cell (Idents r') ident = cell (Idents r) ident)
                    (deBlockGetIdents r classBlock)).
  { unfold identsAllocated in Halloc. rewrite Forall_forall in *. intros i Hi.
    apply Hothers. specialize (Halloc i Hi). lia. }
  assert (Hs' : deClassGetSubBlock r' theClass = Some classBlock).
  { unfold deClassGetSubBlock in *. now rewrite Hcl. }
  unfold deClassFindMethod, deBlockFindIdent. rewrite Hs, Hs'. cbn [bind deref].
  rewrite Hidents. split.
  - intros Hun. rewrite find_last, (find_same_syms r r' _ _ Hkept).
    rewrite (find_unbound r name _ Hun), Hsym, String.eqb_refl, Htype, Hfun.
    reflexivity.
  - intros sym Hne. rewrite find_last, (find_same_syms r r' _ _ Hkept).
    destruct (find (fun i => String.eqb (deIdentGetSym r i) sym) (deBlockGetIdents r classBlock))
      as [found|] eqn:Efind.
    + apply find_in in Efind. destruct Efind as [Hin _].
      rewrite Forall_forall in Hkept. specialize (Hkept found Hin).
      cbv beta iota. unfold deIdentGetType, deIdentGetFunction. now rewrite Hkept.
    + rewrite Hsym. apply not_eq_sym in Hne. apply String.eqb_neq in Hne. now rewrite Hne.
Qed.

(** X5: what [deClassFindMethod] answers: a function only when an identifier
    of the class block carries the name, is a function identifier and is bound
    to that function; null when no identifier of the block carries the name,
    and null when the only identifier that carries it names a variable. *)
Theorem deClassFindMethod_answers (r : deRoot) (theClass : deClass) (classBlock : deBlock)
    (methodSym : utSym) :
  deClassGetSubBlock r theClass = Some classBlock ->
  (forall function,
      deClassFindMethod r theClass methodSym = Ok (Some function) ->
      exists ident,
        In ident (deBlockGetIdents r classBlock) /\
        deIdentGetSym r ident = methodSym /\
        deIdentGetType r ident = DE_IDENT_FUNCTION /\
        deIdentGetFunction r ident = Some function) /\
  (unbound r classBlock methodSym -> deClassFindMethod r theClass methodSym = Ok None) /\
  (forall before ident after,
      deBlockGetIdents r classBlock = before ++ ident :: after ->
      Forall (fun i => deIdentGetSym r i <> methodSym) (before ++ after) ->
      deIdentGetSym r ident = methodSym ->
      deIdentGetType r ident = DE_IDENT_VARIABLE ->
      deClassFindMethod r theClass methodSym = Ok None).
Proof.
  intros Hs. unfold deClassFindMethod, deBlockFindIdent. rewrite Hs. cbn [bind deref].
  split; [|split].
  - intros function H.
    destruct (find _ _) as [ident|] eqn:Efind; [|discriminate H].
    apply find_in in Efind. destruct Efind as [Hin Hsym].
    exists ident. destruct (deIdentGetType r ident) eqn:Et; cbn in H; [|discriminate H].
    injection H as H. auto.
  - intros Hun. now rewrite (find_unbound r methodSym _ Hun).
  - intros before ident after Hidents Hothers Hsym Htype. rewrite Hidents.
    apply Forall_app in Hothers. destruct Hothers as [Hbefore _].
    assert (E : find (fun i => String.eqb (deIdentGetSym r i) methodSym)
                  (before ++ ident :: after) = Some ident).
    { clear Hidents. induction Hbefore as [|i rest Hi _ IH]; cbn [find app].
      - now rewrite Hsym, String.eqb_refl.
      - apply String.eqb_neq in Hi. now rewrite Hi. }
    rewrite E, Htype. reflexivity.
Qed.

Lemma deClassFindMethod_answers_witness :
  (forall function,
      deClassFindMethod pairPrinted 0 "toString"%string = Ok (Some function) ->
      exists ident,
        In ident (deBlockGetIdents pairPrinted 3) /\
        deIdentGetSym pairPrinted ident = "toString"%string /\
        deIdentGetType pairPrinted ident = DE_IDENT_FUNCTION /\
        deIdentGetFunction pairPrinted ident = Some function) /\
  deClassFindMethod pairPrinted 0 "toString"%string = Ok (Some 2) /\
  deClassFindMethod pairPrinted 0 "dump"%string = Ok None.
Proof.
  assert (Hs : deClassGetSubBlock pairPrinted 0 = Some 3) by (vm_compute; reflexivity).
  destruct (deClassFindMethod_answers pairPrinted 0 3 "toString"%string Hs) as (H1 & _ & _).
  split; [exact H1|]. split; vm_compute; reflexivity.
Defined.

Lemma deClassFindMethod_variables (r : deRoot) (theClass : deClass) (classBlock : deBlock) :
  deClassGetSubBlock r theClass = Some classBlock ->
  Forall (fun ident => deIdentGetType r ident = DE_IDENT_VARIABLE)
         (deBlockGetIdents r classBlock) ->
  forall methodSym, deClassFindMethod r theClass methodSym = Ok None.
Proof.
  intros Hs Hall methodSym. unfold deClassFindMethod, deBlockFindIdent.
  rewrite Hs. cbn [bind deref].
  destruct (find _ _) as [ident|] eqn:Efind; [|reflexivity].
  apply find_in in Efind. destruct Efind as [Hin _].
  rewrite Forall_forall in Hall. now rewrite (Hall ident Hin).
Qed.

(** X6: the class that [classCreate] makes has no function identifier and no
    function in its block: its only identifier is the one of the variable
    nextFree.  So [deClassFindMethod] answers null for every name, nextFree
    and the destroy method of the tclass included. *)
Theorem deClassFindMethod_new_class (tclass : deTclass) (r : deRoot) (theClass : deClass)
    (r' : deRoot) :
  classCreate tclass r = Ok (theClass, r') ->
  exists classBlock,
    deClassGetSubBlock r' theClass = Some classBlock /\
    Forall (fun ident => deIdentGetType r' ident = DE_IDENT_VARIABLE)
           (deBlockGetIdents r' classBlock) /\
    deBlockGetFunctions r' classBlock = [] /\
    forall methodSym, deClassFindMethod r' theClass methodSym = Ok None.
Proof.
  intros H. destruct (classCreate_Ok _ _ _ _ H) as (constructor & block & Hc & Hb).
  destruct (classCreate_frame _ _ _ _ Hc Hb)
    as (r'' & E & _ & _ & _ & _ & Hcl & _ & _ & _ & (_ & Hid & _) & _ & _ & _ & Hblock & _).
  rewrite E in H. injection H as <- <-.
  exists (used (Blocks r)).
  assert (Hs : deClassGetSubBlock r'' (used (Classes r)) = Some (used (Blocks r))).
  { unfold deClassGetSubBlock. now rewrite Hcl. }
  assert (Hi : Forall (fun ident => deIdentGetType r'' ident = DE_IDENT_VARIABLE)
                 (deBlockGetIdents r'' (used (Blocks r)))).
  { unfold deBlockGetIdents, deIdentGetType. rewrite Hblock. cbn.
    constructor; [|constructor]. now rewrite Hid. }
  split; [exact Hs|]. split; [exact Hi|].
  split; [unfold deBlockGetFunctions; now rewrite Hblock|].
  now apply deClassFindMethod_variables with (classBlock := used (Blocks r)).
Qed.

Lemma deClassFindMethod_new_class_witness :
  (exists ident,
      deBlockFindIdent pairRoot 1 "destroy"%string = Some ident /\
      deIdentGetType pairRoot ident = DE_IDENT_FUNCTION) /\
  exists r' classBlock,
    classCreate 0 pairRoot = Ok (0, r') /\
    deClassGetSubBlock r' 0 = Some classBlock /\
    Forall (fun ident => deIdentGetType r' ident = DE_IDENT_VARIABLE)
           (deBlockGetIdents r' classBlock) /\
    deBlockGetFunctions r' classBlock = [] /\
    forall methodSym, deClassFindMethod r' 0 methodSym = Ok None.
Proof.
  split; [eexists; split; vm_compute; reflexivity|].
  destruct (classCreate 0 pairRoot) as [[c r']|] eqn:E; [|vm_compute in E; discriminate E].
  assert (Ec : c = 0).
  { destruct (classCreate_classAdded _ _ _ _ E) as [-> _]. vm_compute. reflexivity. }
  subst c. exists r'.
  destruct (deClassFindMethod_new_class 0 pairRoot 0 r' E) as (classBlock & H).
  exists classBlock. split; [reflexivity | exact H].
Defined.

(** X7: after [deGenerateDefaultToStringMethod], [deClassFindMethod] finds
    the generated function under the name toString when the class block did not
    bind that name before, and the answer for every other name is as before. *)
Theorem deGenerateDefaultToStringMethod_found (slot : deExpression -> string)
    (theClass : deClass) (r : deRoot) (classBlock : deBlock) (function : deFunction)
    (r' : deRoot) :
  deClassGetSubBlock r theClass = Some classBlock ->
  classBlock < used (Blocks r) ->
  identsAllocated r classBlock ->
  unbound r classBlock "toString"%string ->
  deGenerateDefaultToStringMethod slot theClass r = Ok (function, r') ->
  deClassFindMethod r' theClass "toString"%string = Ok (Some function) /\
  (forall sym, sym <> "toString"%string ->
               deClassFindMethod r' theClass sym = deClassFindMethod r theClass sym).
Proof.
  intros Hs Hk Halloc Hun H.
  destruct (deGenerateDefaultToStringMethod_Ok _ _ _ _ _ H) as (tclass & constructor & Ht & Hc).
  pose proof (deGenerateDefaultToStringMethod_methodAdded _ _ _ _ _ _ _ _ Hs Ht Hc Hk H)
    as Hadded.
  destruct (methodAdded_lookup _ _ _ _ _ _ _ _ _ Hs Halloc Hadded) as [Hfound Hothers].
  split; [exact (Hfound Hun) | exact Hothers].
Qed.

Lemma deGenerateDefaultToStringMethod_found_witness :
  deClassFindMethod pairClassRoot 0 "toString"%string = Ok None /\
  deGenerateDefaultToStringMethod (fun _ => "<slot>"%string) 0 pairClassRoot
  = Ok (2, pairPrinted) /\
  deClassFindMethod pairPrinted 0 "toString"%string = Ok (Some 2) /\
  (forall sym, sym <> "toString"%string ->
               deClassFindMethod pairPrinted 0 sym = deClassFindMethod pairClassRoot 0 sym).
Proof.
  split; [vm_compute; reflexivity|].
  assert (E : deGenerateDefaultToStringMethod (fun _ => "<slot>"%string) 0 pairClassRoot
              = Ok (2, pairPrinted)) by (vm_compute; reflexivity).
  split; [exact E|].
  apply (deGenerateDefaultToStringMethod_found (fun _ => "<slot>"%string) 0 pairClassRoot 3 2
           pairPrinted).
  - vm_compute. reflexivity.
  - vm_compute. lia.
  - apply identsAllocated_check. vm_compute. reflexivity.
  - apply unbound_check. vm_compute. reflexivity.
  - exact E.
Defined.

(** X8: after [deGenerateDefaultDumpMethod], [deClassFindMethod] finds the
    generated function under the name dump when the class block did not bind
    that name before, and the answer for every other name, toString included,
    is as before. *)
Theorem deGenerateDefaultDumpMethod_found (theClass : deClass) (r : deRoot)
    (classBlock : deBlock) (function : deFunction) (r' : deRoot) :
  deClassGetSubBlock r theClass = Some classBlock ->
  classBlock < used (Blocks r) ->
  identsAllocated r classBlock ->
  unbound r classBlock "dump"%string ->
  deGenerateDefaultDumpMethod theClass r = Ok (function, r') ->
  deClassFindMethod r' theClass "dump"%string = Ok (Some function) /\
  (forall sym, sym <> "dump"%string ->
               deClassFindMethod r' theClass sym = deClassFindMethod r theClass sym).
Proof.
  intros Hs Hk Halloc Hun H.
  destruct (deGenerateDefaultDumpMethod_Ok _ _ _ _ H) as (tclass & constructor & Ht & Hc).
  pose proof (deGenerateDefaultDumpMethod_methodAdded _ _ _ _ _ _ _ Hs Ht Hc Hk H) as Hadded.
  destruct (methodAdded_lookup _ _ _ _ _ _ _ _ _ Hs Halloc Hadded) as [Hfound Hothers].
  split; [exact (Hfound Hun) | exact Hothers].
Qed.

Lemma deGenerateDefaultDumpMethod_found_witness :
  exists r',
    deGenerateDefaultDumpMethod 0 pairPrinted = Ok (3, r') /\
    deClassFindMethod r' 0 "dump"%string = Ok (Some 3) /\
    deClassFindMethod r' 0 "toString"%string = Ok (Some 2).
Proof.
  destruct (deGenerateDefaultDumpMethod 0 pairPrinted) as [[f r']|] eqn:E;
    [|vm_compute in E; discriminate E].
  assert (Hs : deClassGetSubBlock pairPrinted 0 = Some 3) by (vm_compute; reflexivity).
  assert (Hk : 3 < used (Blocks pairPrinted)) by (vm_compute; lia).
  assert (Ha : identsAllocated pairPrinted 3).
  { apply identsAllocated_check. vm_compute. reflexivity. }
  assert (Hu : unbound pairPrinted 3 "dump"%string).
  { apply unbound_check. vm_compute. reflexivity. }
  destruct (deGenerateDefaultDumpMethod_found 0 pairPrinted 3 f r' Hs Hk Ha Hu E)
    as [Hfound Hothers].
  assert (Ef : f = 3).
  { destruct (deGenerateDefaultDumpMethod_Ok _ _ _ _ E) as (tclass & constructor & Ht & Hc).
    destruct (deGenerateDefaultDumpMethod_methodAdded _ _ _ _ _ _ _ Hs Ht Hc Hk E) as (-> & _).
    vm_compute. reflexivity. }
  subst f. exists r'. split; [reflexivity|]. split; [exact Hfound|].
  rewrite Hothers by discriminate. vm_compute. reflexivity.
Defined.

(** X20: the toString method that [deGenerateDefaultToStringMethod] adds: a
    plain function, the last of the class block, with the linkage of the
    constructor of the tclass, declared on line 0, whose body holds the single
    constant parameter self declared on the line of the class block; the
    variables of the class block and every other function and variable are as
    before. *)
Theorem deGenerateDefaultToStringMethod_method (slot : deExpression -> string)
    (theClass : deClass) (r : deRoot) (classBlock : deBlock) (tclass : deTclass)
    (constructor : deFunction) (function : deFunction) (r' : deRoot) :
  deClassGetSubBlock r theClass = Some classBlock ->
  deClassGetTclass r theClass = Some tclass ->
  deTclassGetFunction r tclass = Some constructor ->
  classBlock < used (Blocks r) ->
  deGenerateDefaultToStringMethod slot theClass r = Ok (function, r') ->
  exists body self,
    function = used (Functions r) /\
    deBlockGetFunctions r' classBlock = deBlockGetFunctions r classBlock ++ [function] /\
    deFunctionGetType r' function = DE_FUNC_PLAIN /\
    deFunctionGetLinkage r' function = deFunctionGetLinkage r constructor /\
    deFunctionGetLine r' function = 0 /\
    deFunctionGetTclass r' function = None /\
    deFunctionGetSubBlock r' function = Some body /\
    deBlockGetVariables r' body = [self] /\
    deVariableGetSym r' self = "self"%string /\
    deVariableGetType r' self = DE_VAR_PARAMETER /\
    variable_Const (cell (Variables r') self) = true /\
    deVariableGenerated r' self = false /\
    deVariableGetLine r' self = deBlockGetLine r classBlock /\
    deBlockGetVariables r' classBlock = deBlockGetVariables r classBlock /\
    (forall f, f <> function -> cell (Functions r') f = cell (Functions r) f) /\
    (forall v, v <> self -> cell (Variables r') v = cell (Variables r) v).
Proof.
  intros Hs Ht Hc Hk H.
  destruct (deGenerateDefaultToStringMethod_methodAdded _ _ _ _ _ _ _ _ Hs Ht Hc Hk H)
    as (Hf & _ & _ & _ & _ & _ & _ & _ & Hfs & Hvs & Hcell & Hfothers & Hbody & Hself
        & Hvothers).
  exists (used (Blocks r)), (used (Variables r)).
  unfold deFunctionGetType, deFunctionGetLinkage, deFunctionGetLine, deFunctionGetTclass,
    deFunctionGetSubBlock, deVariableGetSym, deVariableGetType, deVariableGenerated,
    deVariableGetLine.
  rewrite Hcell, Hself. cbn.
  repeat split; try reflexivity; assumption.
Qed.

Lemma deGenerateDefaultToStringMethod_method_witness :
  exists body self,
    2 = used (Functions pairClassRoot) /\
    deBlockGetFunctions pairPrinted 3 = deBlockGetFunctions pairClassRoot 3 ++ [2] /\
    deFunctionGetType pairPrinted 2 = DE_FUNC_PLAIN /\
    deFunctionGetLinkage pairPrinted 2 = deFunctionGetLinkage pairClassRoot 0 /\
    deFunctionGetLine pairPrinted 2 = 0 /\
    deFunctionGetTclass pairPrinted 2 = None /\
    deFunctionGetSubBlock pairPrinted 2 = Some body /\
    deBlockGetVariables pairPrinted body = [self] /\
    deVariableGetSym pairPrinted self = "self"%string /\
    deVariableGetType pairPrinted self = DE_VAR_PARAMETER /\
    variable_Const (cell (Variables pairPrinted) self) = true /\
    deVariableGenerated pairPrinted self = false /\
    deVariableGetLine pairPrinted self = deBlockGetLine pairClassRoot 3 /\
    deBlockGetVariables pairPrinted 3 = deBlockGetVariables pairClassRoot 3 /\
    (forall f, f <> 2 -> cell (Functions pairPrinted) f = cell (Functions pairClassRoot) f) /\
    (forall v, v <> self -> cell (Variables pairPrinted) v = cell (Variables pairClassRoot) v).
Proof.
  apply (deGenerateDefaultToStringMethod_method (fun _ => "<slot>"%string) 0 pairClassRoot
           3 0 0 2 pairPrinted).
  - vm_compute. reflexivity.
  - vm_compute. reflexivity.
  - vm_compute. reflexivity.
  - vm_compute. lia.
  - vm_compute. reflexivity.
Defined.

(** X21: the dump method that [deGenerateDefaultDumpMethod] adds: a plain
    function, the last of the class block, with the linkage of the
    constructor of the tclass, declared on the line of the class block, whose
    body holds the single constant parameter self; the variables of the class
    block and every other function and variable are as before. *)
Theorem deGenerateDefaultDumpMethod_method (theClass : deClass) (r : deRoot)
    (classBlock : deBlock) (tclass : deTclass) (constructor : deFunction)
    (function : deFunction) (r' : deRoot) :
  deClassGetSubBlock r theClass = Some classBlock ->
  deClassGetTclass r theClass = Some tclass ->
  deTclassGetFunction r tclass = Some constructor ->
  classBlock < used (Blocks r) ->
  deGenerateDefaultDumpMethod theClass r = Ok (function, r') ->
  exists body self,
    function = used (Functions r) /\
    deBlockGetFunctions r' classBlock = deBlockGetFunctions r classBlock ++ [function] /\
    deFunctionGetType r' function = DE_FUNC_PLAIN /\
    deFunctionGetLinkage r' function = deFunctionGetLinkage r constructor /\
    deFunctionGetLine r' function = deBlockGetLine r classBlock /\
    deFunctionGetTclass r' function = None /\
    deFunctionGetSubBlock r' function = Some body /\
    deBlockGetVariables r' body = [self] /\
    deVariableGetSym r' self = "self"%string /\
    deVariableGetType r' self = DE_VAR_PARAMETER /\
    variable_Const (cell (Variables r') self) = true /\
    deVariableGenerated r' self = false /\
    deVariableGetLine r' self = deBlockGetLine r classBlock /\
    deBlockGetVariables r' classBlock = deBlockGetVariables r classBlock /\
    (forall f, f <> function -> cell (Functions r') f = cell (Functions r) f) /\
    (forall v, v <> self -> cell (Variables r') v = cell (Variables r) v).
Proof.
  intros Hs Ht Hc Hk H.
  destruct (deGenerateDefaultDumpMethod_methodAdded _ _ _ _ _ _ _ Hs Ht Hc Hk H)
    as (Hf & _ & _ & _ & _ & _ & _ & _ & Hfs & Hvs & Hcell & Hfothers & Hbody & Hself
        & Hvothers).
  exists (used (Blocks r)), (used (Variables r)).
  unfold deFunctionGetType, deFunctionGetLinkage, deFunctionGetLine, deFunctionGetTclass,
    deFunctionGetSubBlock, deVariableGetSym, deVariableGetType, deVariableGenerated,
    deVariableGetLine.
  rewrite Hcell, Hself. cbn.
  repeat split; try reflexivity; assumption.
Qed.

Lemma deGenerateDefaultDumpMethod_method_witness :
  exists r' body self,
    deGenerateDefaultDumpMethod 0 pairPrinted = Ok (3, r') /\
    deBlockGetFunctions r' 3 = [2; 3] /\
    deFunctionGetType r' 3 = DE_FUNC_PLAIN /\
    deFunctionGetLine r' 3 = deBlockGetLine pairPrinted 3 /\
    deFunctionGetSubBlock r' 3 = Some body /\
    deBlockGetVariables r' body = [self] /\
    deVariableGetSym r' self = "self"%string /\
    deBlockGetVariables r' 3 = deBlockGetVariables pairPrinted 3.
Proof.
  destruct (deGenerateDefaultDumpMethod 0 pairPrinted) as [[f r']|] eqn:E;
    [|vm_compute in E; discriminate E].
  assert (Hs : deClassGetSubBlock pairPrinted 0 = Some 3) by (vm_compute; reflexivity).
  assert (Ht : deClassGetTclass pairPrinted 0 = Some 0) by (vm_compute; reflexivity).
  assert (Hc : deTclassGetFunction pairPrinted 0 = Some 0) by (vm_compute; reflexivity).
  assert (Hk : 3 < used (Blocks pairPrinted)) by (vm_compute; lia).
  destruct (deGenerateDefaultDumpMethod_method 0 pairPrinted 3 0 0 f r' Hs Ht Hc Hk E)
    as (body & self & Hf & Hfs & Htype & _ & Hline & _ & Hsub & Hvars & Hsym & _ & _ & _ & _
        & Hmembers & _).
  assert (Ef : f = 3) by (rewrite Hf; vm_compute; reflexivity).
  subst f. exists r', body, self.
  repeat split; assumption.
Defined.

(** ** The order of compatibility and constructors without template parameters *)

Lemma datatypesCompatible_cases (r : deRoot) (newDatatype oldDatatype : deDatatype) :
  datatypesCompatible r newDatatype oldDatatype = true ->
  newDatatype = oldDatatype \/
  exists T theClass,
    newDatatype = deTbdclassDatatype T /\
    oldDatatype = deClassDatatype theClass /\
    deClassGetTclass r theClass = Some T.
Proof.
  unfold datatypesCompatible.
  destruct (deDatatype_eqb newDatatype oldDatatype) eqn:E.
  - apply deDatatype_eqb_eq in E. auto.
  - destruct newDatatype; simpl; try discriminate.
    destruct oldDatatype; simpl; try discriminate.
    rewrite option_nat_eqb_eq. intros H. right. eauto.
Qed.

Lemma datatypesCompatible_refl (r : deRoot) (d : deDatatype) :
  datatypesCompatible r d d = true.
Proof. unfold datatypesCompatible. now rewrite deDatatype_eqb_refl. Qed.

(** X9: [datatypesCompatible] is a partial order on the datatypes: every
    datatype is compatible with itself, compatibility passes along a chain of
    three datatypes, and two distinct datatypes are never compatible in both
    directions. *)
Theorem datatypesCompatible_order (r : deRoot) :
  (forall d, datatypesCompatible r d d = true) /\
  (forall a b c,
      datatypesCompatible r a b = true ->
      datatypesCompatible r b c = true ->
      datatypesCompatible r a c = true) /\
  (forall a b,
      datatypesCompatible r a b = true ->
      datatypesCompatible r b a = true ->
      a = b).
Proof.
  split; [exact (datatypesCompatible_refl r)|]. split.
  - intros a b c Hab Hbc.
    destruct (datatypesCompatible_cases _ _ _ Hab) as [->|(T & k & -> & -> & Hk)];
      [exact Hbc|].
    destruct (datatypesCompatible_cases _ _ _ Hbc) as [<-|(T' & k' & Habs & _)];
      [exact Hab | discriminate Habs].
  - intros a b Hab Hba.
    destruct (datatypesCompatible_cases _ _ _ Hab) as [->|(T & k & -> & -> & Hk)];
      [reflexivity|].
    destruct (datatypesCompatible_cases _ _ _ Hba) as [E|(T' & k' & Habs & _)];
      [discriminate E | discriminate Habs].
Qed.

(** When no parameter of the prefix is flagged, the loop answers match without
    reading a datatype. *)
Lemma matchVariables_unflagged (r : deRoot) (newSignature oldSignature : deSignature)
    (variables : list deVariable) :
  existsb (deVariableInTclassSignature r) variables = false ->
  forall xParam, matchVariables r newSignature oldSignature variables xParam = Ok true.
Proof.
  induction variables as [|v rest IH]; intros Hno xParam; [reflexivity|].
  cbn [existsb] in Hno. apply orb_false_iff in Hno. destruct Hno as [Hv Hrest].
  cbn [matchVariables]. rewrite Hv.
  destruct (negb (deVariableType_eqb (deVariableGetType r v) DE_VAR_PARAMETER));
    [reflexivity|].
  cbn [bind negb]. apply IH, Hrest.
Qed.

Lemma classSignaturesMatch_unflagged (r : deRoot) (tclass : deTclass)
    (newSignature oldSignature : deSignature) (function : deFunction) :
  deTclassGetFunction r tclass = Some function ->
  tclassHasTemplateParameters r tclass = Ok false ->
  deSignatureGetFunction r newSignature = Some function ->
  classSignaturesMatch r newSignature oldSignature = Ok true.
Proof.
  intros Hf Hno Hs. unfold tclassHasTemplateParameters in Hno.
  rewrite Hf in Hno. cbn [bind deref] in Hno.
  unfold classSignaturesMatch. rewrite Hs. cbn [bind deref].
  destruct (deFunctionGetSubBlock r function) as [block|]; cbn [bind deref] in *;
    [|discriminate Hno].
  injection Hno as Hno. now apply matchVariables_unflagged.
Qed.

(** X10: when the block of the constructor has no variable flagged
    inTclassSignature, [classSignaturesMatch] answers match for any two
    signatures, whatever datatypes they carry: no datatype is read, so the
    answer is the same for signatures with too few datatypes or none. *)
Theorem classSignaturesMatch_without_template (r : deRoot) (tclass : deTclass)
    (newSignature : deSignature) (function : deFunction) :
  deTclassGetFunction r tclass = Some function ->
  tclassHasTemplateParameters r tclass = Ok false ->
  deSignatureGetFunction r newSignature = Some function ->
  forall oldSignature, classSignaturesMatch r newSignature oldSignature = Ok true.
Proof.
  intros Hf Hno Hs oldSignature.
  exact (classSignaturesMatch_unflagged r tclass newSignature oldSignature function Hf Hno Hs).
Qed.

Lemma classSignaturesMatch_without_template_witness :
  deSignatureGetTypes pairRoot 0 <> deSignatureGetTypes pairRoot 1 /\
  forall oldSignature, classSignaturesMatch pairRoot 0 oldSignature = Ok true.
Proof.
  split; [vm_compute; discriminate|].
  apply (classSignaturesMatch_without_template pairRoot 0 0 0); vm_compute; reflexivity.
Defined.

(** X11: a tclass without template parameter never gets a second class from
    [deClassCreate]: once the tclass has a class, a signature of its
    constructor that has no class yet resolves to the first class of the
    tclass and the database is unchanged.  The one exception is a first class
    without signature on a tclass not flagged as having a default class,
    where the assertion of the scan stops the compiler. *)
Theorem deClassCreate_without_template (r : deRoot) (tclass : deTclass)
    (signature : deSignature) (function : deFunction) (first : deClass)
    (others : list deClass) :
  deTclassGetFunction r tclass = Some function ->
  deFunctionGetTclass r function = Some tclass ->
  tclassHasTemplateParameters r tclass = Ok false ->
  deSignatureGetFunction r signature = Some function ->
  deSignatureGetClass r signature = None ->
  deTclassGetClasses r tclass = first :: others ->
  deClassCreate tclass signature r
  = match deClassGetFirstSignature r first with
    | Some _ => Ok (first, r)
    | None => if deTclassHasDefaultClass r tclass then Ok (first, r) else Abort
    end.
Proof.
  intros Hf Ht Hno Hs Hcached Hclasses.
  unfold deClassCreate, findExistingClass. rewrite Hcached, Hs. cbn [bind deref].
  rewrite Ht. cbn [bind deref]. rewrite Hclasses. cbn [findAmongClasses].
  destruct (deClassGetFirstSignature r first) as [founding|].
  - rewrite (classSignaturesMatch_unflagged r tclass signature founding function Hf Hno Hs).
    reflexivity.
  - destruct (deTclassHasDefaultClass r tclass); reflexivity.
Qed.

Lemma deClassCreate_without_template_witness :
  deTclassGetClasses pairDefaultRoot 0 = [0] /\
  deClassGetFirstSignature pairDefaultRoot 0 = None /\
  deClassCreate 0 0 pairDefaultRoot = Ok (0, pairDefaultRoot) /\
  deClassCreate 0 1 (deClassAppendSignature 0 0 pairDefaultRoot)
  = Ok (0, deClassAppendSignature 0 0 pairDefaultRoot).
Proof.
  split; [vm_compute; reflexivity|]. split; [vm_compute; reflexivity|]. split.
  - rewrite (deClassCreate_without_template pairDefaultRoot 0 0 0 0 []);
      vm_compute; reflexivity.
  - rewrite (deClassCreate_without_template (deClassAppendSignature 0 0 pairDefaultRoot)
               0 1 0 0 []);
      vm_compute; reflexivity.
Defined.

Lemma matchVariables_prefix_unflagged (r : deRoot) (newSignature oldSignature : deSignature)
    (variables : list deVariable) :
  existsb (deVariableInTclassSignature r) (parameterPrefix r variables) = false ->
  forall xParam, matchVariables r newSignature oldSignature variables xParam = Ok true.
Proof.
  induction variables as [|v rest IH]; intros Hno xParam; [reflexivity|].
  cbn [matchVariables parameterPrefix] in *.
  destruct (deVariableType_eqb (deVariableGetType r v) DE_VAR_PARAMETER);
    cbn [negb]; [|reflexivity].
  cbn [existsb] in Hno. apply orb_false_iff in Hno. destruct Hno as [Hv Hrest].
  rewrite Hv. cbn [bind negb]. apply IH, Hrest.
Qed.

(** X19: the two loops over the variables of a constructor disagree on a
    flagged variable behind the parameters: [tclassHasTemplateParameters]
    looks at every variable of the block, so the tclass gets no default class,
    while [classSignaturesMatch] stops at the first variable that is not a
    parameter, so any two signatures of the constructor match. *)
Theorem flagged_local_variable (r : deRoot) (tclass : deTclass) (function : deFunction)
    (block : deBlock) :
  deTclassGetFunction r tclass = Some function ->
  deFunctionGetSubBlock r function = Some block ->
  existsb (deVariableInTclassSignature r) (parameterPrefix r (deBlockGetVariables r block))
  = false ->
  existsb (deVariableInTclassSignature r) (deBlockGetVariables r block) = true ->
  tclassHasTemplateParameters r tclass = Ok true /\
  (deTclassHasDefaultClass r tclass = false ->
   deTclassGetDefaultClass tclass r = Ok (None, r)) /\
  (forall newSignature oldSignature,
      deSignatureGetFunction r newSignature = Some function ->
      classSignaturesMatch r newSignature oldSignature = Ok true).
Proof.
  intros Hf Hb Hprefix Hall.
  assert (Htemplate : tclassHasTemplateParameters r tclass = Ok true).
  { unfold tclassHasTemplateParameters. rewrite Hf. cbn [bind deref].
    rewrite Hb. cbn [bind deref]. now rewrite Hall. }
  split; [exact Htemplate|]. split.
  - intros Hflag. unfold deTclassGetDefaultClass. rewrite Hflag, Htemplate. reflexivity.
  - intros newSignature oldSignature Hs. unfold classSignaturesMatch.
    rewrite Hs. cbn [bind deref]. rewrite Hb. cbn [bind deref].
    now apply matchVariables_prefix_unflagged.
Qed.

Lemma flagged_local_variable_witness :
  deSignatureGetTypes boxRoot 0 <> deSignatureGetTypes boxRoot 1 /\
  tclassHasTemplateParameters boxRoot 0 = Ok true /\
  deTclassGetDefaultClass 0 boxRoot = Ok (None, boxRoot) /\
  classSignaturesMatch boxRoot 1 0 = Ok true.
Proof.
  split; [vm_compute; discriminate|].
  destruct (flagged_local_variable boxRoot 0 0 1) as (Htemplate & Hdefault & Hmatch);
    try (vm_compute; reflexivity).
  split; [exact Htemplate|]. split.
  - apply Hdefault. vm_compute. reflexivity.
  - apply Hmatch. vm_compute. reflexivity.
Defined.

(** ** The default flag, the new class and its tuple *)

(** X12: in every database that a compilation reaches, a tclass flagged as
    having a default class has a class: [deTclassGetDefaultClass] returns its
    first class, never null, leaves the database unchanged, and that class is
    allocated and carries the number 1. *)
Theorem flagged_tclass_has_class (r : deRoot) (t : deTclass) :
  reachable r ->
  deTclassHasDefaultClass r t = true ->
  exists c,
    deTclassGetFirstClass r t = Some c /\
    deTclassGetDefaultClass t r = Ok (Some c, r) /\
    c < used (Classes r) /\
    ((N.of_nat (length (deTclassGetClasses r t)) <= uint32_max)%N ->
     deClassGetNumber r c = 1%N).
Proof.
  intros Hreach Hflag.
  destruct (reachable_sound _ Hreach t) as [[Halloc Hnum] Hnonempty].
  specialize (Hnonempty Hflag).
  rewrite (deTclassGetDefaultClass_flagged _ _ Hflag).
  unfold deTclassGetFirstClass.
  destruct (deTclassGetClasses r t) as [|c rest] eqn:E; [congruence|].
  exists c. cbn [hd_error]. repeat split.
  - now inversion Halloc.
  - intros Hfits. destruct (Hnum Hfits) as [_ Hmap].
    cbn [length seq map] in Hmap. now injection Hmap as -> _.
Qed.

Lemma flagged_tclass_has_class_witness :
  exists c,
    deTclassGetFirstClass pairDefaultRoot 0 = Some c /\
    deTclassGetDefaultClass 0 pairDefaultRoot = Ok (Some c, pairDefaultRoot) /\
    c < used (Classes pairDefaultRoot) /\
    ((N.of_nat (length (deTclassGetClasses pairDefaultRoot 0%nat)) <= uint32_max)%N ->
     deClassGetNumber pairDefaultRoot c = 1%N).
Proof.
  apply (flagged_tclass_has_class pairDefaultRoot 0).
  - exact pairDefaultRoot_reachable.
  - vm_compute. reflexivity.
Defined.

Lemma classCreate_root (tclass : deTclass) (r : deRoot) (theClass : deClass) (r' : deRoot) :
  classCreate tclass r = Ok (theClass, r') ->
  root_Classes r' = root_Classes r ++ [theClass].
Proof.
  intros H. open_root r. database. split_match H. injection H as <- <-. reflexivity.
Qed.

(** X13: [classCreate] touches nothing but what it makes: the new class is
    linked to the tclass, copies its reference width and is appended to the
    class list of the root; of the tclass only the count and the class list
    change; every other tclass and class, every function, signature and
    statement, and every block, variable and identifier that existed are as
    before. *)
Theorem classCreate_touches_only (tclass : deTclass) (r : deRoot) (theClass : deClass)
    (r' : deRoot) :
  classCreate tclass r = Ok (theClass, r') ->
  theClass = used (Classes r) /\
  deClassGetTclass r' theClass = Some tclass /\
  deClassGetRefWidth r' theClass = deTclassGetRefWidth r tclass /\
  deClassGetDatatype r' theClass = Some (deClassDatatype theClass) /\
  deClassGetSignatures r' theClass = [] /\
  root_Classes r' = root_Classes r ++ [theClass] /\
  root_Tclasses r' = root_Tclasses r /\
  (forall c, c <> theClass -> cell (Classes r') c = cell (Classes r) c) /\
  (forall t, t <> tclass -> cell (Tclasses r') t = cell (Tclasses r) t) /\
  deTclassGetFunction r' tclass = deTclassGetFunction r tclass /\
  deTclassGetRefWidth r' tclass = deTclassGetRefWidth r tclass /\
  deTclassGetDatatype r' tclass = deTclassGetDatatype r tclass /\
  deTclassGetLine r' tclass = deTclassGetLine r tclass /\
  deTclassHasDefaultClass r' tclass = deTclassHasDefaultClass r tclass /\
  Functions r' = Functions r /\ Signatures r' = Signatures r /\
  Statements r' = Statements r /\
  (forall b, b < used (Blocks r) -> cell (Blocks r') b = cell (Blocks r) b) /\
  (forall v, v < used (Variables r) -> cell (Variables r') v = cell (Variables r) v) /\
  (forall i, i < used (Idents r) -> cell (Idents r') i = cell (Idents r) i).
Proof.
  intros H. pose proof (classCreate_root _ _ _ _ H) as Hroot.
  destruct (classCreate_Ok _ _ _ _ H) as (constructor & block & Hc & Hb).
  destruct (classCreate_frame _ _ _ _ Hc Hb)
    as (r'' & E & _ & _ & Ht & Hts & Hcl & Hcls & Hf & Hsig & (_ & _ & Hid) & Hst & Hrt & _ & _
        & Hbs & _ & _ & Hvs).
  rewrite E in H. injection H as <- <-.
  unfold deClassGetTclass, deClassGetRefWidth, deClassGetDatatype, deClassGetSignatures,
    deTclassGetFunction, deTclassGetRefWidth, deTclassGetDatatype, deTclassGetLine,
    deTclassHasDefaultClass in *.
  rewrite Hcl, Ht. cbn.
  repeat split; try assumption; try reflexivity.
  - intros b Hlt. apply Hbs. lia.
  - intros v Hlt. apply Hvs. lia.
  - intros i Hlt. apply Hid. lia.
Qed.

Lemma classCreate_touches_only_witness :
  exists r',
    classCreate 0 pointClassRoot = Ok (1, r') /\
    deClassGetTclass r' 1 = Some 0 /\
    root_Classes r' = [0; 1] /\
    cell (Classes r') 0 = cell (Classes pointClassRoot) 0 /\
    Signatures r' = Signatures pointClassRoot /\
    (forall v, v < used (Variables pointClassRoot) ->
               cell (Variables r') v = cell (Variables pointClassRoot) v) /\
    (forall i, i < used (Idents pointClassRoot) ->
               cell (Idents r') i = cell (Idents pointClassRoot) i).
Proof.
  destruct (classCreate 0 pointClassRoot) as [[c r']|] eqn:E;
    [|vm_compute in E; discriminate E].
  destruct (classCreate_touches_only 0 pointClassRoot c r' E)
    as (Hc & Ht & _ & _ & _ & Hroot & _ & Hcls & _ & _ & _ & _ & _ & _ & _ & Hsig & _
        & _ & Hvs & Hids).
  assert (Ec : c = 1) by (rewrite Hc; vm_compute; reflexivity).
  subst c. exists r'. repeat split; try assumption.
  apply Hcls. lia.
Defined.

Lemma printed_datatypes (r : deRoot) (selfExpr : deExpression) (members : list deVariable) :
  map deExpressionGetDatatype (tupleElements r selfExpr members)
  = map (fun d => Some (printedDatatype d)) (memberDatatypes r members).
Proof.
  induction members as [|v rest IH]; [reflexivity|].
  cbn [tupleElements memberDatatypes].
  destruct (deVariableGetDatatype r v) as [d|]; [|exact IH].
  cbn [map]. rewrite IH. f_equal.
  unfold tupleElement, printedDatatype.
  destruct (deDatatypeType_eqb (deDatatypeGetType d) DE_TYPE_CLASS); reflexivity.
Qed.

Lemma memberDatatypes_all (r : deRoot) (members : list deVariable) :
  forallb (hasDatatype r) members = true ->
  map Some (memberDatatypes r members) = map (deVariableGetDatatype r) members.
Proof.
  induction members as [|v rest IH]; intros H; [reflexivity|].
  cbn [forallb] in H. apply andb_true_iff in H. destruct H as [Hv Hrest].
  cbn [memberDatatypes map]. unfold hasDatatype in Hv.
  destruct (deVariableGetDatatype r v) as [d|]; [|discriminate Hv].
  cbn [map]. now rewrite IH.
Qed.

(** X14: the datatype of the tuple that [buildClassTupleExpression] builds
    lists the datatypes of the members as they are declared, a class datatype
    included, while the element built for a member of class datatype is typed
    as the 32 bit unsigned integer; the tuple is on the line of the self
    expression and has one element per member. *)
Theorem buildClassTupleExpression_datatype (r : deRoot) (classBlock : deBlock)
    (selfExpr : deExpression) :
  forallb (hasDatatype r) (classMembers r classBlock) = true ->
  exists tupleExpr types,
    buildClassTupleExpression r classBlock selfExpr = Ok tupleExpr /\
    deExpressionGetLine tupleExpr = deExpressionGetLine selfExpr /\
    deExpressionGetDatatype tupleExpr = Some (deTupleDatatype types) /\
    map Some types = map (deVariableGetDatatype r) (classMembers r classBlock) /\
    length (deExpressionGetExpressions tupleExpr) = length (classMembers r classBlock) /\
    map deExpressionGetDatatype (deExpressionGetExpressions tupleExpr)
    = map (fun d => Some (printedDatatype d)) types.
Proof.
  intros H. unfold buildClassTupleExpression, deExpressionCreate, classMembers in *.
  rewrite appendMembers_members by exact H. cbn [bind app].
  eexists. eexists. split; [reflexivity|].
  cbn [deExpressionSetDatatype deExpressionGetLine deExpressionGetDatatype
       deExpressionGetExpressions deTupleDatatypeCreate].
  split; [reflexivity|]. split; [reflexivity|].
  split; [now apply memberDatatypes_all|].
  pose proof (printed_datatypes r selfExpr (filter (isMember r) (deBlockGetVariables r classBlock)))
    as Hp.
  split; [|exact Hp].
  apply (f_equal (@length _)) in Hp. rewrite !length_map in Hp. rewrite Hp.
  pose proof (memberDatatypes_all r _ H) as Hm.
  apply (f_equal (@length _)) in Hm. now rewrite !length_map in Hm.
Qed.

Lemma buildClassTupleExpression_datatype_witness :
  exists tupleExpr,
    buildClassTupleExpression pointClassRoot 3 (deIdentExpressionCreate "self"%string 1)
    = Ok tupleExpr /\
    deExpressionGetDatatype tupleExpr
    = Some (deTupleDatatype [deUintDatatype 32; deStringDatatype; deClassDatatype 0]) /\
    map deExpressionGetDatatype (deExpressionGetExpressions tupleExpr)
    = [Some (deUintDatatype 32); Some deStringDatatype; Some (deUintDatatype 32)].
Proof.
  destruct (buildClassTupleExpression_datatype pointClassRoot 3
              (deIdentExpressionCreate "self"%string 1))
    as (tupleExpr & types & E & _ & Hd & Htypes & _ & Hmap).
  - vm_compute. reflexivity.
  - exists tupleExpr. split; [exact E|].
    assert (Et : types = [deUintDatatype 32; deStringDatatype; deClassDatatype 0]).
    { vm_compute in Htypes. destruct types as [|a [|b [|c [|]]]]; try discriminate Htypes.
      cbn [map] in Htypes. congruence. }
    subst types. split; [exact Hd|]. rewrite Hmap. vm_compute. reflexivity.
Defined.

(** X15: the nextFree variable of a new class is generated by the compiler,
    so it is no member: the tuple built for a class straight after
    [classCreate] is empty, of the empty tuple datatype, and its print format
    is the pair of braces. *)
Theorem classCreate_prints_nothing (slot : deExpression -> string) (tclass : deTclass)
    (r : deRoot) (theClass : deClass) (r' : deRoot) (selfExpr : deExpression) :
  classCreate tclass r = Ok (theClass, r') ->
  exists classBlock nextFree tupleExpr,
    deClassGetSubBlock r' theClass = Some classBlock /\
    deBlockGetVariables r' classBlock = [nextFree] /\
    deVariableGenerated r' nextFree = true /\
    classMembers r' classBlock = [] /\
    buildClassTupleExpression r' classBlock selfExpr = Ok tupleExpr /\
    deExpressionGetExpressions tupleExpr = [] /\
    deExpressionGetDatatype tupleExpr = Some (deTupleDatatype []) /\
    findObjectPrintFormat slot tupleExpr = Ok "{}"%string.
Proof.
  intros H. destruct (classCreate_Ok _ _ _ _ H) as (constructor & block & Hc & Hb).
  destruct (classCreate_frame _ _ _ _ Hc Hb)
    as (r'' & E & _ & _ & _ & _ & Hcl & _ & _ & _ & _ & _ & _ & _ & Hblock & _ & _ & Hvar & _).
  rewrite E in H. injection H as <- <-.
  assert (Hvars : deBlockGetVariables r'' (used (Blocks r)) = [used (Variables r)]).
  { unfold deBlockGetVariables. now rewrite Hblock. }
  assert (Hgen : deVariableGenerated r'' (used (Variables r)) = true).
  { unfold deVariableGenerated. now rewrite Hvar. }
  assert (Hmem : classMembers r'' (used (Blocks r)) = []).
  { unfold classMembers, isMember. rewrite Hvars. cbn [filter].
    rewrite Hgen, andb_false_r. reflexivity. }
  exists (used (Blocks r)), (used (Variables r)).
  unfold buildClassTupleExpression, deExpressionCreate.
  rewrite appendMembers_members by (fold (classMembers r'' (used (Blocks r))); now rewrite Hmem).
  fold (classMembers r'' (used (Blocks r))). rewrite Hmem. cbn [bind app tupleElements
    memberDatatypes deExpressionSetDatatype deTupleDatatypeCreate].
  eexists. repeat split; try reflexivity; try assumption.
  unfold deClassGetSubBlock. now rewrite Hcl.
Qed.

Lemma classCreate_prints_nothing_witness :
  exists r' classBlock nextFree tupleExpr,
    classCreate 0 pairRoot = Ok (0, r') /\
    deClassGetSubBlock r' 0 = Some classBlock /\
    deBlockGetVariables r' classBlock = [nextFree] /\
    deVariableGenerated r' nextFree = true /\
    classMembers r' classBlock = [] /\
    buildClassTupleExpression r' classBlock pairSelf = Ok tupleExpr /\
    deExpressionGetExpressions tupleExpr = [] /\
    deExpressionGetDatatype tupleExpr = Some (deTupleDatatype []) /\
    findObjectPrintFormat (fun _ => "<slot>"%string) tupleExpr = Ok "{}"%string.
Proof.
  destruct (classCreate 0 pairRoot) as [[c r']|] eqn:E; [|vm_compute in E; discriminate E].
  assert (Ec : c = 0).
  { destruct (classCreate_classAdded _ _ _ _ E) as [-> _]. vm_compute. reflexivity. }
  subst c. exists r'.
  destruct (classCreate_prints_nothing (fun _ => "<slot>"%string) 0 pairRoot 0 r' pairSelf E)
    as (classBlock & nextFree & tupleExpr & H).
  exists classBlock, nextFree, tupleExpr. split; [reflexivity | exact H].
Defined.

(** ** What a call of deClassCreate changes *)

(** X16: [deClassCreate] changes the database in one case only.  When the
    signature has a cached class, or the scan stops at a class of the
    tclass, that class is returned and the database is the one given; a class
    is created only when the signature has no cached class and the scan has
    passed over every class of the tclass, and then the call adds exactly one
    class, the new handle, at the end of the class list of the tclass. *)
Theorem deClassCreate_outcomes (r : deRoot) (tclass : deTclass) (signature : deSignature)
    (function : deFunction) (c : deClass) (r' : deRoot) :
  deSignatureGetFunction r signature = Some function ->
  deFunctionGetTclass r function = Some tclass ->
  deClassCreate tclass signature r = Ok (c, r') ->
  (r' = r /\
   (deSignatureGetClass r signature = Some c \/
    (deSignatureGetClass r signature = None /\
     exists before after,
       deTclassGetClasses r tclass = before ++ c :: after /\
       Forall (passedOver r signature) before /\
       stopsAt r tclass signature c))) \/
  (deSignatureGetClass r signature = None /\
   Forall (passedOver r signature) (deTclassGetClasses r tclass) /\
   c = used (Classes r) /\
   classAdded tclass r r').
Proof.
  intros Hf Ht H.
  destruct (deClassCreate_three_ways r tclass signature function c r' Hf Ht H)
    as [[Hcached ->] | [(Hcached & -> & Hscan) | (Hcached & Hall & Hcc)]].
  - left. split; [reflexivity|]. now left.
  - left. split; [reflexivity|]. right. now split.
  - right. destruct (classCreate_classAdded _ _ _ _ Hcc) as [Hc Hadded].
    split; [exact Hcached|]. split; [exact Hall|]. split; [exact Hc | exact Hadded].
Qed.

Lemma deClassCreate_outcomes_witness :
  (exists r', deClassCreate 0 0 pointRoot = Ok (0, r') /\ classAdded 0 pointRoot r') /\
  (exists r', deClassCreate 0 2 pointClassRoot = Ok (1, r') /\ classAdded 0 pointClassRoot r') /\
  deClassCreate 0 1 pointClassRoot = Ok (0, pointClassRoot).
Proof.
  split; [|split].
  - destruct (deClassCreate 0 0 pointRoot) as [[c r']|] eqn:E;
      [|vm_compute in E; discriminate E].
    assert (Hf : deSignatureGetFunction pointRoot 0 = Some 0) by (vm_compute; reflexivity).
    assert (Ht : deFunctionGetTclass pointRoot 0 = Some 0) by (vm_compute; reflexivity).
    destruct (deClassCreate_outcomes pointRoot 0 0 0 c r' Hf Ht E)
      as [[-> Hhit] | (_ & _ & -> & Hadded)].
    + exfalso. destruct Hhit as [Hc | (_ & before & after & Hcs & _)].
      * vm_compute in Hc. discriminate Hc.
      * assert (Hnil : deTclassGetClasses pointRoot 0 = []) by (vm_compute; reflexivity).
        rewrite Hnil in Hcs. destruct before; discriminate Hcs.
    + exists r'. split; [reflexivity | exact Hadded].
  - destruct (deClassCreate 0 2 pointClassRoot) as [[c r']|] eqn:E;
      [|vm_compute in E; discriminate E].
    assert (Hf : deSignatureGetFunction pointClassRoot 2 = Some 0) by (vm_compute; reflexivity).
    assert (Ht : deFunctionGetTclass pointClassRoot 0 = Some 0) by (vm_compute; reflexivity).
    destruct (deClassCreate_outcomes pointClassRoot 0 2 0 c r' Hf Ht E)
      as [[-> Hhit] | (_ & _ & -> & Hadded)].
    + exfalso.
      apply (f_equal (fun m => match m with
                               | Ok (_, r1) => used (Classes r1)
                               | Abort => 0
                               end)) in E.
      vm_compute in E. discriminate E.
    + exists r'. split; [reflexivity | exact Hadded].
  - vm_compute. reflexivity.
Defined.

(** X17: once the caller has recorded a signature with the class that
    [deClassCreate] returned for it, a call with another signature of the
    same constructor that has no class yet and carries identical datatypes at
    every position of a parameter flagged inTclassSignature returns the same
    class and leaves the database unchanged, whatever the other datatypes. *)
Theorem deClassCreate_memoized (r : deRoot) (tclass : deTclass) (signature other : deSignature)
    (function : deFunction) (block : deBlock) (c : deClass) (r1 : deRoot) :
  deSignatureGetFunction r signature = Some function ->
  deFunctionGetTclass r function = Some tclass ->
  deFunctionGetSubBlock r function = Some block ->
  other <> signature ->
  deSignatureGetFunction r other = Some function ->
  deSignatureGetClass r signature = None ->
  deSignatureGetClass r other = None ->
  sameIdentity r block signature other = true ->
  length (parameterPrefix r (deBlockGetVariables r block))
    <= length (deSignatureGetTypes r signature) ->
  (N.of_nat (length (parameterPrefix r (deBlockGetVariables r block))) <= uint32_max)%N ->
  matcherAllocated r tclass block = true ->
  forallb (datatypeAllocated r) (deSignatureGetTypes r signature) = true ->
  deClassCreate tclass signature r = Ok (c, r1) ->
  deClassCreate tclass other (deClassAppendSignature c signature r1)
  = Ok (c, deClassAppendSignature c signature r1).
Proof.
  intros Hf Ht Hb Hne Hof Hcached Hocached Hsame Hlen Hk Halloc Hsigalloc Hcall.
  exact (deClassCreate_again r tclass signature other function block c r1
           Hf Ht Hb Hne Hof Hcached Hocached Hsame Hlen Hk Halloc Hsigalloc Hcall).
Qed.

Lemma deClassCreate_memoized_witness :
  deSignatureGetTypes pointRoot 0 <> deSignatureGetTypes pointRoot 1 /\
  deClassCreate 0 0 pointRoot = Ok (0, pointCreated) /\
  deClassCreate 0 1 (deClassAppendSignature 0 0 pointCreated)
  = Ok (0, deClassAppendSignature 0 0 pointCreated).
Proof.
  split; [vm_compute; discriminate|].
  assert (Hcall : deClassCreate 0 0 pointRoot = Ok (0, pointCreated))
    by (vm_compute; reflexivity).
  split; [exact Hcall|].
  apply (deClassCreate_memoized pointRoot 0 0 1 0 1 0 pointCreated);
    try (vm_compute; reflexivity).
  - lia.
  - apply N.leb_le. reflexivity.
Defined.

(** ** The unused constructor of default classes *)

(** [defaultClassCreate] up to its loop over the functions of the tclass
    block. *)
Lemma defaultClassCreate_frame (tclass : deTclass) (r : deRoot) (constructor : deFunction)
    (oldBlock : deBlock) :
  deTclassGetFunction r tclass = Some constructor ->
  deFunctionGetSubBlock r constructor = Some oldBlock ->
  oldBlock < used (Blocks r) ->
  exists r1,
    defaultClassCreate tclass r
    = bind (forwardFunctions (used (Blocks r)) (deBlockGetFunctions r oldBlock) r1)
        (fun r2 => Ok (used (Classes r), deRootAppendClass (used (Classes r)) r2)) /\
    used (Classes r1) = S (used (Classes r)) /\
    used (Tclasses r1) = used (Tclasses r) /\
    cell (Tclasses r1) tclass
    = mkTclass (deTclassGetFunction r tclass) (deTclassGetRefWidth r tclass)
        (deTclassGetDatatype r tclass) (deTclassGetLine r tclass)
        (deTclassHasDefaultClass r tclass) (u32 (deTclassGetNumClasses r tclass + 1))
        (deTclassGetClasses r tclass ++ [used (Classes r)]) /\
    (forall t, t <> tclass -> cell (Tclasses r1) t = cell (Tclasses r) t) /\
    cell (Classes r1) (used (Classes r))
    = mkClass (Some tclass) (u32 (deTclassGetNumClasses r tclass + 1)) 0
        (Some (used (Blocks r))) (Some (deClassDatatype (used (Classes r)))) [] /\
    (forall c, c <> used (Classes r) -> cell (Classes r1) c = cell (Classes r) c) /\
    Functions r1 = Functions r /\ Signatures r1 = Signatures r /\
    (used (Idents r1) = S (used (Idents r)) /\
     cell (Idents r1) (used (Idents r))
     = mkIdent (Some (used (Blocks r))) DE_IDENT_VARIABLE "nextFree"%string 0 None /\
     forall i, i <> used (Idents r) -> cell (Idents r1) i = cell (Idents r) i) /\
    Statements r1 = Statements r /\
    root_Tclasses r1 = root_Tclasses r /\ root_Classes r1 = root_Classes r /\
    used (Blocks r1) = S (used (Blocks r)) /\
    cell (Blocks r1) (used (Blocks r))
    = mkBlock None DE_BLOCK_CLASS (deTclassGetLine r tclass) [used (Variables r)] []
        [used (Idents r)] [] /\
    (forall b, b <> used (Blocks r) -> cell (Blocks r1) b = cell (Blocks r) b) /\
    used (Variables r1) = S (used (Variables r)) /\
    cell (Variables r1) (used (Variables r))
    = mkVariable DE_VAR_LOCAL false "nextFree"%string None false 0 false false
        (Some (deClassDatatype (used (Classes r)))) true /\
    (forall v, v <> used (Variables r) -> cell (Variables r1) v = cell (Variables r) v).
Proof.
  intros Hc Hb Hk. assert (Hk' : oldBlock <> used (Blocks r)) by lia. clear Hk.
  open_root r. database.
  rewrite Hc. database. rewrite Hb. database.
  rewrite ?(update_other _ _ _ _ Hk').
  eexists. split; [reflexivity|]. database.
  repeat split; try reflexivity; cell_eq.
Qed.

(** One round of the loop of [defaultClassCreate]. *)
Lemma forwardFunctions_step (subBlock : deBlock) (function : deFunction) (name : utSym)
    (r : deRoot) :
  let r1 := deFunctionAppendIdent function (used (Idents r))
              (snd (deIdentCreate subBlock DE_IDENT_FUNCTION name
                      (deFunctionGetLine r function) r)) in
  fst (deIdentCreate subBlock DE_IDENT_FUNCTION name (deFunctionGetLine r function) r)
  = used (Idents r) /\
  Tclasses r1 = Tclasses r /\ Classes r1 = Classes r /\ Variables r1 = Variables r /\
  Signatures r1 = Signatures r /\ Statements r1 = Statements r /\
  root_Tclasses r1 = root_Tclasses r /\ root_Classes r1 = root_Classes r /\
  used (Blocks r1) = used (Blocks r) /\
  used (Idents r1) = S (used (Idents r)) /\
  cell (Idents r1) (used (Idents r))
  = mkIdent (Some subBlock) DE_IDENT_FUNCTION name (deFunctionGetLine r function)
      (Some function) /\
  (forall i, i <> used (Idents r) -> cell (Idents r1) i = cell (Idents r) i) /\
  cell (Blocks r1) subBlock
  = mkBlock (deBlockGetFilepath r subBlock) (deBlockGetType r subBlock)
      (deBlockGetLine r subBlock) (deBlockGetVariables r subBlock)
      (deBlockGetFunctions r subBlock) (deBlockGetIdents r subBlock ++ [used (Idents r)])
      (deBlockGetStatements r subBlock) /\
  (forall b, b <> subBlock -> cell (Blocks r1) b = cell (Blocks r) b) /\
  cell (Functions r1) function
  = mkFunction (deFunctionGetType r function) (deFunctionGetLinkage r function)
      (deFunctionGetLine r function) (deFunctionBuiltin r function)
      (deFunctionGetSubBlock r function) (deFunctionGetTclass r function)
      (deFunctionGetIdents r function ++ [used (Idents r)]) /\
  (forall f, f <> function -> cell (Functions r1) f = cell (Functions r) f).
Proof.
  open_root r. database. repeat split; try reflexivity; cell_eq.
Qed.

Lemma forwarded_nil (subBlock : deBlock) (r : deRoot) : forwarded subBlock [] r r.
Proof.
  unfold forwarded, deBlockGetFilepath, deBlockGetType, deBlockGetLine, deBlockGetVariables,
    deBlockGetFunctions, deBlockGetIdents, deBlockGetStatements.
  cbn [length seq]. rewrite app_nil_r, Nat.add_0_r.
  repeat split; try reflexivity.
  - now destruct (cell (Blocks r) subBlock).
  - intros k f H. destruct k; discriminate H.
  - exists []. now rewrite app_nil_r.
Qed.

Lemma forwardFunctions_forwarded (subBlock : deBlock) (functions : list deFunction) :
  forall r,
    functionsNamed r functions ->
    exists r',
      forwardFunctions subBlock functions r = Ok r' /\
      forwarded subBlock functions r r'.
Proof.
  induction functions as [|function rest IH]; intros r Hnamed.
  - exists r. split; [reflexivity | apply forwarded_nil].
  - inversion Hnamed as [|f0 l0 (first & Hfirst & Halloc) Hrest]; subst.
    cbn [forwardFunctions]. rewrite Hfirst. cbn [bind deref].
    pose proof (forwardFunctions_step subBlock function (deIdentGetSym r first) r) as Hstep.
    cbv zeta in Hstep.
    destruct (deIdentCreate subBlock DE_IDENT_FUNCTION (deIdentGetSym r first)
                (deFunctionGetLine r function) r) as [ident r0].
    cbn [fst snd] in Hstep.
    destruct Hstep as (-> & Ht & Hc & Hv & Hsig & Hst & Hrt & Hrc & Hub & Hui & Hnew & Hids
                       & Hblock & Hblocks & Hfun & Hfuns).
    set (r1 := deFunctionAppendIdent function (used (Idents r)) r0) in *.
    assert (Hfirsts : forall f i, deFunctionGetFirstIdent r f = Some i ->
                                  deFunctionGetFirstIdent r1 f = Some i).
    { intros f i Hf. unfold deFunctionGetFirstIdent, deFunctionGetIdents in *.
      destruct (Nat.eq_dec f function) as [->|Hne].
      - rewrite Hfun. cbn [function_Idents]. unfold deFunctionGetIdents.
        destruct (function_Idents (cell (Functions r) function)); [discriminate Hf | exact Hf].
      - now rewrite (Hfuns _ Hne). }
    assert (Hlines : forall f, deFunctionGetLine r1 f = deFunctionGetLine r f /\
                               deFunctionGetSubBlock r1 f = deFunctionGetSubBlock r f /\
                               deFunctionGetTclass r1 f = deFunctionGetTclass r f /\
                               exists added, deFunctionGetIdents r1 f
                                             = deFunctionGetIdents r f ++ added).
    { intros f. unfold deFunctionGetLine, deFunctionGetSubBlock, deFunctionGetTclass,
        deFunctionGetIdents.
      destruct (Nat.eq_dec f function) as [->|Hne].
      - rewrite Hfun. cbn. repeat split; try reflexivity. now exists [used (Idents r)].
      - rewrite (Hfuns _ Hne). repeat split; try reflexivity. exists []. now rewrite app_nil_r. }
    assert (Hnamed1 : functionsNamed r1 rest).
    { unfold functionsNamed in *. rewrite Forall_forall in *. intros f Hin.
      destruct (Hrest f Hin) as (i & Hi & Hlt). exists i. split; [now apply Hfirsts|].
      rewrite Hui. lia. }
    destruct (IH r1 Hnamed1) as (r' & Erun & Hforw). exists r'. split; [exact Erun|].
    destruct Hforw as (Ht' & Hc' & Hv' & Hsig' & Hst' & Hrt' & Hrc' & Hub' & Hui' & Hids'
                       & Hblock' & Hblocks' & Hnth' & Hfuns').
    unfold forwarded. rewrite Ht', Hc', Hv', Hsig', Hst', Hrt', Hrc', Hub', Hui', Hui.
    repeat split; try assumption.
    + cbn [length]. lia.
    + intros i Hi. rewrite Hids' by (rewrite Hui; lia). apply Hids. lia.
    + rewrite Hblock'. unfold deBlockGetFilepath, deBlockGetType, deBlockGetLine,
        deBlockGetVariables, deBlockGetFunctions, deBlockGetIdents, deBlockGetStatements.
      rewrite Hblock. cbn [block_Filepath block_Type block_Line block_Variables
                              block_Functions block_Idents block_Statements length seq].
      rewrite Hui, <- app_assoc. reflexivity.
    + intros b Hne. rewrite (Hblocks' _ Hne). now apply Hblocks.
    + intros k f Hk. destruct k as [|k].
      * cbn [nth_error] in Hk. injection Hk as <-. exists first. split; [exact Hfirst|].
        rewrite Nat.add_0_r, Hids' by (rewrite Hui; lia). exact Hnew.
      * cbn [nth_error] in Hk. destruct (Hnth' k f Hk) as (first' & Hfirst' & Hcell).
        assert (Hin : In f rest) by (eapply nth_error_In; exact Hk).
        unfold functionsNamed in Hrest. rewrite Forall_forall in Hrest.
        destruct (Hrest f Hin) as (i & Hi & Hlt).
        rewrite (Hfirsts f i Hi) in Hfirst'. injection Hfirst' as <-.
        exists i. split; [exact Hi|].
        replace (used (Idents r) + S k) with (used (Idents r1) + k) by (rewrite Hui; lia).
        rewrite Hcell. destruct (Hlines f) as (Hline & _).
        rewrite Hline. unfold deIdentGetSym. rewrite Hids by lia. reflexivity.
    + destruct (Hfuns' f) as (H1 & _). destruct (Hlines f) as (H2 & _). congruence.
    + destruct (Hfuns' f) as (_ & H1 & _). destruct (Hlines f) as (_ & H2 & _). congruence.
    + destruct (Hfuns' f) as (_ & _ & H1 & _). destruct (Hlines f) as (_ & _ & H2 & _).
      congruence.
    + destruct (Hfuns' f) as (_ & _ & _ & added' & H1).
      destruct (Hlines f) as (_ & _ & _ & added & H2).
      exists (added ++ added'). rewrite H1, H2, app_assoc. reflexivity.
Qed.

Lemma nth_error_Forall2_seq (A : Type) (P : A -> nat -> Prop) (l : list A) :
  forall base,
    (forall k a, nth_error l k = Some a -> P a (base + k)) ->
    Forall2 P l (seq base (length l)).
Proof.
  induction l as [|a rest IH]; intros base H; cbn [length seq]; constructor.
  - specialize (H 0 a eq_refl). now rewrite Nat.add_0_r in H.
  - apply IH. intros k b Hk. replace (S base + k) with (base + S k) by lia.
    apply H. exact Hk.
Qed.

(** X18: what the static function [defaultClassCreate] would build (no
    function of class.c calls it): one class added to the tclass, numbered as
    [classCreate] numbers it, whose nextFree variable is typed as the class
    itself and is not marked generated.  The identifiers of its block are the
    variable identifier of nextFree followed by one function identifier for
    each function of the tclass block, in order, carrying the name of that
    function's first identifier and bound to the function; no function is
    copied into the class block. *)
Theorem defaultClassCreate_forwards_all (tclass : deTclass) (r : deRoot)
    (constructor : deFunction) (oldBlock : deBlock) :
  deTclassGetFunction r tclass = Some constructor ->
  deFunctionGetSubBlock r constructor = Some oldBlock ->
  oldBlock < used (Blocks r) ->
  functionsNamed r (deBlockGetFunctions r oldBlock) ->
  exists r' subBlock nextFree nextFreeIdent forwards,
    defaultClassCreate tclass r = Ok (used (Classes r), r') /\
    classAdded tclass r r' /\
    root_Classes r' = root_Classes r ++ [used (Classes r)] /\
    deClassGetTclass r' (used (Classes r)) = Some tclass /\
    deClassGetSubBlock r' (used (Classes r)) = Some subBlock /\
    deBlockGetType r' subBlock = DE_BLOCK_CLASS /\
    deBlockGetVariables r' subBlock = [nextFree] /\
    deVariableGetSym r' nextFree = "nextFree"%string /\
    deVariableGetDatatype r' nextFree = Some (deClassDatatype (used (Classes r))) /\
    deVariableGetDatatype r' nextFree = deClassGetDatatype r' (used (Classes r)) /\
    deVariableGenerated r' nextFree = false /\
    deVariableInstantiated r' nextFree = true /\
    deBlockGetFunctions r' subBlock = [] /\
    deBlockGetIdents r' subBlock = nextFreeIdent :: forwards /\
    deIdentGetType r' nextFreeIdent = DE_IDENT_VARIABLE /\
    deIdentGetSym r' nextFreeIdent = "nextFree"%string /\
    Forall2 (fun f ident =>
               exists first,
                 deFunctionGetFirstIdent r f = Some first /\
                 deIdentGetType r' ident = DE_IDENT_FUNCTION /\
                 deIdentGetSym r' ident = deIdentGetSym r first /\
                 deIdentGetLine r' ident = deFunctionGetLine r f /\
                 deIdentGetFunction r' ident = Some f)
            (deBlockGetFunctions r oldBlock) forwards.
Proof.
  intros Hc Hb Hk Hnamed.
  destruct (defaultClassCreate_frame tclass r constructor oldBlock Hc Hb Hk)
    as (r1 & E & HuC & HuT & Ht & Hts & Hcl & Hcls & Hf & Hsig & (HuI & Hnew & Hid) & Hst
        & Hrt & Hrc & HuB & Hblock & Hblocks & HuV & Hvar & Hvars).
  assert (Hnamed1 : functionsNamed r1 (deBlockGetFunctions r oldBlock)).
  { unfold functionsNamed, deFunctionGetFirstIdent, deFunctionGetIdents in *.
    rewrite Hf, HuI. eapply Forall_impl; [|exact Hnamed].
    intros f (first & Hfirst & Hlt). exists first. split; [exact Hfirst | lia]. }
  destruct (forwardFunctions_forwarded (used (Blocks r)) _ r1 Hnamed1) as (r2 & Erun & Hforw).
  rewrite Erun in E. cbn [bind] in E.
  destruct Hforw as (Ht2 & Hc2 & Hv2 & _ & _ & _ & Hrc2 & _ & _ & Hids2 & Hblock2 & _ & Hnth
                     & _).
  exists (deRootAppendClass (used (Classes r)) r2), (used (Blocks r)), (used (Variables r)),
    (used (Idents r)), (seq (S (used (Idents r))) (length (deBlockGetFunctions r oldBlock))).
  split; [exact E|].
  unfold classAdded, sameTclass, deTclassGetClasses, deTclassGetNumClasses,
    deTclassHasDefaultClass, deClassGetNumber, deClassGetTclass, deClassGetSubBlock,
    deClassGetDatatype, deBlockGetType, deBlockGetVariables, deBlockGetFunctions,
    deBlockGetIdents, deVariableGetSym, deVariableGetDatatype, deVariableGenerated,
    deVariableInstantiated, deIdentGetType, deIdentGetSym, deIdentGetLine, deIdentGetFunction.
  change (Tclasses (deRootAppendClass (used (Classes r)) r2)) with (Tclasses r2).
  change (Classes (deRootAppendClass (used (Classes r)) r2)) with (Classes r2).
  change (Blocks (deRootAppendClass (used (Classes r)) r2)) with (Blocks r2).
  change (Variables (deRootAppendClass (used (Classes r)) r2)) with (Variables r2).
  change (Idents (deRootAppendClass (used (Classes r)) r2)) with (Idents r2).
  change (root_Classes (deRootAppendClass (used (Classes r)) r2))
    with (root_Classes r2 ++ [used (Classes r)]).
  rewrite Ht2, Hc2, Hv2, Hrc2, Hrc, Hblock2, Ht, Hcl, Hvar.
  unfold deBlockGetFilepath, deBlockGetType, deBlockGetLine, deBlockGetVariables,
    deBlockGetFunctions, deBlockGetIdents, deBlockGetStatements.
  rewrite Hblock, HuI, (Hids2 (used (Idents r))), Hnew by (rewrite HuI; lia). cbn.
  repeat split; try assumption; try reflexivity.
  - now rewrite Hts.
  - now rewrite Hts.
  - now rewrite Hts.
  - intros c Hne. now rewrite Hcls.
  - apply nth_error_Forall2_seq. intros k f Hnthk.
    destruct (Hnth k f Hnthk) as (first & Hfirst & Hcell).
    destruct (Forall_forall (fun f => exists first,
                deFunctionGetFirstIdent r f = Some first /\ first < used (Idents r))
                (deBlockGetFunctions r oldBlock)) as [Hall _].
    destruct (Hall Hnamed f (nth_error_In _ _ Hnthk)) as (first0 & Hfirst0 & Hlt).
    unfold deFunctionGetFirstIdent, deFunctionGetIdents, deFunctionGetLine, deIdentGetSym in *.
    rewrite Hf in *. rewrite Hfirst0 in Hfirst. injection Hfirst as <-.
    rewrite HuI in Hcell. exists first0. rewrite Hcell. cbn.
    rewrite (Hid first0) by lia.
    repeat split; try reflexivity. exact Hfirst0.
Qed.

Lemma defaultClassCreate_forwards_all_witness :
  deBlockGetFunctions pairRoot 1 = [1] /\
  deFunctionGetFirstIdent pairRoot 1 = Some 4 /\
  deIdentGetSym pairRoot 4 = "destroy"%string /\
  exists r' subBlock nextFree nextFreeIdent forward,
    defaultClassCreate 0 pairRoot = Ok (used (Classes pairRoot), r') /\
    classAdded 0 pairRoot r' /\
    deClassGetSubBlock r' (used (Classes pairRoot)) = Some subBlock /\
    deBlockGetVariables r' subBlock = [nextFree] /\
    deVariableGetDatatype r' nextFree = Some (deClassDatatype (used (Classes pairRoot))) /\
    deVariableGenerated r' nextFree = false /\
    deBlockGetIdents r' subBlock = [nextFreeIdent; forward] /\
    deIdentGetType r' nextFreeIdent = DE_IDENT_VARIABLE /\
    deIdentGetSym r' nextFreeIdent = "nextFree"%string /\
    deIdentGetType r' forward = DE_IDENT_FUNCTION /\
    deIdentGetSym r' forward = "destroy"%string /\
    deIdentGetFunction r' forward = Some 1.
Proof.
  assert (Hfs : deBlockGetFunctions pairRoot 1 = [1]) by (vm_compute; reflexivity).
  split; [exact Hfs|]. split; [vm_compute; reflexivity|]. split; [vm_compute; reflexivity|].
  assert (Hc : deTclassGetFunction pairRoot 0 = Some 0) by (vm_compute; reflexivity).
  assert (Hb : deFunctionGetSubBlock pairRoot 0 = Some 1) by (vm_compute; reflexivity).
  assert (Hk : 1 < used (Blocks pairRoot)) by (vm_compute; lia).
  assert (Hnamed : functionsNamed pairRoot (deBlockGetFunctions pairRoot 1)).
  { rewrite Hfs. constructor; [|constructor].
    exists 4. split; [vm_compute; reflexivity | vm_compute; lia]. }
  destruct (defaultClassCreate_forwards_all 0 pairRoot 0 1 Hc Hb Hk Hnamed)
    as (r' & subBlock & nextFree & nextFreeIdent & forwards & E & Hadded & _ & _ & Hsub & _
        & Hvars & _ & Hdt & _ & Hgen & _ & _ & Hids & Hty & Hsym & Hall).
  rewrite Hfs in Hall.
  inversion Hall as [|f ident fs rest (first & Hfirst & Hfty & Hfsym & _ & Hffun) Hrest];
    subst.
  inversion Hrest; subst.
  assert (Ef : first = 4) by (vm_compute in Hfirst; congruence). subst first.
  exists r', subBlock, nextFree, nextFreeIdent, ident.
  split; [exact E|]. split; [exact Hadded|].
  repeat split; assumption.
Defined.
